(** * P034b: feedback in a delayed many-to-one task

    A shallow embedding of [P034_ExpProgram_RP.py] (class [MainScreen]):
    the stimulus table loaded in [first_ITI], the session trial queue, the
    trial handlers ([ITI], [ready_signal_phase], [sample_key_press],
    [key_press], [feedback_stage], [provide_food], [time_out_func]) and the
    event log ([write_data], [write_comp_data]).

    Conventions.
    - A handler is a function [State -> option State]; [None] stands for a
      Python exception (KeyError, IndexError, AttributeError, TypeError)
      raised inside the handler.
    - [random.choice] and [random.shuffle] read an oracle of draws kept in
      the state ([Rng]); [randbelow n] is the next draw modulo [n].
    - [root.after] puts a callback in the list of pending timers; the Tk
      main loop delivers one event at a time ([Event], [step]).
    - Drawing on the canvas is reduced to what decides which presses can
      arrive: the background binding and whether the three keys are on top.
      GPIO output is not part of the state. *)

From Stdlib Require Import ZArith Ascii.
From stdpp Require Import base numbers strings option list.

Local Open Scope string_scope.
Local Open Scope Z_scope.

(** Sequencing of computations that may raise: [let? x := m in k]. *)
Notation "'let?' x ':=' m 'in' k" :=
  (match m with Some x => k | None => None end)
  (at level 10, x pattern, m at level 100, k at level 200).

(** ** Python primitives *)

Module Py.

(** [needle in s] for strings. *)
Definition str_in (needle s : string) : bool :=
  match String.index 0 needle s with
  | Some _ => true
  | None => false
  end.

(** [s[i]] for a string: a one-character string, IndexError when out of
    range. *)
Definition str_at (s : string) (i : nat) : option string :=
  match String.get i s with
  | Some c => Some (String c EmptyString)
  | None => None
  end.

(** [s[i:]] *)
Definition str_from (s : string) (i : nat) : string :=
  String.substring i (String.length s - i) s.

Fixpoint split_dot_aux (s cur : string) : list string :=
  match s with
  | EmptyString => [cur]
  | String c s' =>
      if Ascii.eqb c "."%char then cur :: split_dot_aux s' EmptyString
      else split_dot_aux s' (cur +:+ String c EmptyString)
  end.

(** [s.split(".")] *)
Definition split_dot (s : string) : list string := split_dot_aux s EmptyString.

Fixpoint chars (s : string) : list string :=
  match s with
  | EmptyString => []
  | String c s' => String c EmptyString :: chars s'
  end.

(** The source of randomness: draw number [pos] of the stream [draws] is
    the next one consumed. *)
Record Rng := mkRng { draws : nat → nat; pos : nat }.

Definition randbelow (n : nat) (g : Rng) : nat * Rng :=
  ((draws g (pos g) mod n)%nat, mkRng (draws g) (S (pos g))).

(** [random.choice(seq)]: [seq[randbelow(len(seq))]]; IndexError on an
    empty sequence. *)
Definition choice {A} (seq : list A) (g : Rng) : option (A * Rng) :=
  match seq with
  | [] => None
  | _ =>
      let (i, g') := randbelow (length seq) g in
      let? x := seq !! i in Some (x, g')
  end.

(** [l[i]] for a list and an integer: a negative index counts from the end;
    IndexError when out of range. *)
Definition list_at {A} (l : list A) (i : Z) : option A :=
  if 0 <=? i then l !! Z.to_nat i
  else if 0 <=? Z.of_nat (length l) + i then l !! Z.to_nat (Z.of_nat (length l) + i)
  else None.

(** [list(range(a, b))] *)
Definition range (a b : Z) : list Z :=
  (λ i : nat, a + Z.of_nat i) <$> seq 0 (Z.to_nat (b - a)).

(** [x[i], x[j] = x[j], x[i]] *)
Definition swap {A} (x : list A) (i j : nat) : list A :=
  match x !! i, x !! j with
  | Some a, Some b => <[j:=a]> (<[i:=b]> x)
  | _, _ => x
  end.

(** [random.shuffle(x)]:
    [for i in reversed(range(1, len(x))): j = randbelow(i + 1);
     x[i], x[j] = x[j], x[i]] *)
Fixpoint shuffle_from {A} (i : nat) (x : list A) (g : Rng) : list A * Rng :=
  match i with
  | O => (x, g)
  | S i' =>
      let (j, g') := randbelow (S i) g in
      shuffle_from i' (swap x i j) g'
  end.

Definition shuffle {A} (x : list A) (g : Rng) : list A * Rng :=
  shuffle_from (length x - 1) x g.

(** [l.remove(x)]: drops the first element equal to [x]. *)
Fixpoint remove_first `{EqDecision A} (x : A) (l : list A) : list A :=
  match l with
  | [] => []
  | y :: l' => if decide (x = y) then l' else y :: remove_first x l'
  end.

End Py.

Import Py.

(** ** The stimulus table *)

(** The value stored under ["Feedback"] in a stimulus dictionary: a name, a
    list of names (set 10), or Python's [None] (sets 11 and 12). *)
Inductive FeedbackVal :=
  | FbName (n : string)
  | FbList (l : list string)
  | FbNone.

(** One dictionary of [stimuli_identity_d_list], after the columns of the
    subject's group have been projected: ["Name"], ["Key"], ["Group"], and
    ["Feedback"] once the second pass has written it ([None]: key absent). *)
Record Stim := mkStim {
  Name : string;
  Key : string;
  Group : string;
  Feedback : option FeedbackVal
}.

Global Instance FeedbackVal_eq_dec : EqDecision FeedbackVal.
Proof. solve_decision. Defined.

Global Instance Stim_eq_dec : EqDecision Stim.
Proof. solve_decision. Defined.

Definition set_Feedback (i : Stim) (v : FeedbackVal) : Stim :=
  mkStim (Name i) (Key i) (Group i) (Some v).

(** What the second pass of [first_ITI] leaves behind. *)
Record Catalog := mkCatalog {
  cat_list : list Stim;                      (* stimuli_identity_d_list *)
  cat_feedback_stimulus : option string;     (* self.feedback_stimulus *)
  cat_control_correct : option string;       (* self.control_correct_feedback *)
  cat_control_incorrect : option string      (* self.control_incorrect_feedback *)
}.

(** Sets 1 to 4:
    [for i in l: if i['Key'] == 'S': feedback_stimulus = i['Name']; l.remove(i)].
    The loop walks the list by index while the list shrinks under it. *)
Fixpoint pick_control_loop (fuel idx : nat) (l : list Stim) (fb : option string)
  : list Stim * option string :=
  match fuel with
  | O => (l, fb)
  | S fuel' =>
      match l !! idx with
      | None => (l, fb)
      | Some i =>
          if String.eqb (Key i) "S"
          then pick_control_loop fuel' (S idx) (remove_first i l) (Some (Name i))
          else pick_control_loop fuel' (S idx) l fb
      end
  end.

(** [for stim in l: if pred(stim["Key"]): acc = stim["Name"]] (the last
    match wins). *)
Definition last_name_with (p : string → bool) (l : list Stim) (acc : option string)
  : option string :=
  foldl (λ acc stim, if p (Key stim) then Some (Name stim) else acc) acc l.

Definition assign_last (p : string → bool) (l : list Stim) (i : Stim) : Stim :=
  match last_name_with p l None with
  | Some n => set_Feedback i (FbName n)
  | None => i
  end.

(** Set 10. *)
Definition resolve_10 (l : list Stim) (i : Stim) : option Stim :=
  if str_in "E" (Group i) then Some (set_Feedback i (FbName (Name i)))
  else if str_in "C" (Group i) then
    let? control_num := str_at (Group i) 1 in
    Some (set_Feedback i
            (FbList (Name <$> filter
                       (λ stim, head (split_dot (Key stim)) = Some ("S" +:+ control_num)) l)))
  else Some i.

(** Sets 13, 14 and 15. *)
Definition resolve_13_15 (set_num : Z) (l : list Stim) (i : Stim) : option Stim :=
  if str_in "E" (Group i) && negb (set_num =? 15)
  then Some (set_Feedback i (FbName (Name i)))
  else if str_in "E" (Group i) && (set_num =? 15) then
    let? exp_num := split_dot (Group i) !! 1%nat in
    Some (assign_last (String.eqb ("S." +:+ exp_num)) l i)
  else if str_in "C" (Group i) then
    let? control_num := split_dot (Group i) !! 1%nat in
    Some (assign_last (String.eqb ("S." +:+ control_num)) l i)
  else Some i.

(** Sets 16 and 17: an experimental stimulus is its own feedback; a control
    stimulus makes the loop record the two reserved stimuli. *)
Definition resolve_16_17 (i : Stim) : Stim :=
  if str_in "E" (Group i) then set_Feedback i (FbName (Name i)) else i.

Definition reserve_16_17 (l : list Stim) (acc : option string * option string)
  (i : Stim) : option string * option string :=
  if str_in "E" (Group i) then acc
  else if str_in "C" (Group i) then
    foldl (λ acc stim,
             if String.eqb (Key stim) "S.1" then (Some (Name stim), snd acc)
             else if String.eqb (Key stim) "S.2" then (fst acc, Some (Name stim))
             else acc) acc l
  else acc.

(** The remaining sets (5 to 9, 11, 12). *)
Definition resolve_default (set_num : Z) (l : list Stim) (i : Stim) : Stim :=
  if str_in "C" (Group i) then
    let control_num := str_from (Group i) 1 in
    if bool_decide (set_num ∈ [11; 12]) then set_Feedback i FbNone
    else assign_last (String.eqb ("S" +:+ control_num)) l i
  else if str_in "E" (Group i) then set_Feedback i (FbName (Name i))
  else i.

(** The second pass of [first_ITI] over the projected table. The loops of
    sets 5 and later write only ["Feedback"] and read only ["Key"] and
    ["Name"], so each row is resolved against the table as loaded. *)
Definition load_catalog (set_num : Z) (l : list Stim) : option Catalog :=
  if bool_decide (set_num ∈ [1; 2; 3; 4]) then
    let (l', fb) := pick_control_loop (length l) 0 l None in
    Some (mkCatalog l' fb None None)
  else if set_num =? 10 then
    let? l' := mapM (resolve_10 l) l in Some (mkCatalog l' None None None)
  else if bool_decide (set_num ∈ [13; 14; 15]) then
    let? l' := mapM (resolve_13_15 set_num l) l in Some (mkCatalog l' None None None)
  else if bool_decide (set_num ∈ [16; 17]) then
    let r := foldl (reserve_16_17 l) (None, None) l in
    Some (mkCatalog (resolve_16_17 <$> l) None (fst r) (snd r))
  else
    Some (mkCatalog (resolve_default set_num l <$> l) None None None).

(** ** The session trial queue *)

(** [for i in l: if "S" not in i["Key"]: set_of_trials.append(i["Name"])] *)
Definition append_eligible (l : list Stim) (set_of_trials : list string) : list string :=
  foldl (λ acc i, if str_in "S" (Key i) then acc else (acc ++ [Name i])%list) set_of_trials l.

(** [while len(set_of_trials) < len(l): <the for loop above>] *)
Fixpoint fill_set_of_trials (fuel : nat) (l : list Stim) (set_of_trials : list string)
  : option (list string) :=
  if (length set_of_trials <? length l)%nat then
    match fuel with
    | O => None
    | S fuel' => fill_set_of_trials fuel' l (append_eligible l set_of_trials)
    end
  else Some set_of_trials.

(** The outer loop. [passes] keeps every shuffled [set_of_trials] in the
    order it was appended; [order] is [trial_stimulus_order]. *)
Record Queue := mkQueue {
  order : list string;
  passes : list (list string);
  queue_rng : Rng
}.

Fixpoint build_order (fuel : nat) (l : list Stim) (max_trials : Z) (q : Queue)
  : option Queue :=
  if Z.of_nat (length (order q)) <? max_trials then
    match fuel with
    | O => None
    | S fuel' =>
        let? set_of_trials := fill_set_of_trials (length l) l [] in
        let (shuffled, g) := shuffle set_of_trials (queue_rng q) in
        build_order fuel' l max_trials
          (mkQueue (order q ++ shuffled)%list (passes q ++ [shuffled])%list g)
    end
  else Some q.

Definition build_trial_stimulus_order (l : list Stim) (max_trials : Z) (g : Rng)
  : option Queue :=
  build_order (Z.to_nat max_trials) l max_trials (mkQueue [] [] g).

(** ** Session state *)

Inductive KeyTag := left_comparison_key | right_comparison_key | sample_key.

Global Instance KeyTag_eq_dec : EqDecision KeyTag.
Proof. solve_decision. Defined.

Definition keytag_name (k : KeyTag) : string :=
  match k with
  | left_comparison_key => "left_comparison_key"
  | right_comparison_key => "right_comparison_key"
  | sample_key => "sample_key"
  end.

(** [self.exp_condition]: the subject's group number (1 to 4) from
    [__init__], overwritten in [ITI] by the first character of the sample's
    group tag. *)
Inductive Cond :=
  | CondGroup (g : Z)
  | CondLetter (c : string).

Global Instance Cond_eq_dec : EqDecision Cond.
Proof. solve_decision. Defined.

(** [self.exp_condition == c] for a string [c]. *)
Definition cond_is (e : Cond) (c : string) : bool :=
  match e with
  | CondLetter x => String.eqb x c
  | CondGroup _ => false
  end.

(** [current_key_stimulus_dict]: always the same three keys. *)
Record KeyDict := mkKeyDict {
  at_left_comparison_key : string;
  at_right_comparison_key : string;
  at_sample_key : string
}.

Definition dict_get (d : KeyDict) (k : KeyTag) : string :=
  match k with
  | left_comparison_key => at_left_comparison_key d
  | right_comparison_key => at_right_comparison_key d
  | sample_key => at_sample_key d
  end.

Definition dict_set (k : KeyTag) (v : string) (d : KeyDict) : KeyDict :=
  match k with
  | left_comparison_key => mkKeyDict v (at_right_comparison_key d) (at_sample_key d)
  | right_comparison_key => mkKeyDict (at_left_comparison_key d) v (at_sample_key d)
  | sample_key => mkKeyDict (at_left_comparison_key d) (at_right_comparison_key d) v
  end.

Definition all_black : KeyDict := mkKeyDict "black" "black" "black".

Definition control_feedback_color : string := "dark slate gray".
Definition left_comp_color : string := "green".
Definition right_comp_color : string := "red".

(** One row of [session_data_frame], columns named as in [header_list].
    Times are milliseconds on the session clock; [None] in a column is the
    string ["NA"]. *)
Record Row := mkRow {
  SessionTime : Z;
  Xcord : option Z;
  Ycord : option Z;
  Event : string;
  CorrectionTrial : string;
  SampleStimulus : string;
  CorrectKey : string;
  StimulusCondition : Cond;
  TrialSubStage : Z;
  TrialTime : Z;
  TrialSubStageTimer : Z;
  TrialNum : Z;
  NonCPTrialNum : Z;
  DelayDuration : Z;
  FeedbackDuration : option Z;
  SampleFR : option Z;
  Subject : string;
  ExpCondition : Cond;
  TrainingPhase : Z;
  StimulusSetNum : Z;
  Date : Z  (* the day, see date_today *)
}.

(** The callbacks handed to [root.after]. *)
Inductive Callback :=
  | cb_ITI
  | cb_ready_signal_phase
  | cb_matching_stage
  | cb_provide_food (key_pecked : bool)
  | cb_time_out_func.

Global Instance Callback_eq_dec : EqDecision Callback.
Proof. solve_decision. Defined.

Record Timer := mkTimer { tid : nat; delay_ms : Z; callback : Callback }.

(** What is bound on the canvas: the event type of the background
    rectangle, if there is one, and whether the three keys lie on top of it. *)
Record Canvas := mkCanvas { bkgrd : option string; keys_on_top : bool }.

(** Attributes assigned in [__init__] and [first_ITI] and only read
    afterwards. *)
Record Config := mkConfig {
  training_phase : Z;
  stimulus_set_num : Z;
  subject_ID : string;
  record_data : bool;
  max_number_of_reinforced_trials : Z;
  auto_reinforcer_timer : Z;
  TO_duration : Z;
  ITI_duration : Z;
  hopper_duration : Z;
  date : string;
  stimuli_identity_d_list : list Stim;
  control_correct_feedback : option string;
  control_incorrect_feedback : option string
}.

#[projections(primitive)]
Record State := mkState {
  config : Config;  (* the session's constants *)
  trial_stimulus_order : list string;
  exp_condition : Cond;
  sample_key_FR : Z;
  trial_FR : option Z;  (* None is the string NA *)
  sample_stimulus : string;
  correct_key : string;
  feedback_stimulus : option FeedbackVal;  (* None: attribute not set yet *)
  illuminated_key : string;
  current_key_stimulus_dict : KeyDict;
  trial_stage : Z;
  trial_delay_duration : Z;
  feedback_duration : option Z;  (* None is the string NA *)
  previous_trial_correct : bool;
  current_trial_counter : Z;
  non_CP_trials : Z;
  start_time : option Z;  (* None until first_ITI *)
  trial_start : option Z;  (* None until the first ITI *)
  trial_substage_start_time : option Z;  (* not set until the first ITI *)
  session_data_frame : list Row;  (* the rows after the header row *)
  csv_file : option (list Row);  (* what write_comp_data wrote last *)
  canvas : Canvas;
  timers : list Timer;  (* callbacks scheduled with root.after *)
  next_timer : nat;  (* the identifier root.after returns next *)
  auto_timer : option nat;
  destroyed : bool;  (* root.destroy() was called *)
  rng : Rng;
  clock : Z  (* time of the event being handled *)
}.

Coercion config : State >-> Config.

(** Attribute assignment [self.x = v], one function per attribute. *)
Definition set_config (v : Config) (s : State) : State :=
  mkState v (trial_stimulus_order s) (exp_condition s) (sample_key_FR s)
    (trial_FR s) (sample_stimulus s) (correct_key s) (feedback_stimulus s)
    (illuminated_key s) (current_key_stimulus_dict s) (trial_stage s)
    (trial_delay_duration s) (feedback_duration s)
    (previous_trial_correct s) (current_trial_counter s) (non_CP_trials s)
    (start_time s) (trial_start s) (trial_substage_start_time s)
    (session_data_frame s) (csv_file s) (canvas s) (timers s) (next_timer s)
    (auto_timer s) (destroyed s) (rng s) (clock s).
Definition set_trial_stimulus_order (v : list string) (s : State) : State :=
  mkState (config s) v (exp_condition s) (sample_key_FR s) (trial_FR s)
    (sample_stimulus s) (correct_key s) (feedback_stimulus s)
    (illuminated_key s) (current_key_stimulus_dict s) (trial_stage s)
    (trial_delay_duration s) (feedback_duration s)
    (previous_trial_correct s) (current_trial_counter s) (non_CP_trials s)
    (start_time s) (trial_start s) (trial_substage_start_time s)
    (session_data_frame s) (csv_file s) (canvas s) (timers s) (next_timer s)
    (auto_timer s) (destroyed s) (rng s) (clock s).
Definition set_exp_condition (v : Cond) (s : State) : State :=
  mkState (config s) (trial_stimulus_order s) v (sample_key_FR s)
    (trial_FR s) (sample_stimulus s) (correct_key s) (feedback_stimulus s)
    (illuminated_key s) (current_key_stimulus_dict s) (trial_stage s)
    (trial_delay_duration s) (feedback_duration s)
    (previous_trial_correct s) (current_trial_counter s) (non_CP_trials s)
    (start_time s) (trial_start s) (trial_substage_start_time s)
    (session_data_frame s) (csv_file s) (canvas s) (timers s) (next_timer s)
    (auto_timer s) (destroyed s) (rng s) (clock s).
Definition set_sample_key_FR (v : Z) (s : State) : State :=
  mkState (config s) (trial_stimulus_order s) (exp_condition s) v
    (trial_FR s) (sample_stimulus s) (correct_key s) (feedback_stimulus s)
    (illuminated_key s) (current_key_stimulus_dict s) (trial_stage s)
    (trial_delay_duration s) (feedback_duration s)
    (previous_trial_correct s) (current_trial_counter s) (non_CP_trials s)
    (start_time s) (trial_start s) (trial_substage_start_time s)
    (session_data_frame s) (csv_file s) (canvas s) (timers s) (next_timer s)
    (auto_timer s) (destroyed s) (rng s) (clock s).
Definition set_trial_FR (v : option Z) (s : State) : State :=
  mkState (config s) (trial_stimulus_order s) (exp_condition s)
    (sample_key_FR s) v (sample_stimulus s) (correct_key s)
    (feedback_stimulus s) (illuminated_key s) (current_key_stimulus_dict s)
    (trial_stage s) (trial_delay_duration s) (feedback_duration s)
    (previous_trial_correct s) (current_trial_counter s) (non_CP_trials s)
    (start_time s) (trial_start s) (trial_substage_start_time s)
    (session_data_frame s) (csv_file s) (canvas s) (timers s) (next_timer s)
    (auto_timer s) (destroyed s) (rng s) (clock s).
Definition set_sample_stimulus (v : string) (s : State) : State :=
  mkState (config s) (trial_stimulus_order s) (exp_condition s)
    (sample_key_FR s) (trial_FR s) v (correct_key s) (feedback_stimulus s)
    (illuminated_key s) (current_key_stimulus_dict s) (trial_stage s)
    (trial_delay_duration s) (feedback_duration s)
    (previous_trial_correct s) (current_trial_counter s) (non_CP_trials s)
    (start_time s) (trial_start s) (trial_substage_start_time s)
    (session_data_frame s) (csv_file s) (canvas s) (timers s) (next_timer s)
    (auto_timer s) (destroyed s) (rng s) (clock s).
Definition set_correct_key (v : string) (s : State) : State :=
  mkState (config s) (trial_stimulus_order s) (exp_condition s)
    (sample_key_FR s) (trial_FR s) (sample_stimulus s) v
    (feedback_stimulus s) (illuminated_key s) (current_key_stimulus_dict s)
    (trial_stage s) (trial_delay_duration s) (feedback_duration s)
    (previous_trial_correct s) (current_trial_counter s) (non_CP_trials s)
    (start_time s) (trial_start s) (trial_substage_start_time s)
    (session_data_frame s) (csv_file s) (canvas s) (timers s) (next_timer s)
    (auto_timer s) (destroyed s) (rng s) (clock s).
Definition set_feedback_stimulus (v : option FeedbackVal) (s : State) : State :=
  mkState (config s) (trial_stimulus_order s) (exp_condition s)
    (sample_key_FR s) (trial_FR s) (sample_stimulus s) (correct_key s) v
    (illuminated_key s) (current_key_stimulus_dict s) (trial_stage s)
    (trial_delay_duration s) (feedback_duration s)
    (previous_trial_correct s) (current_trial_counter s) (non_CP_trials s)
    (start_time s) (trial_start s) (trial_substage_start_time s)
    (session_data_frame s) (csv_file s) (canvas s) (timers s) (next_timer s)
    (auto_timer s) (destroyed s) (rng s) (clock s).
Definition set_illuminated_key (v : string) (s : State) : State :=
  mkState (config s) (trial_stimulus_order s) (exp_condition s)
    (sample_key_FR s) (trial_FR s) (sample_stimulus s) (correct_key s)
    (feedback_stimulus s) v (current_key_stimulus_dict s) (trial_stage s)
    (trial_delay_duration s) (feedback_duration s)
    (previous_trial_correct s) (current_trial_counter s) (non_CP_trials s)
    (start_time s) (trial_start s) (trial_substage_start_time s)
    (session_data_frame s) (csv_file s) (canvas s) (timers s) (next_timer s)
    (auto_timer s) (destroyed s) (rng s) (clock s).
Definition set_current_key_stimulus_dict (v : KeyDict) (s : State) : State :=
  mkState (config s) (trial_stimulus_order s) (exp_condition s)
    (sample_key_FR s) (trial_FR s) (sample_stimulus s) (correct_key s)
    (feedback_stimulus s) (illuminated_key s) v (trial_stage s)
    (trial_delay_duration s) (feedback_duration s)
    (previous_trial_correct s) (current_trial_counter s) (non_CP_trials s)
    (start_time s) (trial_start s) (trial_substage_start_time s)
    (session_data_frame s) (csv_file s) (canvas s) (timers s) (next_timer s)
    (auto_timer s) (destroyed s) (rng s) (clock s).
Definition set_trial_stage (v : Z) (s : State) : State :=
  mkState (config s) (trial_stimulus_order s) (exp_condition s)
    (sample_key_FR s) (trial_FR s) (sample_stimulus s) (correct_key s)
    (feedback_stimulus s) (illuminated_key s) (current_key_stimulus_dict s)
    v (trial_delay_duration s) (feedback_duration s)
    (previous_trial_correct s) (current_trial_counter s) (non_CP_trials s)
    (start_time s) (trial_start s) (trial_substage_start_time s)
    (session_data_frame s) (csv_file s) (canvas s) (timers s) (next_timer s)
    (auto_timer s) (destroyed s) (rng s) (clock s).
Definition set_trial_delay_duration (v : Z) (s : State) : State :=
  mkState (config s) (trial_stimulus_order s) (exp_condition s)
    (sample_key_FR s) (trial_FR s) (sample_stimulus s) (correct_key s)
    (feedback_stimulus s) (illuminated_key s) (current_key_stimulus_dict s)
    (trial_stage s) v (feedback_duration s) (previous_trial_correct s)
    (current_trial_counter s) (non_CP_trials s) (start_time s)
    (trial_start s) (trial_substage_start_time s) (session_data_frame s)
    (csv_file s) (canvas s) (timers s) (next_timer s) (auto_timer s)
    (destroyed s) (rng s) (clock s).
Definition set_feedback_duration (v : option Z) (s : State) : State :=
  mkState (config s) (trial_stimulus_order s) (exp_condition s)
    (sample_key_FR s) (trial_FR s) (sample_stimulus s) (correct_key s)
    (feedback_stimulus s) (illuminated_key s) (current_key_stimulus_dict s)
    (trial_stage s) (trial_delay_duration s) v (previous_trial_correct s)
    (current_trial_counter s) (non_CP_trials s) (start_time s)
    (trial_start s) (trial_substage_start_time s) (session_data_frame s)
    (csv_file s) (canvas s) (timers s) (next_timer s) (auto_timer s)
    (destroyed s) (rng s) (clock s).
Definition set_previous_trial_correct (v : bool) (s : State) : State :=
  mkState (config s) (trial_stimulus_order s) (exp_condition s)
    (sample_key_FR s) (trial_FR s) (sample_stimulus s) (correct_key s)
    (feedback_stimulus s) (illuminated_key s) (current_key_stimulus_dict s)
    (trial_stage s) (trial_delay_duration s) (feedback_duration s) v
    (current_trial_counter s) (non_CP_trials s) (start_time s)
    (trial_start s) (trial_substage_start_time s) (session_data_frame s)
    (csv_file s) (canvas s) (timers s) (next_timer s) (auto_timer s)
    (destroyed s) (rng s) (clock s).
Definition set_current_trial_counter (v : Z) (s : State) : State :=
  mkState (config s) (trial_stimulus_order s) (exp_condition s)
    (sample_key_FR s) (trial_FR s) (sample_stimulus s) (correct_key s)
    (feedback_stimulus s) (illuminated_key s) (current_key_stimulus_dict s)
    (trial_stage s) (trial_delay_duration s) (feedback_duration s)
    (previous_trial_correct s) v (non_CP_trials s) (start_time s)
    (trial_start s) (trial_substage_start_time s) (session_data_frame s)
    (csv_file s) (canvas s) (timers s) (next_timer s) (auto_timer s)
    (destroyed s) (rng s) (clock s).
Definition set_non_CP_trials (v : Z) (s : State) : State :=
  mkState (config s) (trial_stimulus_order s) (exp_condition s)
    (sample_key_FR s) (trial_FR s) (sample_stimulus s) (correct_key s)
    (feedback_stimulus s) (illuminated_key s) (current_key_stimulus_dict s)
    (trial_stage s) (trial_delay_duration s) (feedback_duration s)
    (previous_trial_correct s) (current_trial_counter s) v (start_time s)
    (trial_start s) (trial_substage_start_time s) (session_data_frame s)
    (csv_file s) (canvas s) (timers s) (next_timer s) (auto_timer s)
    (destroyed s) (rng s) (clock s).
Definition set_start_time (v : option Z) (s : State) : State :=
  mkState (config s) (trial_stimulus_order s) (exp_condition s)
    (sample_key_FR s) (trial_FR s) (sample_stimulus s) (correct_key s)
    (feedback_stimulus s) (illuminated_key s) (current_key_stimulus_dict s)
    (trial_stage s) (trial_delay_duration s) (feedback_duration s)
    (previous_trial_correct s) (current_trial_counter s) (non_CP_trials s) v
    (trial_start s) (trial_substage_start_time s) (session_data_frame s)
    (csv_file s) (canvas s) (timers s) (next_timer s) (auto_timer s)
    (destroyed s) (rng s) (clock s).
Definition set_trial_start (v : option Z) (s : State) : State :=
  mkState (config s) (trial_stimulus_order s) (exp_condition s)
    (sample_key_FR s) (trial_FR s) (sample_stimulus s) (correct_key s)
    (feedback_stimulus s) (illuminated_key s) (current_key_stimulus_dict s)
    (trial_stage s) (trial_delay_duration s) (feedback_duration s)
    (previous_trial_correct s) (current_trial_counter s) (non_CP_trials s)
    (start_time s) v (trial_substage_start_time s) (session_data_frame s)
    (csv_file s) (canvas s) (timers s) (next_timer s) (auto_timer s)
    (destroyed s) (rng s) (clock s).
Definition set_trial_substage_start_time (v : option Z) (s : State) : State :=
  mkState (config s) (trial_stimulus_order s) (exp_condition s)
    (sample_key_FR s) (trial_FR s) (sample_stimulus s) (correct_key s)
    (feedback_stimulus s) (illuminated_key s) (current_key_stimulus_dict s)
    (trial_stage s) (trial_delay_duration s) (feedback_duration s)
    (previous_trial_correct s) (current_trial_counter s) (non_CP_trials s)
    (start_time s) (trial_start s) v (session_data_frame s) (csv_file s)
    (canvas s) (timers s) (next_timer s) (auto_timer s) (destroyed s)
    (rng s) (clock s).
Definition set_session_data_frame (v : list Row) (s : State) : State :=
  mkState (config s) (trial_stimulus_order s) (exp_condition s)
    (sample_key_FR s) (trial_FR s) (sample_stimulus s) (correct_key s)
    (feedback_stimulus s) (illuminated_key s) (current_key_stimulus_dict s)
    (trial_stage s) (trial_delay_duration s) (feedback_duration s)
    (previous_trial_correct s) (current_trial_counter s) (non_CP_trials s)
    (start_time s) (trial_start s) (trial_substage_start_time s) v
    (csv_file s) (canvas s) (timers s) (next_timer s) (auto_timer s)
    (destroyed s) (rng s) (clock s).
Definition set_csv_file (v : option (list Row)) (s : State) : State :=
  mkState (config s) (trial_stimulus_order s) (exp_condition s)
    (sample_key_FR s) (trial_FR s) (sample_stimulus s) (correct_key s)
    (feedback_stimulus s) (illuminated_key s) (current_key_stimulus_dict s)
    (trial_stage s) (trial_delay_duration s) (feedback_duration s)
    (previous_trial_correct s) (current_trial_counter s) (non_CP_trials s)
    (start_time s) (trial_start s) (trial_substage_start_time s)
    (session_data_frame s) v (canvas s) (timers s) (next_timer s)
    (auto_timer s) (destroyed s) (rng s) (clock s).
Definition set_canvas (v : Canvas) (s : State) : State :=
  mkState (config s) (trial_stimulus_order s) (exp_condition s)
    (sample_key_FR s) (trial_FR s) (sample_stimulus s) (correct_key s)
    (feedback_stimulus s) (illuminated_key s) (current_key_stimulus_dict s)
    (trial_stage s) (trial_delay_duration s) (feedback_duration s)
    (previous_trial_correct s) (current_trial_counter s) (non_CP_trials s)
    (start_time s) (trial_start s) (trial_substage_start_time s)
    (session_data_frame s) (csv_file s) v (timers s) (next_timer s)
    (auto_timer s) (destroyed s) (rng s) (clock s).
Definition set_timers (v : list Timer) (s : State) : State :=
  mkState (config s) (trial_stimulus_order s) (exp_condition s)
    (sample_key_FR s) (trial_FR s) (sample_stimulus s) (correct_key s)
    (feedback_stimulus s) (illuminated_key s) (current_key_stimulus_dict s)
    (trial_stage s) (trial_delay_duration s) (feedback_duration s)
    (previous_trial_correct s) (current_trial_counter s) (non_CP_trials s)
    (start_time s) (trial_start s) (trial_substage_start_time s)
    (session_data_frame s) (csv_file s) (canvas s) v (next_timer s)
    (auto_timer s) (destroyed s) (rng s) (clock s).
Definition set_next_timer (v : nat) (s : State) : State :=
  mkState (config s) (trial_stimulus_order s) (exp_condition s)
    (sample_key_FR s) (trial_FR s) (sample_stimulus s) (correct_key s)
    (feedback_stimulus s) (illuminated_key s) (current_key_stimulus_dict s)
    (trial_stage s) (trial_delay_duration s) (feedback_duration s)
    (previous_trial_correct s) (current_trial_counter s) (non_CP_trials s)
    (start_time s) (trial_start s) (trial_substage_start_time s)
    (session_data_frame s) (csv_file s) (canvas s) (timers s) v
    (auto_timer s) (destroyed s) (rng s) (clock s).
Definition set_auto_timer (v : option nat) (s : State) : State :=
  mkState (config s) (trial_stimulus_order s) (exp_condition s)
    (sample_key_FR s) (trial_FR s) (sample_stimulus s) (correct_key s)
    (feedback_stimulus s) (illuminated_key s) (current_key_stimulus_dict s)
    (trial_stage s) (trial_delay_duration s) (feedback_duration s)
    (previous_trial_correct s) (current_trial_counter s) (non_CP_trials s)
    (start_time s) (trial_start s) (trial_substage_start_time s)
    (session_data_frame s) (csv_file s) (canvas s) (timers s) (next_timer s)
    v (destroyed s) (rng s) (clock s).
Definition set_destroyed (v : bool) (s : State) : State :=
  mkState (config s) (trial_stimulus_order s) (exp_condition s)
    (sample_key_FR s) (trial_FR s) (sample_stimulus s) (correct_key s)
    (feedback_stimulus s) (illuminated_key s) (current_key_stimulus_dict s)
    (trial_stage s) (trial_delay_duration s) (feedback_duration s)
    (previous_trial_correct s) (current_trial_counter s) (non_CP_trials s)
    (start_time s) (trial_start s) (trial_substage_start_time s)
    (session_data_frame s) (csv_file s) (canvas s) (timers s) (next_timer s)
    (auto_timer s) v (rng s) (clock s).
Definition set_rng (v : Rng) (s : State) : State :=
  mkState (config s) (trial_stimulus_order s) (exp_condition s)
    (sample_key_FR s) (trial_FR s) (sample_stimulus s) (correct_key s)
    (feedback_stimulus s) (illuminated_key s) (current_key_stimulus_dict s)
    (trial_stage s) (trial_delay_duration s) (feedback_duration s)
    (previous_trial_correct s) (current_trial_counter s) (non_CP_trials s)
    (start_time s) (trial_start s) (trial_substage_start_time s)
    (session_data_frame s) (csv_file s) (canvas s) (timers s) (next_timer s)
    (auto_timer s) (destroyed s) v (clock s).
Definition set_clock (v : Z) (s : State) : State :=
  mkState (config s) (trial_stimulus_order s) (exp_condition s)
    (sample_key_FR s) (trial_FR s) (sample_stimulus s) (correct_key s)
    (feedback_stimulus s) (illuminated_key s) (current_key_stimulus_dict s)
    (trial_stage s) (trial_delay_duration s) (feedback_duration s)
    (previous_trial_correct s) (current_trial_counter s) (non_CP_trials s)
    (start_time s) (trial_start s) (trial_substage_start_time s)
    (session_data_frame s) (csv_file s) (canvas s) (timers s) (next_timer s)
    (auto_timer s) (destroyed s) (rng s) v.

(** ** Tk: canvas and timers *)

Definition clear_canvas (s : State) : State := set_canvas (mkCanvas None false) s.

(** [root.after(ms, cb)] *)
Definition after (ms : Z) (cb : Callback) (s : State) : nat * State :=
  (next_timer s,
   set_next_timer (S (next_timer s))
     (set_timers (timers s ++ [mkTimer (next_timer s) ms cb])%list s)).

(** [root.after_cancel(id)] *)
Definition after_cancel (id : nat) (s : State) : State :=
  set_timers (filter (λ t, tid t ≠ id) (timers s)) s.

(** ** The event log *)

(** [date.today()], read when a row is written: the day the clock is in.
    The clock counts milliseconds; days are numbered from the day of its
    origin. (The text [self.date] that [__init__] stores is not used for the
    rows.) *)
Definition date_today (clock : Z) : Z := clock `div` 86400000.

Definition write_data (event : option (Z * Z)) (outcome : string) (s : State)
  : option State :=
  let? started := start_time s in
  let? t0 := trial_start s in
  let? t1 := trial_substage_start_time s in
  Some (set_session_data_frame
          (session_data_frame s ++
           [ {| SessionTime := clock s - started;
                Xcord := fst <$> event;
                Ycord := snd <$> event;
                Event := outcome;
                CorrectionTrial := "NA";
                SampleStimulus := default "" (head (split_dot (sample_stimulus s)));
                CorrectKey := correct_key s;
                StimulusCondition := exp_condition s;
                TrialSubStage := trial_stage s;
                TrialTime := clock s - t0 - ITI_duration s;
                TrialSubStageTimer := clock s - t1;
                TrialNum := current_trial_counter s;
                NonCPTrialNum := non_CP_trials s;
                DelayDuration := trial_delay_duration s;
                FeedbackDuration := feedback_duration s;
                SampleFR := trial_FR s;
                Subject := subject_ID s;
                ExpCondition := exp_condition s;
                TrainingPhase := training_phase s;
                StimulusSetNum := stimulus_set_num s;
                Date := date_today (clock s) |} ])%list s).

Definition write_comp_data (SessionEnded : bool) (s : State) : option State :=
  let? s := (if SessionEnded then write_data None "SessionEnds" s else Some s) in
  if record_data s then
    let? _ := start_time s in
    Some (set_csv_file (Some (session_data_frame s)) s)
  else Some s.

Definition exit_program (s : State) : option State :=
  let? s := write_comp_data true (clear_canvas s) in
  Some (set_destroyed true (set_timers [] s)).

(** ** Keys *)

(** The body of [for key in self.current_key_stimulus_dict] in the
    autoshaping branch of [calculate_trial_key_stimuli]. *)
Definition illuminate (s : State) (key : KeyTag) (acc : KeyDict * Rng)
  : option (KeyDict * Rng) :=
  let (d, g) := acc in
  if String.eqb (keytag_name key) (illuminated_key s) then
    if String.eqb (illuminated_key s) "left_comparison_key" then
      Some (dict_set left_comparison_key left_comp_color d, g)
    else if String.eqb (illuminated_key s) "right_comparison_key" then
      Some (dict_set right_comparison_key right_comp_color d, g)
    else if current_trial_counter s >? 15 then
      let? (c, g') := choice [sample_stimulus s; "white"] g in
      Some (dict_set sample_key c d, g')
    else Some (dict_set sample_key (sample_stimulus s) d, g)
  else Some (d, g).

(** In stage 4 the value stored under ["sample_key"] is opened as an image
    file by [build_keys]; a list or [None] there makes the handler raise. *)
Definition calculate_trial_key_stimuli (s : State) : option State :=
  let? (d, g) := (if training_phase s =? 2 then
               foldl (λ acc key, acc ≫= illuminate s key) (Some (all_black, rng s))
                 [left_comparison_key; right_comparison_key; sample_key]
             else if trial_stage s =? 0 then
               Some (dict_set sample_key "white" all_black, rng s)
             else Some (all_black, rng s)) in
  let d := if (trial_stage s =? 1) || ((trial_stage s =? 3) && (training_phase s =? 0))
           then dict_set sample_key (sample_stimulus s) d else d in
  let? d := (if (trial_stage s =? 3) && negb (training_phase s =? 3) then
         Some (dict_set right_comparison_key right_comp_color
                 (dict_set left_comparison_key left_comp_color d))
       else if trial_stage s =? 4 then
         if cond_is (exp_condition s) "E" && (stimulus_set_num s =? 1) then
           Some (dict_set sample_key control_feedback_color d)
         else
           match feedback_stimulus s with
           | Some (FbName n) => Some (dict_set sample_key n d)
           | _ => None
           end
       else Some d) in
  Some (set_rng g (set_current_key_stimulus_dict d s)).

Definition build_keys (s : State) : option State :=
  if (trial_stage s =? 4) && (stimulus_set_num s =? 11) && cond_is (exp_condition s) "C"
  then Some (set_canvas (mkCanvas (Some "background_peck") false) s)
  else
    let? s := calculate_trial_key_stimuli s in
    let s := set_canvas (mkCanvas (Some "background_peck") true) s in
    if training_phase s =? 2 then
      let (id, s) := after (auto_reinforcer_timer s) (cb_provide_food false) s in
      Some (set_auto_timer (Some id) s)
    else Some s.

(** ** Trial outcomes *)

Definition provide_food (key_pecked : bool) (s : State) : option State :=
  let? s := write_data None "reinforcer_provided" (clear_canvas s) in
  let s := set_previous_trial_correct true (set_non_CP_trials (non_CP_trials s + 1) s) in
  let? s := (if key_pecked then Some s else write_data None "auto_reinforcer_provided" s) in
  Some (snd (after (hopper_duration s) cb_ITI s)).

Definition time_out_func (s : State) : option State :=
  let? s := write_data None "time_out" s in
  let s := set_canvas (mkCanvas (Some "TO_peck") false) s in
  let s := set_non_CP_trials (non_CP_trials s + 1) (set_previous_trial_correct false s) in
  Some (snd (after (TO_duration s) cb_ITI s)).

(** ** Trial substages *)

Definition ready_signal_phase (s : State) : option State :=
  build_keys
    (set_trial_stage 0 (set_trial_substage_start_time (Some (clock s)) (clear_canvas s))).

Definition sample_key_loop (passed_FR : Z) (s : State) : option State :=
  build_keys (set_trial_stage 1 (clear_canvas (set_trial_FR (Some passed_FR) s))).

Definition ready_signal_press (event : option (Z * Z)) (s : State) : option State :=
  let? s := write_data event "ready_signal_press" s in
  sample_key_loop (sample_key_FR s) (set_trial_substage_start_time (Some (clock s)) s).

Definition matching_stage (s : State) : option State :=
  build_keys (set_trial_substage_start_time (Some (clock s)) (set_trial_stage 3 s)).

Definition delay_stage (s : State) : option State :=
  let? s := build_keys (set_trial_substage_start_time (Some (clock s)) (set_trial_stage 2 s)) in
  Some (snd (after (trial_delay_duration s) cb_matching_stage s)).

Definition sample_key_press (event : option (Z * Z)) (s : State) : option State :=
  if trial_stage s =? 1 then
    let? s := write_data event "sample_key_press" s in
    let? FR := trial_FR s in
    if FR <=? 1 then
      let? s := build_keys (clear_canvas s) in
      if training_phase s =? 1 then delay_stage s
      else if training_phase s =? 0 then matching_stage s
      else Some s
    else sample_key_loop (FR - 1) (set_trial_FR (Some (FR - 1)) s)
  else write_data event "nonactive_sample_key_press" s.

Definition feedback_stage (correct : bool) (s : State) : option State :=
  let s := set_trial_substage_start_time (Some (clock s)) (set_trial_stage 4 s) in
  let? s := (if bool_decide (stimulus_set_num s ∈ [3; 12]) && cond_is (exp_condition s) "C" then
         Some (set_feedback_duration (Some 1) s)
       else
         let? (d, g) := choice (range 2 5) (rng s) in
         build_keys (set_rng g (set_feedback_duration (Some (d * 1000)) s))) in
  let? d := feedback_duration s in
  Some (snd (after d (if correct then cb_provide_food true else cb_time_out_func) s)).

Definition key_press (event : option (Z * Z)) (keytag : KeyTag) (s : State)
  : option State :=
  let shown := dict_get (current_key_stimulus_dict s) keytag in
  if String.eqb shown "black" then
    write_data event ("non_active_" +:+ keytag_name keytag +:+ "_peck") s
  else if training_phase s =? 2 then
    let? s := write_data event ("auto_shaping_active_" +:+ keytag_name keytag +:+ "_peck") s in
    provide_food true (from_option (λ id, after_cancel id s) s (auto_timer s))
  else if String.eqb shown "white" then ready_signal_press event s
  else
    match keytag with
    | sample_key => sample_key_press event s
    | _ =>
        if trial_stage s =? 3 then
          if (String.eqb shown "red" && String.eqb (correct_key s) "R")
             || (String.eqb shown "green" && String.eqb (correct_key s) "L")
          then
            let? s := write_data event "correct_choice" s in
            let? s := (if bool_decide (stimulus_set_num s ∈ [16; 17])
                    && cond_is (exp_condition s) "C"
                 then let? n := control_correct_feedback s in
                      Some (set_feedback_stimulus (Some (FbName n)) s)
                 else Some s) in
            if training_phase s =? 1 then feedback_stage true s
            else provide_food true s
          else
            let? s := write_data event "incorrect_choice" s in
            let? s := (if bool_decide (stimulus_set_num s ∈ [16; 17])
                    && cond_is (exp_condition s) "C"
                 then let? n := control_incorrect_feedback s in
                      Some (set_feedback_stimulus (Some (FbName n)) s)
                 else Some s) in
            if training_phase s =? 1 then feedback_stage false s
            else time_out_func s
        else write_data event ("non_active_" +:+ keytag_name keytag +:+ "_peck") s
    end.

(** ** The inter-trial interval *)

(** The body of [for i_dict in self.stimuli_identity_d_list] in [ITI]. *)
Definition ITI_assign (i_dict : Stim) (s : State) : option State :=
  if String.eqb (Name i_dict) (sample_stimulus s) then
    let? c := str_at (Group i_dict) 0 in
    let s := set_correct_key (Key i_dict) (set_exp_condition (CondLetter c) s) in
    if bool_decide (stimulus_set_num s ∈ [5; 6; 7; 8; 9; 13; 14; 15]) then
      let? fb := Feedback i_dict in
      Some (set_feedback_stimulus (Some fb) s)
    else if stimulus_set_num s =? 10 then
      let? fb := Feedback i_dict in
      let? candidates := match fb with
                   | FbName n => Some (chars n)
                   | FbList l => Some l
                   | FbNone => None
                   end in
      let? (n, g) := choice candidates (rng s) in
      Some (set_rng g (set_feedback_stimulus (Some (FbName n)) s))
    else if bool_decide (stimulus_set_num s ∈ [16; 17]) && cond_is (exp_condition s) "C" then
      Some (set_feedback_stimulus (Some (FbName "TBD")) s)
    else if bool_decide (stimulus_set_num s ∈ [16; 17]) && cond_is (exp_condition s) "E" then
      let? fb := Feedback i_dict in
      Some (set_feedback_stimulus (Some fb) s)
    else Some s
  else Some s.

(** [for x in l: body(x)] over the session state. *)
Definition for_each {A} (body : A → State → option State) (l : list A) (s : State)
  : option State :=
  foldl (λ acc x, let? s := acc in body x s) (Some s) l.

(** The options the illuminated key of an autoshaping trial is drawn from. *)
Definition as_options (current_trial_counter : Z) : list string :=
  ["left_comparison_key"; "right_comparison_key"; "sample_key"]
  ++ (if current_trial_counter >? 15 then ["sample_key"] else []).

(** Reset of the trial variables, with the delay of the coming trial. *)
Definition ITI_reset (s : State) : option State :=
  let s := set_trial_substage_start_time (Some (clock s))
             (set_trial_start (Some (clock s)) s) in
  let? s := write_comp_data false s in
  let s := set_correct_key "NA"
             (set_sample_stimulus "NA."
                (set_feedback_duration None (set_trial_stage 0 s))) in
  let? (d, g) := choice (range 2 5) (rng s) in
  Some (set_rng g (set_trial_delay_duration (d * 1000) s)).

(** The sample is the head of the queue; its dictionary gives the
    condition, the correct key and the feedback stimulus. *)
Definition ITI_pick_sample (s : State) : option State :=
  let? sample := head (trial_stimulus_order s) in
  let s := set_trial_stimulus_order (remove_first sample (trial_stimulus_order s))
             (set_sample_stimulus sample s) in
  for_each ITI_assign (stimuli_identity_d_list s) s.

(** The fixed ratio of a DMTO trial, the illuminated key of an autoshaping
    trial. *)
Definition ITI_requirement (s : State) : option State :=
  if training_phase s =? 1 then
    let? (FR, g) := choice (range 3 10) (rng s) in
    Some (set_rng g (set_sample_key_FR FR s))
  else if training_phase s =? 2 then
    let? (key, g) := choice (as_options (current_trial_counter s)) (rng s) in
    Some (set_rng g (set_illuminated_key key s))
  else Some s.

Definition ITI (s : State) : option State :=
  let s := set_canvas (mkCanvas (Some "ITI_peck") false) s in
  if non_CP_trials s >? max_number_of_reinforced_trials s then exit_program s
  else
    let? s := ITI_reset s in
    let? s := ITI_pick_sample s in
    let? s := ITI_requirement s in
    let s := set_current_trial_counter (current_trial_counter s + 1) s in
    Some (snd (after (ITI_duration s) cb_ready_signal_phase s)).

(** ** Session start *)

Definition dict_of_subject_assignments : list (string * Z) :=
  [("TEST", 1); ("Wario", 1); ("Durrell", 1); ("Peach", 2); ("Jubilee", 2);
   ("Luigi", 3); ("Wenchang", 3); ("Waluigi", 4); ("Hawthorne", 4)].

(** [d[k]] for a dictionary given as its items; KeyError when absent. *)
Definition dict_lookup {V} (d : list (string * V)) (k : string) : option V :=
  snd <$> head (filter (λ kv, kv.1 = k) d).

(** The names of the phases, as the control panel has them and hands them
    to [MainScreen]. *)
Definition training_phase_name_list : list string :=
  ["1: Many-to-One"; "2: Delayed Many-to-One"; "3: Auto-shaping"].

(** [MainScreen.__init__], up to the call of [place_birds_in_box]. The
    title of the window is cut from
    [training_phase_name_list[training_phase]]: a phase that is no index of
    the list raises IndexError (after the KeyError of an unknown subject). *)
Definition MainScreen_init (subject_ID : string) (record_data : bool)
  (training_phase stimulus_set_num : Z) (today : string) (g : Rng) : option State :=
  let? group := dict_lookup dict_of_subject_assignments subject_ID in
  let? phase_name := list_at training_phase_name_list training_phase in
  Some {|
    config := {|
      training_phase := training_phase;
      stimulus_set_num := stimulus_set_num;
      subject_ID := subject_ID;
      record_data := record_data;
      max_number_of_reinforced_trials := 96;
      auto_reinforcer_timer := 10 * 1000;
      TO_duration := 10 * 1000;
      ITI_duration := 15 * 1000;
      hopper_duration := if String.eqb subject_ID "Luigi" then 4000 else 5000;
      date := today;
      stimuli_identity_d_list := [];
      control_correct_feedback := None;
      control_incorrect_feedback := None |};
    trial_stimulus_order := [];
    exp_condition := CondGroup group;
    sample_key_FR := if training_phase =? 0 then 5
                     else if training_phase =? 2 then 1 else 8;
    trial_FR := None;
    sample_stimulus := "NA.";
    correct_key := "NA";
    feedback_stimulus := None;
    illuminated_key := "NA";
    current_key_stimulus_dict := all_black;
    trial_stage := 0;
    trial_delay_duration := 2 * 1000;
    feedback_duration := None;
    previous_trial_correct := true;
    current_trial_counter := 0;
    non_CP_trials := 1;
    start_time := None;
    trial_start := None;
    trial_substage_start_time := None;
    session_data_frame := [];
    csv_file := None;
    canvas := mkCanvas None false;
    timers := [];
    next_timer := 0;
    auto_timer := None;
    destroyed := false;
    rng := g;
    clock := 0 |}.

Definition with_catalog (cat : Catalog) (c : Config) : Config :=
  mkConfig (training_phase c) (stimulus_set_num c) (subject_ID c) (record_data c)
    (max_number_of_reinforced_trials c) (auto_reinforcer_timer c) (TO_duration c)
    (ITI_duration c) (hopper_duration c) (date c)
    (cat_list cat) (cat_control_correct cat) (cat_control_incorrect cat).

Definition with_test_durations (c : Config) : Config :=
  mkConfig (training_phase c) (stimulus_set_num c) (subject_ID c) (record_data c)
    (max_number_of_reinforced_trials c) (auto_reinforcer_timer c) (1 * 1000)
    (1 * 1000) (2 * 1000) (date c)
    (stimuli_identity_d_list c) (control_correct_feedback c)
    (control_incorrect_feedback c).

(** [first_ITI], run when the space bar is pressed at time [now]. [table]
    is [stimuli_identity_d_list] as the first pass leaves it: the rows of
    the .csv file with the columns of the subject's group. *)
Definition first_ITI (table : list Stim) (now : Z) (s : State) : option State :=
  let s := set_start_time (Some now) (clear_canvas (set_clock now s)) in
  let s := set_current_key_stimulus_dict all_black s in
  let? cat := load_catalog (stimulus_set_num s) table in
  let s := set_config (with_catalog cat s) s in
  let s := from_option (λ n, set_feedback_stimulus (Some (FbName n)) s) s
             (cat_feedback_stimulus cat) in
  let? q := build_trial_stimulus_order (stimuli_identity_d_list s)
         (max_number_of_reinforced_trials s) (rng s) in
  let s := set_rng (queue_rng q) (set_trial_stimulus_order (order q) s) in
  if String.eqb (subject_ID s) "TEST" then
    Some (snd (after 1 cb_ITI (set_config (with_test_durations s) s)))
  else Some (snd (after 30000 cb_ITI s)).

(** ** The main loop *)

(** What the Tk main loop can deliver: a press on a key, a press on the
    background rectangle, or the expiry of a pending timer. *)
Inductive Input :=
  | press_key (keytag : KeyTag) (x y : Z)
  | press_bkgrd (x y : Z)
  | timer_fires (id : nat).

Definition run_callback (cb : Callback) (s : State) : option State :=
  match cb with
  | cb_ITI => ITI s
  | cb_ready_signal_phase => ready_signal_phase s
  | cb_matching_stage => matching_stage s
  | cb_provide_food key_pecked => provide_food key_pecked s
  | cb_time_out_func => time_out_func s
  end.

Definition find_timer (id : nat) (s : State) : option Timer :=
  head (filter (λ t, tid t = id) (timers s)).

(** One event, delivered at time [now]. An input that the window cannot
    produce in state [s] (a press on a key that is not on the canvas, a timer
    that is not pending, anything after [root.destroy()]) gives [None]. *)
Definition step (now : Z) (i : Input) (s : State) : option State :=
  if destroyed s then None
  else
    let s := set_clock now s in
    match i with
    | press_key keytag x y =>
        if keys_on_top (canvas s) then key_press (Some (x, y)) keytag s else None
    | press_bkgrd x y =>
        let? event_type := bkgrd (canvas s) in
        write_data (Some (x, y)) event_type s
    | timer_fires id =>
        let? t := find_timer id s in
        run_callback (callback t) (after_cancel id s)
    end.

Fixpoint run (evs : list (Z * Input)) (s : State) : option State :=
  match evs with
  | [] => Some s
  | (now, i) :: evs' => let? s' := step now i s in run evs' s'
  end.

(** ** Notions used by the properties *)

Definition eligible_names (l : list Stim) : list string :=
  Name <$> filter (λ i, str_in "S" (Key i) = false) l.

Fixpoint repeat_list {A} (k : nat) (l : list A) : list A :=
  match k with
  | O => []
  | S k' => l ++ repeat_list k' l
  end.

Definition occurrences (x : string) (l : list string) : nat :=
  length (filter (λ y, y = x) l).

(** A key is active when a press on it advances the trial: the illuminated
    key of an autoshaping trial, the sample key while it is the ready signal
    or the sample, the two comparison keys at the choice. *)
Definition active (s : State) (k : KeyTag) : bool :=
  if training_phase s =? 2 then String.eqb (keytag_name k) (illuminated_key s)
  else if (trial_stage s =? 0) || (trial_stage s =? 1) then bool_decide (k = sample_key)
  else if trial_stage s =? 3 then bool_decide (k ≠ sample_key)
  else false.

Definition non_active_event (k : KeyTag) (e : string) : Prop :=
  e = "non_active_" +:+ keytag_name k +:+ "_peck" ∨ e = "nonactive_sample_key_press".

(** A row that closes a trial. *)
Definition is_outcome (r : Row) : bool :=
  String.eqb (Event r) "reinforcer_provided" || String.eqb (Event r) "time_out".

Definition completed_trials (log : list Row) : Z :=
  Z.of_nat (length (filter (λ r, is_outcome r = true) log)).

(** [c] is the first character of the group tag of a row of the table. *)
Definition group_letter (table : list Stim) (c : Cond) : Prop :=
  ∃ i x, i ∈ table ∧ str_at (Group i) 0 = Some x ∧ c = CondLetter x.

(** The name of a stimulus as [write_data] logs it: [name.split(".")[0]]. *)
Definition stem (name : string) : string := default "" (head (split_dot name)).

(** [c] is the first character of the group tag of a row of the table
    that is called [sample]. *)
Definition letter_of (table : list Stim) (sample : string) (c : Cond) : Prop :=
  ∃ i x, i ∈ table ∧ Name i = sample ∧ str_at (Group i) 0 = Some x ∧ c = CondLetter x.

(** The same for a sample as the log has it, without its extension. *)
Definition sample_letter (table : list Stim) (logged : string) (c : Cond) : Prop :=
  ∃ i x, i ∈ table ∧ stem (Name i) = logged ∧ str_at (Group i) 0 = Some x
         ∧ c = CondLetter x.

(** No stimulus is called like the fill colour of the ready signal. *)
Definition fb_ok (v : FeedbackVal) : Prop :=
  match v with
  | FbName n => n ≠ "white"
  | FbList l => Forall (λ n, n ≠ "white") l
  | FbNone => True
  end.

Definition stim_ok (i : Stim) : Prop :=
  Name i ≠ "white" ∧ ∀ v, Feedback i = Some v → fb_ok v.

Definition display_ok (s : State) : Prop :=
  keys_on_top (canvas s) = true →
  (training_phase s = 2 →
   ∀ k, dict_get (current_key_stimulus_dict s) k ≠ "black" →
        keytag_name k = illuminated_key s)
  ∧ (training_phase s ≠ 2 →
     ∀ k, dict_get (current_key_stimulus_dict s) k = "white" →
          k = sample_key ∧ trial_stage s = 0).

Definition bkgrd_event_types : list (option string) :=
  [None; Some "ITI_peck"; Some "background_peck"; Some "TO_peck"].

(** What holds of every state of a session. *)
Record Inv (s : State) : Prop := mkInv {
  inv_sample : sample_stimulus s ≠ "white";
  inv_feedback : ∀ v, feedback_stimulus s = Some v → fb_ok v;
  inv_table : Forall stim_ok (stimuli_identity_d_list s);
  inv_correct : control_correct_feedback s ≠ Some "white";
  inv_incorrect : control_incorrect_feedback s ≠ Some "white";
  inv_queue : Forall (λ n, n ∈ Name <$> stimuli_identity_d_list s) (trial_stimulus_order s);
  inv_autoshaping : training_phase s = 2 → trial_stage s = 0;
  inv_timers : training_phase s = 2 →
               Forall (λ t, callback t ≠ cb_matching_stage) (timers s);
  inv_display : display_ok s;
  inv_bkgrd : bkgrd (canvas s) ∈ bkgrd_event_types;
  inv_budget : max_number_of_reinforced_trials s = 96;
  inv_start : is_Some (start_time s);
  inv_substage : is_Some (trial_start s) → is_Some (trial_substage_start_time s);
  inv_canvas_times : keys_on_top (canvas s) = true ∨ is_Some (bkgrd (canvas s)) →
                     is_Some (trial_start s);
  inv_pending : ∀ t, t ∈ timers s → callback t ≠ cb_ITI → is_Some (trial_start s);
  inv_count : non_CP_trials s = 1 + completed_trials (session_data_frame s);
  inv_letter : is_Some (trial_start s) →
               group_letter (stimuli_identity_d_list s) (exp_condition s);
  inv_log : Forall (λ r, StimulusCondition r = ExpCondition r
                         ∧ group_letter (stimuli_identity_d_list s) (ExpCondition r))
              (session_data_frame s)
}.

(** ** Notions used by the proofs and example sessions *)

(** [ITI_assign] writes four attributes and nothing else. *)
Definition ITI_assign_only (s s' : State) : Prop :=
  s' = set_rng (rng s')
         (set_feedback_stimulus (feedback_stimulus s')
            (set_correct_key (correct_key s')
               (set_exp_condition (exp_condition s') s))).

(** The attributes that only [ITI] assigns (and [first_ITI] before it). *)
Definition trial_consts (s : State) :=
  (config s, exp_condition s, sample_stimulus s, correct_key s,
   trial_delay_duration s, sample_key_FR s, illuminated_key s,
   current_trial_counter s, trial_stimulus_order s, start_time s, trial_start s).

(** The catalog loaded in [first_ITI] names no stimulus ["white"]. *)
Definition loaded_ok (s : State) : Prop :=
  Forall stim_ok (stimuli_identity_d_list s)
  ∧ control_correct_feedback s ≠ Some "white"
  ∧ control_incorrect_feedback s ≠ Some "white"
  ∧ ∀ v, feedback_stimulus s = Some v → fb_ok v.

(** [s1] is the state in which [first_ITI] leaves a new [MainScreen]. *)
Definition session_start (s1 : State) : Prop :=
  ∃ subject record phase set_num today g table now s0,
    MainScreen_init subject record phase set_num today g = Some s0
    ∧ first_ITI table now s0 = Some s1.

Definition reachable (s : State) : Prop :=
  ∃ s1 evs, session_start s1 ∧ loaded_ok s1 ∧ run evs s1 = Some s.

(** A subject that always answers: the pending timer fires if there is one;
    otherwise the sample key is pressed until the choice, where the key
    [pick] is pressed. *)
Definition next_input (pick : KeyTag) (s : State) : option Input :=
  match timers s with
  | t :: _ => Some (timer_fires (tid t))
  | [] =>
      if keys_on_top (canvas s)
      then Some (press_key (if trial_stage s =? 3 then pick else sample_key) 0 0)
      else None
  end.

Fixpoint play (n : nat) (pick : KeyTag) (now : Z) (s : State) : list (Z * Input) :=
  match n with
  | O => []
  | S n' =>
      match next_input pick s with
      | Some i =>
          match step now i s with
          | Some s' => (now, i) :: play n' pick (now + 1) s'
          | None => []
          end
      | None => []
      end
  end.

Definition draws_0 : Rng := mkRng (λ _, 0%nat) 0.

Definition table_16 : list Stim :=
  [ mkStim "Action.bmp" "L" "E1" None;
    mkStim "Balloon.bmp" "R" "C1" None;
    mkStim "Correct.bmp" "S.1" "F1" None;
    mkStim "Incorrect.bmp" "S.2" "F2" None ].

Definition session_16 (record : bool) : option State :=
  let? s0 := MainScreen_init "Wario" record 1 16 "24-10-18" draws_0 in
  first_ITI table_16 0 s0.

(** [written s s']: the step from [s] to [s'] leaves the trial's constants
    and appends rows that were written during the trial of [s]: they carry
    its sample and its condition. *)
Definition written (s s' : State) : Prop :=
  trial_consts s' = trial_consts s
  ∧ ∃ rows, session_data_frame s' = (session_data_frame s ++ rows)%list
      ∧ Forall (λ r, is_Some (trial_start s)
                     ∧ SampleStimulus r = stem (sample_stimulus s)
                     ∧ StimulusCondition r = exp_condition s
                     ∧ ExpCondition r = exp_condition s) rows.

(** In every state of a session, the condition is the letter of the
    sample's row, and so it is in every row of the log. *)
Record Tied (s : State) : Prop := mkTied {
  tied_sample : is_Some (trial_start s) →
                letter_of (stimuli_identity_d_list s) (sample_stimulus s) (exp_condition s);
  tied_log : Forall (λ r, StimulusCondition r = ExpCondition r
                          ∧ sample_letter (stimuli_identity_d_list s) (SampleStimulus r)
                              (ExpCondition r))
               (session_data_frame s)
}.

(** [quiet s s']: the step from [s] to [s'] leaves the trial's constants,
    the feedback stimulus and the window as they are. *)
Definition quiet (s s' : State) : Prop :=
  trial_consts s' = trial_consts s
  ∧ feedback_stimulus s' = feedback_stimulus s
  ∧ destroyed s' = destroyed s.






Definition times_set (s : State) : Prop :=
  is_Some (start_time s) ∧ is_Some (trial_start s)
  ∧ is_Some (trial_substage_start_time s).

(** The state of a trial inside the sample loop, [n] presses from its end. *)
Record in_sample_loop (n : Z) (s : State) : Prop := mkLoop {
  loop_phase : training_phase s = 0 ∨ training_phase s = 1;
  loop_times : times_set s;
  loop_alive : destroyed s = false;
  loop_keys : keys_on_top (canvas s) = true;
  loop_stage : trial_stage s = 1;
  loop_FR : trial_FR s = Some n;
  loop_shown : at_sample_key (current_key_stimulus_dict s) = sample_stimulus s;
  loop_black : sample_stimulus s ≠ "black";
  loop_white : sample_stimulus s ≠ "white"
}.

Definition sample_presses (evs : list (Z * Input)) : Prop :=
  Forall (λ e, ∃ x y, e.2 = press_key sample_key x y) evs.

Inductive Substage :=
  | AtStart
  | AtITI
  | AtReadySignal
  | AtSampleLoop
  | AtDelay
  | AtChoice
  | AtFeedback (correct : bool)
  | AtReinforce
  | AtTimeout
  | AtEnd
  | AtOther.

Global Instance Substage_eq_dec : EqDecision Substage.
Proof. solve_decision. Defined.

Definition pending (cb : Callback) (s : State) : bool :=
  bool_decide (cb ∈ callback <$> timers s).

(** Where a trial stands, read off the state: the window, the callbacks
    that are scheduled and [trial_stage]. The flag of [AtFeedback] is the one
    the pending feedback timer carries. *)
Definition substage (s : State) : Substage :=
  if destroyed s then AtEnd
  else if bool_decide (trial_start s = None) then AtStart
  else if pending cb_ITI s then
    if previous_trial_correct s then AtReinforce else AtTimeout
  else if pending cb_ready_signal_phase s then AtITI
  else if trial_stage s =? 0 then AtReadySignal
  else if trial_stage s =? 1 then AtSampleLoop
  else if trial_stage s =? 2 then AtDelay
  else if trial_stage s =? 3 then AtChoice
  else if trial_stage s =? 4 then AtFeedback (pending (cb_provide_food true) s)
  else AtOther.

(** The substage of every state of a run, the first one included. *)
Fixpoint stages (evs : list (Z * Input)) (s : State) : option (list Substage) :=
  match evs with
  | [] => Some [substage s]
  | (now, i) :: evs' =>
      let? s' := step now i s in
      let? l := stages evs' s' in
      Some (substage s :: l)
  end.

(** The substages visited: runs of one substage count once. *)
Fixpoint compress (l : list Substage) : list Substage :=
  match l with
  | [] => []
  | x :: l' =>
      match l' with
      | y :: _ => if decide (x = y) then compress l' else x :: compress l'
      | [] => [x]
      end
  end.

(** [moves s s' stage new]: the step from [s] to [s'] sets the stage and
    schedules the callbacks [new], and leaves the rest of the control state. *)
Definition moves (s s' : State) (stage : Z) (new : list Callback) : Prop :=
  trial_stage s' = stage
  ∧ callback <$> timers s' = ((callback <$> timers s) ++ new)%list
  ∧ destroyed s' = destroyed s
  ∧ previous_trial_correct s' = previous_trial_correct s
  ∧ config s' = config s
  ∧ trial_start s' = trial_start s.

(** What the control state looks like in each substage of a DMTO
    session: the stage number, the callbacks that are scheduled and whether
    the keys are on the canvas. *)
Definition at_substage (st : Substage) (s : State) : Prop :=
  let cbs := callback <$> timers s in
  match st with
  | AtStart =>
      destroyed s = false ∧ trial_start s = None ∧ cbs = [cb_ITI]
      ∧ keys_on_top (canvas s) = false
  | AtITI =>
      destroyed s = false ∧ is_Some (trial_start s) ∧ cbs = [cb_ready_signal_phase]
      ∧ keys_on_top (canvas s) = false
  | AtReadySignal =>
      destroyed s = false ∧ is_Some (trial_start s) ∧ cbs = [] ∧ trial_stage s = 0
  | AtSampleLoop =>
      destroyed s = false ∧ is_Some (trial_start s) ∧ cbs = [] ∧ trial_stage s = 1
  | AtDelay =>
      destroyed s = false ∧ is_Some (trial_start s) ∧ cbs = [cb_matching_stage]
      ∧ trial_stage s = 2
  | AtChoice =>
      destroyed s = false ∧ is_Some (trial_start s) ∧ cbs = [] ∧ trial_stage s = 3
  | AtFeedback c =>
      destroyed s = false ∧ is_Some (trial_start s)
      ∧ cbs = [if c then cb_provide_food true else cb_time_out_func]
      ∧ trial_stage s = 4
  | AtReinforce =>
      destroyed s = false ∧ is_Some (trial_start s) ∧ cbs = [cb_ITI]
      ∧ keys_on_top (canvas s) = false ∧ previous_trial_correct s = true
  | AtTimeout =>
      destroyed s = false ∧ is_Some (trial_start s) ∧ cbs = [cb_ITI]
      ∧ keys_on_top (canvas s) = false ∧ previous_trial_correct s = false
  | AtEnd => destroyed s = true
  | AtOther => False
  end.

(** The substages that can follow a substage. *)
Definition next (st st' : Substage) : Prop :=
  match st with
  | AtStart | AtReinforce | AtTimeout => st' = AtITI ∨ st' = AtEnd
  | AtITI => st' = AtReadySignal
  | AtReadySignal => st' = AtSampleLoop
  | AtSampleLoop => st' = AtDelay
  | AtDelay => st' = AtChoice
  | AtChoice => ∃ c, st' = AtFeedback c
  | AtFeedback c => st' = if c then AtReinforce else AtTimeout
  | AtEnd | AtOther => False
  end.

(** [l] lists the substages of the states that follow one in [st]: each is
    the substage before it or one that can follow it. *)
Fixpoint chain (st : Substage) (l : list Substage) : Prop :=
  match l with
  | [] => True
  | x :: l' => (x = st ∨ next st x) ∧ chain x l'
  end.

Definition path (st : Substage) (c : bool) : list Substage :=
  let closing := [AtFeedback c; if c then AtReinforce else AtTimeout] in
  match st with
  | AtReadySignal => [AtReadySignal; AtSampleLoop; AtDelay; AtChoice] ++ closing
  | AtSampleLoop => [AtSampleLoop; AtDelay; AtChoice] ++ closing
  | AtDelay => [AtDelay; AtChoice] ++ closing
  | AtChoice => [AtChoice] ++ closing
  | AtFeedback c' => [AtFeedback c'; if c' then AtReinforce else AtTimeout]
  | AtReinforce => [AtReinforce]
  | AtTimeout => [AtTimeout]
  | _ => []
  end%list.

Definition in_trial (st : Substage) : Prop :=
  match st with
  | AtReadySignal | AtSampleLoop | AtDelay | AtChoice | AtFeedback _
  | AtReinforce | AtTimeout => True
  | _ => False
  end.

Definition fb_okb (v : FeedbackVal) : bool :=
  match v with
  | FbName n => negb (String.eqb n "white")
  | FbList l => forallb (λ n, negb (String.eqb n "white")) l
  | FbNone => true
  end.

Definition stim_okb (i : Stim) : bool :=
  negb (String.eqb (Name i) "white") && from_option fb_okb true (Feedback i).

Definition loaded_okb (s : State) : bool :=
  forallb stim_okb (stimuli_identity_d_list s)
  && negb (from_option (String.eqb "white") false (control_correct_feedback s))
  && negb (from_option (String.eqb "white") false (control_incorrect_feedback s))
  && from_option fb_okb true (feedback_stimulus s).

(** A table of set 1 and sessions over it. *)
Definition table_1 : list Stim :=
  [ mkStim "Boat.bmp" "R" "C1" None;
    mkStim "Apple.bmp" "L" "E1" None;
    mkStim "Grey.bmp" "S" "F1" None ].

Definition session_1 : option State :=
  let? s0 := MainScreen_init "Peach" true 1 1 "24-10-18" draws_0 in
  first_ITI table_1 0 s0.

Definition draws_2 : Rng := mkRng (λ _, 2%nat) 0.

Definition session_autoshaping : option State :=
  let? s0 := MainScreen_init "Luigi" false 2 1 "24-10-18" draws_2 in
  first_ITI table_1 0 s0.

(** The first trial of [session_16] and [session_1] up to the choice: the
    ITI and the ready signal run out, the ready signal is pressed, then the
    sample three times, and the delay runs out. *)
Definition to_ready_signal : list (Z * Input) := [(1, timer_fires 0); (2, timer_fires 1)].

Definition to_choice : list (Z * Input) :=
  to_ready_signal
  ++ [(3, press_key sample_key 0 0); (4, press_key sample_key 0 0);
      (5, press_key sample_key 0 0); (6, press_key sample_key 0 0);
      (7, timer_fires 2)].

(** One trial of [session_16] from the ready signal to the reinforcement,
    with presses on keys that are not active and a peck on the background. *)
Definition a_DMTO_trial : list (Z * Input) :=
  [(3, press_key sample_key 0 0); (4, press_key sample_key 0 0);
   (5, press_key left_comparison_key 0 0);
   (6, press_key sample_key 0 0); (7, press_key sample_key 0 0);
   (8, timer_fires 2); (9, press_key sample_key 0 0);
   (10, press_key right_comparison_key 0 0); (11, press_bkgrd 0 0);
   (12, timer_fires 3)].

(** One trial of [session_16] with the wrong comparison key pressed at the
    choice: it ends in the time-out. *)
Definition a_DMTO_trial_timed_out : list (Z * Input) :=
  [(3, press_key sample_key 0 0); (4, press_key sample_key 0 0);
   (5, press_key sample_key 0 0); (6, press_key sample_key 0 0);
   (7, timer_fires 2); (8, press_key left_comparison_key 0 0);
   (9, press_key sample_key 0 0); (10, press_bkgrd 0 0);
   (11, timer_fires 3)].

(** ** Further parts of the program and notions for their properties *)

(** The second pass writes ["Feedback"] and nothing else of a row. *)
Definition same_row (i i' : Stim) : Prop :=
  Name i' = Name i ∧ Key i' = Key i ∧ Group i' = Group i.

(** [extends s s']: the log of [s'] starts with the log of [s], the
    configuration and the start of the session are the same, and the two
    trial counters have not gone down. *)
Definition extends (s s' : State) : Prop :=
  session_data_frame s `prefix_of` session_data_frame s'
  ∧ config s' = config s
  ∧ start_time s' = start_time s
  ∧ current_trial_counter s ≤ current_trial_counter s'
  ∧ non_CP_trials s ≤ non_CP_trials s'.

(** [sorted(l)] for strings (by code point). *)
Fixpoint insert_sorted (x : string) (l : list string) : list string :=
  match l with
  | [] => [x]
  | y :: l' => if String.leb x y then x :: l else y :: insert_sorted x l'
  end.

Definition py_sort (l : list string) : list string := foldr insert_sorted [] l.

(** [pigeon_name_list] after [sort()] and [insert(0, "TEST")]. *)
Definition pigeon_name_list : list string :=
  "TEST" :: py_sort ["Luigi"; "Waluigi"; "Wario"; "Peach"; "Wenchang"].

Definition stimuli_titles : list string :=
  [ "1: Stimulus set 1 (Anchor...)"; "2: Stimulus set 2 (Asparagus...)";
    "3: Stimulus set 3 (BlueTable...)"; "4: Stimulus set 4 (Apple...)";
    "5: Stimulus set 5 (Bell...)"; "6: Stimulus set 6 (Barn...)";
    "7: Stimulus set 7 (Box...)"; "8: Stimulus set 8 (Ant...)";
    "9: Stimulus set 9 (BananaSplit...)"; "10: Stimulus set 10 (BabyBear...)";
    "11: Stimulus set 11 (GrayCylinder...)"; "12: Stimulus set 12 (Horn...)";
    "13: Stimulus set 13 (Hammerhead...)"; "14: Stimulus set 14 (Caterpillar...)";
    "15: Stimulus set 15 (Abacus...)"; "16: Stimulus set 16 (Action...)";
    "17: Stimulus set 17 (Balloon...)" ].

Fixpoint split_colon_aux (s cur : string) : list string :=
  match s with
  | EmptyString => [cur]
  | String c s' =>
      if Ascii.eqb c ":"%char then cur :: split_colon_aux s' EmptyString
      else split_colon_aux s' (cur +:+ String c EmptyString)
  end.

(** [s.split(":")] *)
Definition split_colon (s : string) : list string := split_colon_aux s EmptyString.

Definition digit (c : ascii) : option Z :=
  let n := Z.of_N (N_of_ascii c) in
  if (48 <=? n) && (n <=? 57) then Some (n - 48) else None.

Fixpoint int_digits (s : string) (acc : Z) : option Z :=
  match s with
  | EmptyString => Some acc
  | String c s' => let? d := digit c in int_digits s' (10 * acc + d)
  end.

(** [int(s)] for a string of decimal digits; ValueError for the empty string
    and for a character that is no digit. (Python also reads a sign, blanks
    around the number and underscores; [build_chamber_screen] passes none of
    these.) *)
Definition py_int (s : string) : option Z :=
  match s with
  | EmptyString => None
  | _ => int_digits s 0
  end.

(** What pressing "Start program" leads to: the screen of the session, or a
    message on the terminal. *)
Inductive Panel :=
  | ScreenBuilt (s : State)
  | Refused (message : string).

(** [ExperimenterControlPanel.build_chamber_screen], with the values of the
    menus and buttons as arguments. ([place_birds_in_box], which [__init__]
    calls last, binds the space bar and draws a text that reads the same
    entry of the list of phase names: no further exception.) *)
Definition build_chamber_screen (subject title : string) (record : bool) (phase : Z)
  (today : string) (g : Rng) : option Panel :=
  if bool_decide (subject ∈ pigeon_name_list) then
    if bool_decide (title ∈ stimuli_titles) then
      let? number := head (split_colon title) in
      let? set_num := py_int number in
      let? s := MainScreen_init subject record phase set_num today g in
      Some (ScreenBuilt s)
    else Some (Refused (String "010" " ERROR: Input Stimulus Set Before Starting Session"))
  else Some (Refused (String "010" " ERROR: Input Correct Pigeon ID Before Starting Session")).

(** What a call of [transfer_updown_v] ends in. *)
Inductive Transfer :=
  | Transferred          (* the table was written back *)
  | FileNotFound         (* caught: a message is printed *)
  | IndexError.          (* not caught: the exception leaves the callback *)

(** [transfer_updown_v(col, value)] over the content of [Hopper_vals.csv],
    [None] when the file does not exist. The file is modelled by the table
    that [csv.reader] returns and [csv.writer] writes: a list of rows of
    cells. [data_table[1][col] = value] comes before the file is opened for
    writing, so a call that raises leaves the file as it was. The two
    buttons call it with the columns 0 and 1, so [col] is a [nat]; [value] is
    the text that [csv.writer] puts in the cell for the value of the slider. *)
Definition transfer_updown_v (col : nat) (value : string)
  (file : option (list (list string))) : Transfer * option (list (list string)) :=
  match file with
  | None => (FileNotFound, None)
  | Some data_table =>
      match data_table !! 1%nat with
      | None => (IndexError, file)
      | Some row =>
          if decide (col < length row)%nat
          then (Transferred, Some (<[1%nat := <[col := value]> row]> data_table))
          else (IndexError, file)
      end
  end.

(** The cell of [file] at [(i, j)]. *)
Definition cell (file : option (list (list string))) (i j : nat) : option string :=
  match file with
  | Some t => match t !! i with Some row => row !! j | None => None end
  | None => None
  end.

(** * Properties *)

#[local] Arguments String.eqb : simpl never.

(** ** Python primitives *)

Lemma choice_inv {A} (seq : list A) g x g' :
  choice seq g = Some (x, g') →
  seq !! (draws g (pos g) mod length seq)%nat = Some x
  ∧ g' = mkRng (draws g) (S (pos g)).
Proof.
  unfold choice, randbelow. destruct seq as [|a seq]; [discriminate|].
  destruct (_ !! _) eqn:E; [|discriminate]. intros [= <- <-]. auto.
Qed.

Lemma choice_elem_of {A} (seq : list A) g x g' :
  choice seq g = Some (x, g') → x ∈ seq.
Proof. intros H. apply choice_inv in H as [H _]. by eapply list_elem_of_lookup_2. Qed.

Lemma choice_is_Some {A} (seq : list A) g :
  seq ≠ [] → ∃ x, choice seq g = Some (x, mkRng (draws g) (S (pos g))).
Proof.
  intros Hne. unfold choice, randbelow. destruct seq as [|a seq]; [done|].
  destruct (lookup_lt_is_Some_2 (a :: seq) (draws g (pos g) mod length (a :: seq))%nat)
    as [x Hx].
  { apply Nat.mod_upper_bound. simpl. lia. }
  exists x. by rewrite Hx.
Qed.

Lemma range_2_5 : range 2 5 = [2; 3; 4].
Proof. reflexivity. Qed.

(** ** The event log *)

Lemma write_data_inv event outcome s s' :
  write_data event outcome s = Some s' →
  ∃ r, s' = set_session_data_frame (session_data_frame s ++ [r]) s
       ∧ Event r = outcome
       ∧ StimulusCondition r = exp_condition s
       ∧ ExpCondition r = exp_condition s
       ∧ is_Some (trial_start s).
Proof.
  unfold write_data. intros H.
  destruct (start_time s), (trial_start s), (trial_substage_start_time s);
    try discriminate.
  injection H as <-. eexists. repeat split. by eexists.
Qed.

Lemma write_data_is_Some event outcome s :
  is_Some (start_time s) → is_Some (trial_start s) →
  is_Some (trial_substage_start_time s) →
  is_Some (write_data event outcome s).
Proof. unfold write_data. intros [? ->] [? ->] [? ->]. by eexists. Qed.

(** ** Loops over the session state *)

Lemma for_each_cons {A} (body : A → State → option State) x l s :
  for_each body (x :: l) s = let? s1 := body x s in for_each body l s1.
Proof.
  unfold for_each. simpl. destruct (body x s) as [s1|]; [done|].
  induction l as [|y l IH]; [done|]. simpl. exact IH.
Qed.

Lemma for_each_rel {A} (R : State → State → Prop) (body : A → State → option State) l :
  (∀ s, R s s) → (∀ s1 s2 s3, R s1 s2 → R s2 s3 → R s1 s3) →
  (∀ x s s', body x s = Some s' → R s s') →
  ∀ s s', for_each body l s = Some s' → R s s'.
Proof.
  intros Hrefl Htrans Hbody. induction l as [|x l IH]; intros s s'.
  - intros [= <-]. apply Hrefl.
  - rewrite for_each_cons. destruct (body x s) as [s1|] eqn:E; [|discriminate].
    intros H. eapply Htrans; eauto.
Qed.

(** ** The inter-trial interval *)

Ltac option_steps :=
  repeat match goal with
    | H : Some _ = Some _ |- _ => injection H as H
    | H : None = Some _ |- _ => discriminate H
    | H : (match ?m with Some _ => _ | None => None end) = Some _ |- _ =>
        let E := fresh "E" in destruct m eqn:E; [|discriminate H]
    | H : (let (_, _) := ?p in _) = Some _ |- _ =>
        let E := fresh "E" in destruct p eqn:E
    | H : (if ?b then _ else _) = Some _ |- _ =>
        let E := fresh "E" in destruct b eqn:E
    end.

Lemma ITI_assign_frame i_dict s s' :
  ITI_assign i_dict s = Some s' → ITI_assign_only s s'.
Proof.
  unfold ITI_assign, ITI_assign_only. intros H.
  option_steps; subst; try reflexivity.
  all: destruct f; option_steps; subst; reflexivity.
Qed.

Lemma for_each_ITI_assign_frame l s s' :
  for_each ITI_assign l s = Some s' → ITI_assign_only s s'.
Proof.
  apply for_each_rel.
  - intros ?. reflexivity.
  - unfold ITI_assign_only. intros s1 s2 s3 H12 H23. rewrite H23, H12. reflexivity.
  - apply ITI_assign_frame.
Qed.

Lemma write_comp_data_false_inv s s' :
  write_comp_data false s = Some s' → s' = set_csv_file (csv_file s') s.
Proof. unfold write_comp_data. intros H. option_steps; subst; reflexivity. Qed.

Lemma ITI_reset_inv s s' :
  ITI_reset s = Some s' →
  ∃ d g, choice (range 2 5) (rng s) = Some (d, g)
    ∧ s' = set_rng g
             (set_trial_delay_duration (d * 1000)
                (set_correct_key "NA"
                   (set_sample_stimulus "NA."
                      (set_feedback_duration None
                         (set_trial_stage 0
                            (set_csv_file (csv_file s')
                               (set_trial_substage_start_time (Some (clock s))
                                  (set_trial_start (Some (clock s)) s)))))))).
Proof.
  unfold ITI_reset. intros H. option_steps.
  apply write_comp_data_false_inv in E. rewrite E in E0, H. cbn in E0.
  eexists _, _. split; [exact E0|]. subst s'. reflexivity.
Qed.

Lemma ITI_pick_sample_inv s s' :
  ITI_pick_sample s = Some s' →
  ∃ sample, head (trial_stimulus_order s) = Some sample
    ∧ for_each ITI_assign (stimuli_identity_d_list s)
        (set_trial_stimulus_order (remove_first sample (trial_stimulus_order s))
           (set_sample_stimulus sample s)) = Some s'
    ∧ s' = set_rng (rng s')
             (set_feedback_stimulus (feedback_stimulus s')
                (set_correct_key (correct_key s')
                   (set_exp_condition (exp_condition s')
                      (set_trial_stimulus_order
                         (remove_first sample (trial_stimulus_order s))
                         (set_sample_stimulus sample s))))).
Proof.
  unfold ITI_pick_sample. intros H. option_steps.
  eexists. split; [reflexivity|]. split; [exact H|].
  by apply for_each_ITI_assign_frame in H.
Qed.

Lemma ITI_requirement_inv s s' :
  ITI_requirement s = Some s' →
  s' = set_rng (rng s')
         (set_illuminated_key (illuminated_key s')
            (set_sample_key_FR (sample_key_FR s') s))
  ∧ (training_phase s = 2 →
     choice (as_options (current_trial_counter s)) (rng s)
     = Some (illuminated_key s', rng s')).
Proof.
  unfold ITI_requirement. intros H. option_steps; subst; (split; [reflexivity|]).
  - apply Z.eqb_eq in E. intros E'. rewrite E' in E. discriminate.
  - intros _. reflexivity.
  - apply Z.eqb_neq in E0. intros E'. done.
Qed.

(** The branch of [ITI] taken while the budget is not exceeded. *)
Lemma ITI_continue_inv s s' :
  (non_CP_trials s >? max_number_of_reinforced_trials s) = false →
  ITI s = Some s' →
  ∃ s1 s2 s3,
    ITI_reset (set_canvas (mkCanvas (Some "ITI_peck") false) s) = Some s1
    ∧ ITI_pick_sample s1 = Some s2
    ∧ ITI_requirement s2 = Some s3
    ∧ s' = snd (after (ITI_duration s3) cb_ready_signal_phase
                  (set_current_trial_counter (current_trial_counter s3 + 1) s3)).
Proof.
  unfold ITI. cbn [non_CP_trials set_canvas config max_number_of_reinforced_trials].
  intros -> H. option_steps. eexists _, _, _. repeat split; eauto.
Qed.

Lemma ITI_delay_duration s s' :
  (non_CP_trials s >? max_number_of_reinforced_trials s) = false →
  ITI s = Some s' →
  ∃ d g, choice (range 2 5) (rng s) = Some (d, g)
         ∧ trial_delay_duration s' = d * 1000.
Proof.
  intros Hc H. apply ITI_continue_inv in H as (s1 & s2 & s3 & H1 & H2 & H3 & ->); [|done].
  apply ITI_reset_inv in H1 as (d & g & Hd & E1).
  apply ITI_pick_sample_inv in H2 as (sample & _ & _ & E2).
  apply ITI_requirement_inv in H3 as [E3 _].
  exists d, g. split; [exact Hd|].
  cbn. rewrite E3. cbn. rewrite E2. cbn. rewrite E1. reflexivity.
Qed.

(** C4. The delay of a trial is written once, in [ITI], as a draw from
    [range(2, 5)] times 1000: it is 2000, 3000 or 4000 ms, each of them for
    some draw, and never the 5 s that the module's description lists. *)
Theorem ITI_delay_is_2_3_or_4_seconds s s' :
  non_CP_trials s ≤ max_number_of_reinforced_trials s →
  ITI s = Some s' →
  trial_delay_duration s' ∈ [2000; 3000; 4000]
  ∧ trial_delay_duration s' ≠ 5000.
Proof.
  intros Hc H.
  destruct (ITI_delay_duration s s') as (d & g & Hd & ->); [lia|done|].
  apply choice_elem_of in Hd. rewrite range_2_5 in Hd.
  rewrite !elem_of_cons, elem_of_nil in Hd.
  rewrite !elem_of_cons, elem_of_nil. lia.
Qed.

(** ** Shuffling *)

Lemma insert_Permutation {A} (l : list A) i a v :
  l !! i = Some a → a :: <[i:=v]> l ≡ₚ v :: l.
Proof.
  revert i. induction l as [|b l IH]; intros [|i] H; simplify_eq/=.
  - apply perm_swap.
  - rewrite perm_swap, (IH i H). apply perm_swap.
Qed.

Lemma swap_Permutation {A} (x : list A) i j : swap x i j ≡ₚ x.
Proof.
  unfold swap. destruct (x !! i) as [a|] eqn:Hi; [|done].
  destruct (x !! j) as [b|] eqn:Hj; [|done].
  assert (<[i:=b]> x !! j = Some b) as Hj'.
  { destruct (decide (i = j)) as [->|Hne].
    - apply list_lookup_insert_eq. by eapply lookup_lt_Some.
    - by rewrite list_lookup_insert_ne. }
  apply (Permutation_cons_inv (a := b)).
  etrans; [apply (insert_Permutation _ j b a Hj')|].
  apply (insert_Permutation _ i a b Hi).
Qed.

Lemma shuffle_from_Permutation {A} i (x : list A) g : (shuffle_from i x g).1 ≡ₚ x.
Proof.
  revert x g. induction i as [|i IH]; intros x g; [done|].
  simpl. rewrite IH. apply swap_Permutation.
Qed.

Lemma shuffle_Permutation {A} (x : list A) g : (shuffle x g).1 ≡ₚ x.
Proof. apply shuffle_from_Permutation. Qed.

Lemma append_eligible_eq l acc : append_eligible l acc = (acc ++ eligible_names l)%list.
Proof.
  unfold append_eligible, eligible_names. revert acc.
  induction l as [|i l IH]; intros acc; simpl.
  - by rewrite app_nil_r.
  - rewrite IH. rewrite filter_cons. destruct (str_in "S" (Key i)) eqn:E.
    + rewrite decide_False by done. done.
    + rewrite decide_True by done. by rewrite <- app_assoc.
Qed.

Lemma length_repeat_list {A} k (l : list A) :
  length (repeat_list k l) = (k * length l)%nat.
Proof. induction k as [|k IH]; simpl; [done|]. rewrite length_app, IH. lia. Qed.

Lemma repeat_list_snoc {A} k (l : list A) :
  (repeat_list k l ++ l)%list = repeat_list (S k) l.
Proof. induction k as [|k IH]; simpl; [by rewrite app_nil_r|]. by rewrite <- app_assoc, IH. Qed.

(** The inner loop stops with [k] copies of the eligible names, for the
    least [k] that reaches the number of rows of the table. *)
Lemma fill_set_of_trials_inv fuel l k0 r :
  fill_set_of_trials fuel l (repeat_list k0 (eligible_names l)) = Some r →
  ∃ k, r = repeat_list k (eligible_names l)
       ∧ (k0 ≤ k)%nat
       ∧ (length l ≤ length r)%nat
       ∧ ∀ j, (k0 ≤ j < k)%nat → (length (repeat_list j (eligible_names l)) < length l)%nat.
Proof.
  revert k0. induction fuel as [|fuel IH]; intros k0; simpl.
  - destruct (_ <? _)%nat eqn:E; [discriminate|]. intros [= <-].
    apply Nat.ltb_ge in E. exists k0. repeat split; auto with lia.
  - destruct (_ <? _)%nat eqn:E.
    + rewrite append_eligible_eq, repeat_list_snoc. intros H.
      apply IH in H as (k & -> & Hk & Hlen & Hmin).
      exists k. repeat split; auto with lia.
      intros j Hj. destruct (decide (j = k0)) as [->|]; [by apply Nat.ltb_lt|].
      apply Hmin. lia.
    + intros [= <-]. apply Nat.ltb_ge in E. exists k0. repeat split; auto with lia.
Qed.

Lemma fill_set_of_trials_is_Some fuel l k0 :
  eligible_names l ≠ [] →
  (length l ≤ fuel + length (repeat_list k0 (eligible_names l)))%nat →
  is_Some (fill_set_of_trials fuel l (repeat_list k0 (eligible_names l))).
Proof.
  intros Hne. revert k0. induction fuel as [|fuel IH]; intros k0 Hlen; simpl.
  - destruct (_ <? _)%nat eqn:E; [|done]. apply Nat.ltb_lt in E. lia.
  - destruct (_ <? _)%nat eqn:E; [|done].
    rewrite append_eligible_eq, repeat_list_snoc. apply IH.
    simpl. rewrite length_app. destruct (eligible_names l); [done|]. simpl in *. lia.
Qed.

(** Every pass is a permutation of the block the inner loop built. *)
Lemma build_order_inv fuel l max_trials q q' :
  build_order fuel l max_trials q = Some q' →
  order q = concat (passes q) →
  order q' = concat (passes q')
  ∧ ∀ p, p ∈ passes q' →
         p ∈ passes q
         ∨ ∃ b, fill_set_of_trials (length l) l [] = Some b ∧ p ≡ₚ b.
Proof.
  revert q. induction fuel as [|fuel IH]; intros q; simpl.
  - destruct (_ <? _); [discriminate|]. intros [= <-]. auto.
  - destruct (_ <? _); [|intros [= <-]; auto].
    destruct (fill_set_of_trials _ _ _) as [b|] eqn:Hb; [|discriminate].
    destruct (shuffle b (queue_rng q)) as [shuffled g] eqn:Hs.
    intros H Hq. apply IH in H as [Hc Hp]; simpl.
    + split; [done|]. intros p Hin. apply Hp in Hin. simpl in Hin.
      rewrite elem_of_app, list_elem_of_singleton in Hin.
      destruct Hin as [[?| ->]|?]; auto.
      right. exists b. split; [done|].
      pose proof (shuffle_Permutation b (queue_rng q)) as Hperm.
      by rewrite Hs in Hperm.
    + rewrite concat_app. simpl. by rewrite app_nil_r, Hq.
Qed.

Lemma build_order_passes_grow fuel l max_trials q q' :
  build_order fuel l max_trials q = Some q' →
  ∃ ps, passes q' = (passes q ++ ps)%list.
Proof.
  revert q. induction fuel as [|fuel IH]; intros q; simpl.
  - destruct (_ <? _); [discriminate|]. intros [= <-]. exists []. by rewrite app_nil_r.
  - destruct (_ <? _); [|intros [= <-]; exists []; by rewrite app_nil_r].
    destruct (fill_set_of_trials _ _ _) as [b|]; [|discriminate].
    destruct (shuffle b (queue_rng q)) as [shuffled g].
    intros H. apply IH in H as [ps Hps]. simpl in Hps.
    exists (shuffled :: ps). by rewrite Hps, <- app_assoc.
Qed.

Lemma build_order_is_Some fuel l max_trials q b :
  fill_set_of_trials (length l) l [] = Some b → b ≠ [] →
  max_trials ≤ Z.of_nat fuel + Z.of_nat (length (order q)) →
  ∃ q', build_order fuel l max_trials q = Some q'
        ∧ (Z.of_nat (length (order q)) < max_trials → passes q' ≠ []).
Proof.
  intros Hb Hne. revert q. induction fuel as [|fuel IH]; intros q Hlen; simpl.
  - destruct (_ <? _) eqn:E; [apply Z.ltb_lt in E; lia|]. apply Z.ltb_ge in E.
    eexists; split; [done|]. lia.
  - destruct (_ <? _) eqn:E.
    + rewrite Hb. destruct (shuffle b (queue_rng q)) as [shuffled g] eqn:Hs.
      pose proof (shuffle_Permutation b (queue_rng q)) as Hperm. rewrite Hs in Hperm.
      simpl in Hperm.
      destruct (IH (mkQueue (order q ++ shuffled) (passes q ++ [shuffled]) g))
        as (q' & Hq' & _).
      { simpl. rewrite length_app, Hperm. destruct b; [done|]. simpl. lia. }
      exists q'. split; [done|]. intros _ Heq.
      apply build_order_passes_grow in Hq' as [ps Hps]. simpl in Hps.
      rewrite Heq in Hps. by destruct (passes q).
    + apply Z.ltb_ge in E. eexists; split; [done|]. lia.
Qed.

Lemma occurrences_repeat_list x k l :
  occurrences x (repeat_list k l) = (k * occurrences x l)%nat.
Proof.
  unfold occurrences. induction k as [|k IH]; simpl; [done|].
  rewrite filter_app, length_app, IH. lia.
Qed.

Lemma occurrences_Permutation x l1 l2 : l1 ≡ₚ l2 → occurrences x l1 = occurrences x l2.
Proof. unfold occurrences. by intros ->. Qed.

Lemma occurrences_elem_of x l : x ∈ l → (1 ≤ occurrences x l)%nat.
Proof.
  unfold occurrences. intros H.
  assert (x ∈ filter (λ y, y = x) l) as Hin by (by apply list_elem_of_filter).
  destruct (filter _ l); [by apply elem_of_nil in Hin|simpl; lia].
Qed.

(** The queue is built, pass after pass, from one block: the eligible
    names repeated [k] times, [k] least with [length l ≤ k * e]. *)
Lemma build_trial_stimulus_order_spec l max_trials g :
  eligible_names l ≠ [] → 0 < max_trials →
  ∃ q k, build_trial_stimulus_order l max_trials g = Some q
    ∧ passes q ≠ []
    ∧ order q = concat (passes q)
    ∧ (length l ≤ k * length (eligible_names l))%nat
    ∧ (∀ j, (j < k)%nat → (j * length (eligible_names l) < length l)%nat)
    ∧ ∀ p, p ∈ passes q → p ≡ₚ repeat_list k (eligible_names l).
Proof.
  intros Hne Hmax.
  destruct (fill_set_of_trials_is_Some (length l) l 0 Hne) as [b Hb]; [simpl; lia|].
  simpl in Hb.
  destruct (fill_set_of_trials_inv _ l 0 b Hb) as (k & -> & _ & Hlen & Hmin).
  rewrite length_repeat_list in Hlen.
  assert (repeat_list k (eligible_names l) ≠ []) as Hbne.
  { intros Heq. apply (f_equal length) in Heq. rewrite length_repeat_list in Heq.
    simpl in Heq. destruct l; [done|]. simpl in *. lia. }
  unfold build_trial_stimulus_order.
  destruct (build_order_is_Some (Z.to_nat max_trials) l max_trials (mkQueue [] [] g) _ Hb Hbne)
    as (q & Hq & Hpass); [simpl; lia|].
  exists q, k. split; [done|]. split; [apply Hpass; simpl; lia|].
  destruct (build_order_inv _ _ _ _ _ Hq eq_refl) as [Hc Hp].
  split; [done|]. split; [done|]. split.
  - intros j Hj. specialize (Hmin j). rewrite length_repeat_list in Hmin. apply Hmin. lia.
  - intros p Hin. destruct (Hp p Hin) as [Hin'|(b' & Hb' & Hperm)].
    + by apply elem_of_nil in Hin'.
    + rewrite Hb in Hb'. by injection Hb' as <-.
Qed.

(** C2. From a table that still holds a marker row (a row with ["S"] in
    its key, as in sets 5 to 17) the queue is built, and every shuffled pass
    holds each eligible stimulus [k ≥ 2] times as often as the table lists
    it: at least twice, not exactly once. *)
Theorem every_pass_repeats_each_stimulus l max_trials g :
  eligible_names l ≠ [] →
  (length (eligible_names l) < length l)%nat →
  0 < max_trials →
  ∃ q k, build_trial_stimulus_order l max_trials g = Some q
    ∧ passes q ≠ []
    ∧ (2 ≤ k)%nat
    ∧ ∀ p x, p ∈ passes q →
        occurrences x p = (k * occurrences x (eligible_names l))%nat
        ∧ (x ∈ eligible_names l → (2 ≤ occurrences x p)%nat).
Proof.
  intros Hne Hmarker Hmax.
  destruct (build_trial_stimulus_order_spec l max_trials g Hne Hmax)
    as (q & k & Hq & Hpass & _ & Hlen & _ & Hperm).
  assert (2 ≤ k)%nat as Hk by nia.
  exists q, k. repeat split; try done.
  - rewrite (occurrences_Permutation _ _ _ (Hperm p H)). apply occurrences_repeat_list.
  - intros Hx. rewrite (occurrences_Permutation _ _ _ (Hperm p H)), occurrences_repeat_list.
    apply occurrences_elem_of in Hx. nia.
Qed.

(** Without marker rows (sets 1 to 4, once the control row is removed) a
    pass is a permutation of the eligible names. *)
Lemma pass_without_markers l max_trials g :
  eligible_names l ≠ [] →
  length (eligible_names l) = length l →
  0 < max_trials →
  ∃ q, build_trial_stimulus_order l max_trials g = Some q
    ∧ ∀ p, p ∈ passes q → p ≡ₚ eligible_names l.
Proof.
  intros Hne He Hmax.
  destruct (build_trial_stimulus_order_spec l max_trials g Hne Hmax)
    as (q & k & Hq & _ & _ & Hlen & Hmin & Hperm).
  exists q. split; [done|]. intros p Hin. rewrite (Hperm p Hin).
  assert (k = 1)%nat as ->.
  { destruct k as [|[|k]]; [destruct l; simpl in *; [done|lia]|done|].
    specialize (Hmin 1%nat). lia. }
  simpl. by rewrite app_nil_r.
Qed.

(** ** The session invariant *)

Lemma completed_trials_app l1 l2 :
  completed_trials (l1 ++ l2) = completed_trials l1 + completed_trials l2.
Proof. unfold completed_trials. rewrite filter_app, length_app. lia. Qed.

Lemma completed_trials_singleton r :
  completed_trials [r] = if is_outcome r then 1 else 0.
Proof.
  unfold completed_trials. rewrite filter_cons. destruct (is_outcome r).
  - by rewrite decide_True.
  - by rewrite decide_False.
Qed.

Lemma Inv_write_data event outcome s s' :
  Inv s → write_data event outcome s = Some s' →
  outcome ≠ "reinforcer_provided" → outcome ≠ "time_out" →
  Inv s'.
Proof.
  intros HI H Hn1 Hn2.
  apply write_data_inv in H as (r & -> & Hev & Hc1 & Hc2 & Hstart).
  destruct HI. constructor; try assumption; cbn.
  - rewrite completed_trials_app, completed_trials_singleton.
    unfold is_outcome. rewrite Hev.
    apply String.eqb_neq in Hn1, Hn2. rewrite Hn1, Hn2. simpl. lia.
  - apply Forall_app. split; [done|]. apply Forall_singleton.
    rewrite Hc1, Hc2. auto.
Qed.

Lemma Inv_clear_canvas s : Inv s → Inv (clear_canvas s).
Proof.
  intros []. constructor; try assumption.
  - intros Hk. discriminate Hk.
  - cbn. apply list_elem_of_here.
  - intros [Hk|[? Hk]]; discriminate Hk.
Qed.

Lemma Inv_after ms cb s :
  Inv s → (training_phase s = 2 → cb ≠ cb_matching_stage) →
  (cb ≠ cb_ITI → is_Some (trial_start s)) →
  Inv (snd (after ms cb s)).
Proof.
  intros [] Hcb Hstart. constructor; try assumption.
  - cbn. intros Hp. apply Forall_app. split; [auto|]. apply Forall_singleton. cbn. auto.
  - cbn. intros t [Ht| ->%list_elem_of_singleton]%elem_of_app; eauto.
Qed.

Lemma calculate_frame s s' :
  calculate_trial_key_stimuli s = Some s' →
  s' = set_rng (rng s') (set_current_key_stimulus_dict (current_key_stimulus_dict s') s).
Proof. unfold calculate_trial_key_stimuli. intros H. option_steps; subst; reflexivity. Qed.

Lemma choice_pair {A} (a b : A) g x g' :
  choice [a; b] g = Some (x, g') → x = a ∨ x = b.
Proof.
  intros H. apply choice_elem_of in H.
  rewrite !elem_of_cons, elem_of_nil in H. tauto.
Qed.

Lemma calculate_autoshaping (s s' : State) :
  training_phase s = 2 → trial_stage s = 0 →
  calculate_trial_key_stimuli s = Some s' →
  ∀ k, dict_get (current_key_stimulus_dict s') k ≠ "black" →
       keytag_name k = illuminated_key s.
Proof.
  unfold calculate_trial_key_stimuli. intros -> ->. cbn -[choice].
  intros H k.
  repeat match type of H with
    | context [String.eqb ?a ?b] =>
        let E := fresh "E" in destruct (String.eqb a b) eqn:E; cbn -[choice] in H
    | context [current_trial_counter s >? 15] =>
        destruct (current_trial_counter s >? 15); cbn -[choice] in H
    | context [choice ?l ?g] =>
        let E := fresh "E" in destruct (choice l g) as [[? ?]|] eqn:E; cbn -[choice] in H
    end; try discriminate H.
  all: injection H as <-; cbn;
  repeat match goal with
    | E : String.eqb _ _ = true |- _ => apply String.eqb_eq in E
    | E : String.eqb _ _ = false |- _ => apply String.eqb_neq in E
    end;
  destruct k; cbn; congruence.
Qed.

Ltac eqb_props :=
  repeat match goal with
    | E : String.eqb _ _ = true |- _ => apply String.eqb_eq in E
    | E : String.eqb _ _ = false |- _ => apply String.eqb_neq in E
    | E : Z.eqb _ _ = true |- _ => apply Z.eqb_eq in E
    | E : Z.eqb _ _ = false |- _ => apply Z.eqb_neq in E
    | E : (_ && _) = true |- _ => apply andb_true_iff in E as [? ?]
    | E : (_ || _) = false |- _ => apply orb_false_iff in E as [? ?]
    | E : negb _ = true |- _ => apply negb_true_iff in E
    | E : negb _ = false |- _ => apply negb_false_iff in E
    | E : bool_decide _ = true |- _ => apply bool_decide_eq_true in E
    | E : bool_decide _ = false |- _ => apply bool_decide_eq_false in E
    end.

Lemma calculate_white (s s' : State) :
  training_phase s ≠ 2 →
  sample_stimulus s ≠ "white" →
  (∀ v, feedback_stimulus s = Some v → fb_ok v) →
  calculate_trial_key_stimuli s = Some s' →
  ∀ k, dict_get (current_key_stimulus_dict s') k = "white" →
       k = sample_key ∧ trial_stage s = 0.
Proof.
  unfold calculate_trial_key_stimuli. intros Hp Hs Hf H k.
  apply Z.eqb_neq in Hp. rewrite Hp in H.
  destruct (trial_stage s =? 0) eqn:E0; destruct (trial_stage s =? 1) eqn:E1;
    destruct (trial_stage s =? 3) eqn:E3; destruct (trial_stage s =? 4) eqn:E4;
    eqb_props; try lia;
    destruct (training_phase s =? 0), (training_phase s =? 3); cbn in H;
    repeat match type of H with
      | context [cond_is ?a ?b && ?c] => destruct (cond_is a b && c); cbn in H
      | context [feedback_stimulus s] =>
          let E := fresh "E" in
          destruct (feedback_stimulus s) as [[?|?|]|] eqn:E; cbn in H;
          [specialize (Hf _ eq_refl); cbn in Hf| | |]
      end;
    try discriminate H; injection H as <-;
    destruct k; cbn; unfold left_comp_color, right_comp_color, control_feedback_color;
    try congruence; auto.
Qed.

Lemma elem_of_bkgrd_event_types (e : string) :
  e = "ITI_peck" ∨ e = "background_peck" ∨ e = "TO_peck" →
  Some e ∈ bkgrd_event_types.
Proof.
  unfold bkgrd_event_types. rewrite !elem_of_cons.
  intros [->|[->| ->]]; auto.
Qed.

(** [build_keys] sets up the display from scratch. *)
Lemma Inv_build_keys (s s' : State) :
  Inv (clear_canvas s) → is_Some (trial_start s) → build_keys s = Some s' → Inv s'.
Proof.
  intros HI Hstart. unfold build_keys.
  destruct (_ && _ && _) eqn:Eskip.
  - intros [= <-]. destruct HI. constructor; try assumption; try done.
    apply elem_of_bkgrd_event_types. auto.
  - destruct (calculate_trial_key_stimuli s) as [s1|] eqn:Hcalc; [|discriminate].
    pose proof (calculate_frame _ _ Hcalc) as Hs1.
    assert (display_ok (set_canvas (mkCanvas (Some "background_peck") true) s1)) as Hd.
    { intros _. split.
      - intros Hp. rewrite Hs1 in Hp |- *. cbn in Hp |- *.
        apply (calculate_autoshaping s s1); auto. by apply HI.
      - intros Hp k Hk. rewrite Hs1 in Hp. cbn in Hp, Hk.
        destruct (calculate_white s s1 Hp (inv_sample _ HI) (inv_feedback _ HI) Hcalc k Hk)
          as [-> Hst].
        split; [done|]. rewrite Hs1. exact Hst. }
    assert (Inv (set_canvas (mkCanvas (Some "background_peck") true) s1)) as HI1.
    { rewrite Hs1 in Hd |- *. destruct HI. constructor; try assumption; try done.
      apply elem_of_bkgrd_event_types. auto. }
    cbn [set_canvas training_phase config]. destruct (training_phase s1 =? 2) eqn:E.
    + intros [= <-].
      pose proof (Inv_after (auto_reinforcer_timer s1) (cb_provide_food false) _ HI1) as HI2.
      destruct HI2; [done|by rewrite Hs1|]. by constructor.
    + by intros [= <-].
Qed.

Lemma Inv_enter_stage (n : Z) (s : State) :
  Inv s → (training_phase s = 2 → n = 0) → Inv (clear_canvas (set_trial_stage n s)).
Proof.
  intros HI Hn. destruct (Inv_clear_canvas s HI). by constructor.
Qed.

(** A row that closes the trial, with the counter moved on. *)
Lemma Inv_outcome event outcome (s s1 : State) :
  Inv s → write_data event outcome s = Some s1 →
  outcome = "reinforcer_provided" ∨ outcome = "time_out" →
  Inv (set_non_CP_trials (non_CP_trials s1 + 1) s1).
Proof.
  intros HI H Ho.
  apply write_data_inv in H as (r & -> & Hev & Hc1 & Hc2 & Hstart).
  destruct HI. constructor; try assumption; cbn.
  - rewrite completed_trials_app, completed_trials_singleton.
    unfold is_outcome. rewrite Hev.
    destruct Ho as [-> | ->]; rewrite String.eqb_refl, ?orb_true_r; cbn; lia.
  - apply Forall_app. split; [done|]. apply Forall_singleton.
    rewrite Hc1, Hc2. auto.
Qed.

Lemma Inv_provide_food key_pecked (s s' : State) :
  Inv s → provide_food key_pecked s = Some s' → Inv s'.
Proof.
  intros HI. unfold provide_food.
  destruct (write_data _ _ (clear_canvas s)) as [s1|] eqn:H1; [|discriminate].
  pose proof (Inv_outcome _ _ _ _ (Inv_clear_canvas _ HI) H1 (or_introl eq_refl)) as HI1.
  destruct key_pecked.
  - intros [= <-]. refine (Inv_after _ _ _ _ _ _); [|done..]. destruct HI1. by constructor.
  - destruct (write_data None "auto_reinforcer_provided" _) as [s2|] eqn:H2;
      [|discriminate].
    intros [= <-]. refine (Inv_after _ _ _ _ _ _); [|done..].
    eapply Inv_write_data; [|exact H2|done|done]. destruct HI1. by constructor.
Qed.

Lemma Inv_time_out_func (s s' : State) :
  Inv s → time_out_func s = Some s' → Inv s'.
Proof.
  intros HI. unfold time_out_func.
  destruct (write_data _ _ s) as [s1|] eqn:H1; [|discriminate].
  pose proof (Inv_outcome _ _ _ _ HI H1 (or_intror eq_refl)) as HI1.
  pose proof (write_data_inv _ _ _ _ H1) as (r & Hs1 & _ & _ & _ & Hstart).
  intros [= <-]. refine (Inv_after _ _ _ _ _ _); [|done..].
  destruct HI1. constructor; try assumption.
  - intros Hk. discriminate Hk.
  - apply elem_of_bkgrd_event_types. auto.
  - intros _. by rewrite Hs1.
Qed.

Lemma Inv_ready_signal_phase (s s' : State) :
  Inv s → is_Some (trial_start s) → ready_signal_phase s = Some s' → Inv s'.
Proof.
  intros HI Hstart. unfold ready_signal_phase. apply Inv_build_keys; [|done].
  destruct (Inv_enter_stage 0 s HI (λ _, eq_refl)). by constructor.
Qed.

Lemma Inv_sample_key_loop passed_FR (s s' : State) :
  Inv s → training_phase s ≠ 2 → is_Some (trial_start s) →
  sample_key_loop passed_FR s = Some s' → Inv s'.
Proof.
  intros HI Hp Hstart. unfold sample_key_loop. apply Inv_build_keys; [|done].
  destruct (Inv_enter_stage 1 s HI) as []; [done|]. by constructor.
Qed.

Lemma Inv_ready_signal_press event (s s' : State) :
  Inv s → training_phase s ≠ 2 → ready_signal_press event s = Some s' → Inv s'.
Proof.
  intros HI Hp. unfold ready_signal_press.
  destruct (write_data _ _ s) as [s1|] eqn:H1; [|discriminate].
  pose proof (write_data_inv _ _ _ _ H1) as (r & Hs1 & _ & _ & _ & Hstart).
  apply Inv_sample_key_loop; [|by rewrite Hs1..].
  apply Inv_write_data in H1; [|done..]. destruct H1. by constructor.
Qed.

(** ** What stays fixed during a trial *)

Ltac frame_facts :=
  unfold trial_consts in *; cbn in *; simplify_eq; try done.

Lemma write_data_frame event outcome s s' :
  write_data event outcome s = Some s' →
  s' = set_session_data_frame (session_data_frame s') s.
Proof. intros H. apply write_data_inv in H as (r & -> & _). reflexivity. Qed.

Lemma write_data_consts event outcome s s' :
  write_data event outcome s = Some s' → trial_consts s' = trial_consts s.
Proof. intros H. apply write_data_frame in H. by rewrite H. Qed.

Lemma build_keys_frame s s' :
  build_keys s = Some s' →
  s' = set_auto_timer (auto_timer s')
         (set_next_timer (next_timer s')
            (set_timers (timers s')
               (set_canvas (canvas s')
                  (set_rng (rng s')
                     (set_current_key_stimulus_dict (current_key_stimulus_dict s') s))))).
Proof.
  unfold build_keys, after. intros H. option_steps; subst; try reflexivity.
  all: match goal with
       | E : calculate_trial_key_stimuli _ = Some _ |- _ =>
           apply calculate_frame in E; rewrite E
       end; reflexivity.
Qed.

Lemma build_keys_consts s s' :
  build_keys s = Some s' → trial_consts s' = trial_consts s.
Proof. intros H. apply build_keys_frame in H. by rewrite H. Qed.

Lemma build_keys_feedback s s' :
  build_keys s = Some s' → feedback_stimulus s' = feedback_stimulus s.
Proof. intros H. apply build_keys_frame in H. by rewrite H. Qed.

Lemma build_keys_stage s s' :
  build_keys s = Some s' → trial_stage s' = trial_stage s.
Proof. intros H. apply build_keys_frame in H. by rewrite H. Qed.

Lemma consts_config (s s' : State) :
  trial_consts s' = trial_consts s → config s' = config s.
Proof. unfold trial_consts. congruence. Qed.

Lemma Inv_matching_stage (s s' : State) :
  Inv s → training_phase s ≠ 2 → is_Some (trial_start s) →
  matching_stage s = Some s' → Inv s'.
Proof.
  intros HI Hp Hstart. unfold matching_stage. apply Inv_build_keys; [|done].
  destruct (Inv_enter_stage 3 s HI) as []; [done|]. by constructor.
Qed.

Lemma consts_trial_start (s s' : State) :
  trial_consts s' = trial_consts s → trial_start s' = trial_start s.
Proof. unfold trial_consts. congruence. Qed.

Lemma Inv_delay_stage (s s' : State) :
  Inv s → training_phase s ≠ 2 → is_Some (trial_start s) →
  delay_stage s = Some s' → Inv s'.
Proof.
  intros HI Hp Hstart. unfold delay_stage.
  destruct (build_keys _) as [s1|] eqn:H1; [|discriminate].
  pose proof (build_keys_consts _ _ H1) as Hc.
  intros [= <-]. refine (Inv_after _ _ _ _ _ _).
  - eapply Inv_build_keys; [| |exact H1]; [|done].
    destruct (Inv_enter_stage 2 s HI) as []; [done|]. by constructor.
  - intros Hp'. contradict Hp.
    apply consts_config in Hc. cbn in Hc. by rewrite <- Hc.
  - intros _. apply consts_trial_start in Hc. by rewrite Hc.
Qed.

Lemma Inv_after_cancel id (s : State) : Inv s → Inv (after_cancel id s).
Proof.
  intros []. constructor; try assumption.
  - cbn. intros Hp. specialize (inv_timers0 Hp).
    rewrite Forall_forall in inv_timers0 |- *.
    intros t Ht. apply list_elem_of_filter in Ht as [_ Ht]. auto.
  - cbn. intros t Ht. apply list_elem_of_filter in Ht as [_ Ht]. eauto.
Qed.

Lemma Inv_sample_key_press event (s s' : State) :
  Inv s → training_phase s ≠ 2 → sample_key_press event s = Some s' → Inv s'.
Proof.
  intros HI Hp. unfold sample_key_press.
  destruct (trial_stage s =? 1).
  - destruct (write_data _ _ s) as [s1|] eqn:H1; [|discriminate].
    pose proof (write_data_consts _ _ _ _ H1) as Hc1.
    pose proof (write_data_inv _ _ _ _ H1) as (_ & _ & _ & _ & _ & Hstart).
    assert (is_Some (trial_start s1)) as Hstart1
      by (by rewrite (consts_trial_start _ _ Hc1)).
    apply consts_config in Hc1.
    apply Inv_write_data in H1; [|done..].
    destruct (trial_FR s1) as [FR|]; [|discriminate].
    destruct (FR <=? 1).
    + destruct (build_keys _) as [s2|] eqn:H2; [|discriminate].
      pose proof (build_keys_consts _ _ H2) as Hc2.
      assert (is_Some (trial_start s2)) as Hstart2
        by (by rewrite (consts_trial_start _ _ Hc2)).
      apply consts_config in Hc2. cbn in Hc2.
      assert (Inv s2) as HI2.
      { eapply Inv_build_keys; [| |exact H2]; [|done].
        by apply Inv_clear_canvas, Inv_clear_canvas. }
      assert (training_phase s2 ≠ 2) as Hp2 by congruence.
      destruct (training_phase s2 =? 1); [by apply Inv_delay_stage|].
      destruct (training_phase s2 =? 0); [by apply Inv_matching_stage|].
      by intros [= <-].
    + apply Inv_sample_key_loop; [|cbn; congruence|done].
      destruct H1. by constructor.
  - intros H. by eapply Inv_write_data.
Qed.

Lemma Inv_feedback_stage correct (s s' : State) :
  Inv s → training_phase s ≠ 2 → trial_stage s ≠ 0 → is_Some (trial_start s) →
  feedback_stage correct s = Some s' → Inv s'.
Proof.
  intros HI Hp Hst Hstart. unfold feedback_stage.
  cbn [stimulus_set_num exp_condition set_trial_substage_start_time set_trial_stage
       config rng].
  destruct (_ && _).
  - cbn. intros [= <-]. refine (Inv_after _ _ _ _ _ _); [|by destruct correct|done].
    destruct HI. constructor; try assumption; try done.
    intros Hk. split; [done|]. intros _ k Hw.
    destruct (inv_display0 Hk) as [_ H2]. destruct (H2 Hp k Hw) as [_ ?]. done.
  - destruct (choice _ _) as [[d g]|]; [|discriminate].
    destruct (build_keys _) as [s1|] eqn:H1; [|discriminate].
    pose proof (build_keys_consts _ _ H1) as Hc1.
    destruct (feedback_duration s1); [|discriminate].
    intros [= <-]. refine (Inv_after _ _ _ _ _ _); [|by destruct correct|].
    + eapply Inv_build_keys; [| |exact H1]; [|done].
      destruct (Inv_enter_stage 4 s HI) as []; [done|]. by constructor.
    + intros _. by rewrite (consts_trial_start _ _ Hc1).
Qed.

Lemma non_active_not_outcome (k : KeyTag) :
  "non_active_" +:+ keytag_name k +:+ "_peck" ≠ "reinforcer_provided"
  ∧ "non_active_" +:+ keytag_name k +:+ "_peck" ≠ "time_out".
Proof. by destruct k. Qed.

Lemma Inv_set_feedback n (s : State) :
  Inv s → n ≠ "white" → Inv (set_feedback_stimulus (Some (FbName n)) s).
Proof.
  intros [] Hn. constructor; try assumption. cbn. by intros v [= <-].
Qed.

Lemma Inv_key_press event keytag (s s' : State) :
  Inv s → key_press event keytag s = Some s' → Inv s'.
Proof.
  intros HI. unfold key_press.
  destruct (non_active_not_outcome keytag) as [Hn1 Hn2].
  destruct (String.eqb _ "black"); [intros H; by eapply Inv_write_data|].
  destruct (training_phase s =? 2) eqn:Ep.
  { destruct (write_data _ _ s) as [s1|] eqn:H1; [|discriminate].
    apply Inv_write_data in H1; [|done|by destruct keytag..].
    apply Inv_provide_food. destruct (auto_timer s1); [by apply Inv_after_cancel|done]. }
  apply Z.eqb_neq in Ep.
  destruct (String.eqb _ "white"); [by apply Inv_ready_signal_press|].
  assert (∀ outcome (correct : bool) (reserved : Config → option string),
    outcome ≠ "reinforcer_provided" → outcome ≠ "time_out" →
    reserved s ≠ Some "white" →
    trial_stage s ≠ 0 →
    (let? s := write_data event outcome s in
     let? s := (if bool_decide (stimulus_set_num s ∈ [16; 17])
                   && cond_is (exp_condition s) "C"
                then let? n := reserved s in
                     Some (set_feedback_stimulus (Some (FbName n)) s)
                else Some s) in
     if training_phase s =? 1 then feedback_stage correct s
     else if correct then provide_food true s else time_out_func s) = Some s' →
    Inv s') as Hchoice.
  { intros outcome correct reserved Ho1 Ho2 Hr Hst.
    destruct (write_data _ _ s) as [s1|] eqn:H1; [|discriminate].
    pose proof (write_data_consts _ _ _ _ H1) as Hc1. apply consts_config in Hc1.
    pose proof (write_data_frame _ _ _ _ H1) as Hf1.
    pose proof (write_data_inv _ _ _ _ H1) as (_ & _ & _ & _ & _ & Hstart).
    apply Inv_write_data in H1; [|done..].
    assert (∀ s2, (if bool_decide (stimulus_set_num s1 ∈ [16; 17])
                      && cond_is (exp_condition s1) "C"
                   then let? n := reserved s1 in
                        Some (set_feedback_stimulus (Some (FbName n)) s1)
                   else Some s1) = Some s2 →
                  Inv s2 ∧ config s2 = config s ∧ trial_stage s2 = trial_stage s
                  ∧ trial_start s2 = trial_start s) as H2.
    { intros s2. destruct (_ && _).
      - rewrite Hc1. destruct (reserved s) as [n|]; [|discriminate]. intros [= <-].
        split; [apply Inv_set_feedback; [done|congruence]|].
        split; [done|]. by rewrite Hf1.
      - intros [= <-]. split; [done|]. split; [done|]. by rewrite Hf1. }
    destruct (if _ && _ then _ else _) as [s2|]; [|discriminate].
    destruct (H2 s2 eq_refl) as (HI2 & Hc2 & Hs2 & Hts2).
    destruct (training_phase s2 =? 1).
    - apply Inv_feedback_stage; [done|congruence|congruence|by rewrite Hts2].
    - destruct correct; [by apply Inv_provide_food|by apply Inv_time_out_func]. }
  destruct keytag; [|..|by apply Inv_sample_key_press].
  all: destruct (trial_stage s =? 3) eqn:Est; [|intros H; by eapply Inv_write_data].
  all: apply Z.eqb_eq in Est.
  all: destruct (_ || _).
  all: intros H;
       first
         [ solve [apply (Hchoice "correct_choice" true control_correct_feedback);
                  [done|done|by apply HI|lia|exact H]]
         | solve [apply (Hchoice "incorrect_choice" false control_incorrect_feedback);
                  [done|done|by apply HI|lia|exact H]] ].
Qed.

Lemma elem_of_chars x n : x ∈ chars n → x ≠ "white".
Proof.
  induction n as [|c n IH]; simpl.
  - by intros ?%elem_of_nil.
  - intros [->|?]%elem_of_cons; [discriminate|auto].
Qed.

Lemma elem_of_remove_first `{EqDecision A} (x a : A) l :
  x ∈ remove_first a l → x ∈ l.
Proof.
  induction l as [|y l IH]; simpl; [done|].
  destruct (decide (a = y)); rewrite !elem_of_cons; [auto|]. intros [?|?]; auto.
Qed.

Lemma ITI_assign_fb_ok i_dict (s s' : State) :
  stim_ok i_dict → (∀ v, feedback_stimulus s = Some v → fb_ok v) →
  ITI_assign i_dict s = Some s' →
  ∀ v, feedback_stimulus s' = Some v → fb_ok v.
Proof.
  intros [_ Hi] Hs. unfold ITI_assign. intros H. option_steps; subst; cbn; try done.
  - intros v [= <-]. cbn. apply choice_elem_of in E5. specialize (Hi _ eq_refl).
    destruct f; simplify_eq/=.
    + by eapply elem_of_chars.
    + rewrite Forall_forall in Hi. auto.
  - by intros v [= <-].
Qed.

Lemma for_each_ITI_assign_fb_ok l (s s' : State) :
  Forall stim_ok l → (∀ v, feedback_stimulus s = Some v → fb_ok v) →
  for_each ITI_assign l s = Some s' →
  ∀ v, feedback_stimulus s' = Some v → fb_ok v.
Proof.
  intros Hl. revert s. induction Hl as [|i l Hi Hl IH]; intros s Hs.
  - by intros [= <-].
  - rewrite for_each_cons. destruct (ITI_assign i s) as [s1|] eqn:E; [|discriminate].
    apply IH. by eapply ITI_assign_fb_ok.
Qed.

Lemma ITI_assign_letter table i_dict (s s' : State) :
  ITI_assign i_dict s = Some s' → i_dict ∈ table →
  (Name i_dict = sample_stimulus s ∨ group_letter table (exp_condition s)) →
  group_letter table (exp_condition s').
Proof.
  unfold ITI_assign. intros H Hin.
  destruct (String.eqb _ _) eqn:En.
  - intros _. destruct (str_at _ _) as [c|] eqn:Ec; [|discriminate].
    option_steps; subst; cbn; by exists i_dict, c.
  - injection H as <-. apply String.eqb_neq in En. by intros [?|?].
Qed.

Lemma for_each_ITI_assign_letter table l (s s' : State) :
  for_each ITI_assign l s = Some s' → (∀ i, i ∈ l → i ∈ table) →
  (sample_stimulus s ∈ Name <$> l ∨ group_letter table (exp_condition s)) →
  group_letter table (exp_condition s').
Proof.
  revert s. induction l as [|i l IH]; intros s.
  - intros [= <-] _ [?%elem_of_nil|?]; done.
  - rewrite for_each_cons. destruct (ITI_assign i s) as [s1|] eqn:E; [|discriminate].
    intros H Hsub Hs. apply (IH _ H).
    { intros j Hj. apply Hsub. by apply list_elem_of_further. }
    pose proof (ITI_assign_frame _ _ _ E) as Hf. unfold ITI_assign_only in Hf.
    assert (sample_stimulus s1 = sample_stimulus s) as -> by (by rewrite Hf).
    assert (i ∈ table) as Hi by (apply Hsub, list_elem_of_here).
    rewrite fmap_cons, elem_of_cons in Hs.
    destruct Hs as [[Hs|Hs]|Hs]; [right|by left|right].
    + eapply ITI_assign_letter; eauto.
    + eapply ITI_assign_letter; eauto.
Qed.

(** Whatever the condition was before, the sample's row makes it a letter. *)
Lemma Inv_ITI_pick_sample (s s' : State) :
  Forall (λ n, n ∈ Name <$> stimuli_identity_d_list s) (trial_stimulus_order s) →
  (∀ c, group_letter (stimuli_identity_d_list s) c → Inv (set_exp_condition c s)) →
  ITI_pick_sample s = Some s' → Inv s'.
Proof.
  intros Hq HIc H. apply ITI_pick_sample_inv in H as (sample & Hhead & Hfor & Hs').
  assert (sample ∈ trial_stimulus_order s) as Hin.
  { destruct (trial_stimulus_order s); simplify_eq/=. apply list_elem_of_here. }
  rewrite Forall_forall in Hq.
  assert (sample ∈ Name <$> stimuli_identity_d_list s) as Hname by auto.
  assert (group_letter (stimuli_identity_d_list s) (exp_condition s')) as Hletter.
  { eapply for_each_ITI_assign_letter; [exact Hfor|done|by left]. }
  pose proof (HIc _ Hletter) as HI.
  assert (sample ≠ "white") as Hsample.
  { apply list_elem_of_fmap in Hname as (i & -> & Hi).
    pose proof (inv_table _ HI) as Ht. cbn in Ht. rewrite Forall_forall in Ht.
    by apply Ht. }
  pose proof (inv_table _ HI) as Ht. pose proof (inv_feedback _ HI) as Hf.
  cbn in Ht, Hf.
  assert (∀ v, feedback_stimulus s' = Some v → fb_ok v) as Hfb.
  { eapply for_each_ITI_assign_fb_ok; [| |exact Hfor]; [exact Ht|exact Hf]. }
  rewrite Hs'. rewrite Hs' in Hfb. cbn in Hfb.
  destruct HI. constructor; try assumption; cbn.
  apply Forall_forall. intros n Hn. apply Hq. by eapply elem_of_remove_first.
Qed.

Lemma exit_program_inv (s s' : State) :
  exit_program s = Some s' →
  ∃ s1, write_data None "SessionEnds" (clear_canvas s) = Some s1
    ∧ s' = set_destroyed true
             (set_timers []
                (set_csv_file (if record_data s then Some (session_data_frame s1)
                               else csv_file s) s1)).
Proof.
  unfold exit_program, write_comp_data. intros H.
  destruct (write_data _ _ _) as [s1|] eqn:H1; [|discriminate].
  exists s1. split; [done|].
  pose proof (write_data_frame _ _ _ _ H1) as Hf.
  assert (record_data s1 = record_data s) as Hr by (by rewrite Hf).
  assert (csv_file s1 = csv_file s) as Hc by (by rewrite Hf).
  rewrite Hr in H. destruct (record_data s).
  - destruct (start_time s1); [|discriminate]. by injection H as <-.
  - injection H as <-. by rewrite <- Hc.
Qed.

Lemma Inv_exit_program (s s' : State) :
  Inv (clear_canvas s) → exit_program s = Some s' → Inv s'.
Proof.
  intros HI H. apply exit_program_inv in H as (s1 & H1 & ->).
  apply Inv_write_data in H1; [|done..].
  destruct H1. constructor; try assumption; cbn; try done.
  by intros t ?%elem_of_nil.
Qed.

Lemma Inv_ITI (s s' : State) : Inv s → ITI s = Some s' → Inv s'.
Proof.
  intros HI.
  destruct (non_CP_trials s >? max_number_of_reinforced_trials s) eqn:Ec.
  { unfold ITI. cbn [non_CP_trials set_canvas config max_number_of_reinforced_trials].
    rewrite Ec. apply Inv_exit_program. exact (Inv_clear_canvas _ HI). }
  intros H. apply ITI_continue_inv in H as (s1 & s2 & s3 & H1 & H2 & H3 & ->); [|done].
  apply ITI_reset_inv in H1 as (d & g & _ & Hs1).
  assert (∀ c, group_letter (stimuli_identity_d_list s1) c →
               Inv (set_exp_condition c s1)) as HI1.
  { intros c Hc. rewrite Hs1 in Hc |- *.
    destruct HI. constructor; try assumption; cbn; try done.
    apply elem_of_bkgrd_event_types. auto. }
  assert (Forall (λ n, n ∈ Name <$> stimuli_identity_d_list s1) (trial_stimulus_order s1))
    as Hq1 by (rewrite Hs1; apply HI).
  pose proof (Inv_ITI_pick_sample _ _ Hq1 HI1 H2) as HI2.
  apply ITI_pick_sample_inv in H2 as (sample & _ & _ & Hs2).
  apply ITI_requirement_inv in H3 as [Hs3 _].
  assert (is_Some (trial_start s3)) as Hstart.
  { rewrite Hs3. cbn. rewrite Hs2. cbn. rewrite Hs1. done. }
  refine (Inv_after _ _ _ _ _ _); [|done|done].
  assert (keys_on_top (canvas s3) = false) as Hk.
  { rewrite Hs3. cbn. rewrite Hs2. cbn. rewrite Hs1. reflexivity. }
  rewrite Hs3 in Hk, Hstart |- *. destruct HI2. constructor; try assumption.
  intros Hk'. cbn in Hk, Hk'. congruence.
Qed.

Lemma find_timer_elem_of id (s : State) t :
  find_timer id s = Some t → t ∈ timers s ∧ tid t = id.
Proof.
  unfold find_timer. intros H.
  destruct (filter _ (timers s)) as [|t' l] eqn:E; simplify_eq/=.
  assert (t ∈ filter (λ t, tid t = id) (timers s)) as Hin.
  { rewrite E. apply list_elem_of_here. }
  apply list_elem_of_filter in Hin. tauto.
Qed.

Lemma Inv_step now i (s s' : State) : Inv s → step now i s = Some s' → Inv s'.
Proof.
  intros HI. unfold step. destruct (destroyed s); [discriminate|].
  assert (Inv (set_clock now s)) as HI0 by (destruct HI; by constructor).
  destruct i as [keytag x y|x y|id].
  - destruct (keys_on_top _); [|discriminate]. by apply Inv_key_press.
  - destruct (bkgrd _) as [ty|] eqn:Eb; [|discriminate].
    pose proof (inv_bkgrd _ HI0) as Hb. rewrite Eb in Hb.
    unfold bkgrd_event_types in Hb. rewrite !elem_of_cons, elem_of_nil in Hb.
    intros H. eapply Inv_write_data; [exact HI0|exact H|..];
      destruct Hb as [?|[?|[?|[?|[]]]]]; simplify_eq; done.
  - destruct (find_timer _ _) as [t|] eqn:Et; [|discriminate].
    apply find_timer_elem_of in Et as [Hin _].
    pose proof (Inv_after_cancel id _ HI0) as HI1.
    assert (callback t ≠ cb_ITI → is_Some (trial_start s)) as Hstart.
    { intros Hcb. exact (inv_pending _ HI0 t Hin Hcb). }
    destruct (callback t) eqn:Ecb; unfold run_callback.
    + by apply Inv_ITI.
    + apply Inv_ready_signal_phase; [done|]. by apply Hstart.
    + apply Inv_matching_stage; [done| |by apply Hstart]. intros Hp.
      pose proof (inv_timers _ HI0 Hp) as Ht. rewrite Forall_forall in Ht.
      by apply (Ht t).
    + by apply Inv_provide_food.
    + by apply Inv_time_out_func.
Qed.

Lemma Inv_run evs (s s' : State) : Inv s → run evs s = Some s' → Inv s'.
Proof.
  revert s. induction evs as [|[now i] evs IH]; intros s HI; simpl.
  - by intros [= <-].
  - destruct (step now i s) as [s1|] eqn:E; [|discriminate].
    apply IH. by eapply Inv_step.
Qed.

(** ** Session start *)

Lemma elem_of_repeat_list {A} (x : A) k l : x ∈ repeat_list k l → x ∈ l.
Proof.
  induction k as [|k IH]; simpl; [by intros ?%elem_of_nil|].
  rewrite elem_of_app. intros [?|?]; auto.
Qed.

Lemma elem_of_eligible_names x l : x ∈ eligible_names l → x ∈ Name <$> l.
Proof.
  unfold eligible_names. rewrite !list_elem_of_fmap.
  intros (i & -> & Hi). apply list_elem_of_filter in Hi as [_ Hi]. eauto.
Qed.

Lemma build_trial_stimulus_order_names l max_trials g q :
  build_trial_stimulus_order l max_trials g = Some q →
  Forall (λ n, n ∈ Name <$> l) (order q).
Proof.
  unfold build_trial_stimulus_order. intros H.
  destruct (build_order_inv _ _ _ _ _ H eq_refl) as [Hc Hp].
  rewrite Hc. apply Forall_forall. intros n Hn.
  apply list_elem_of_In, in_concat in Hn as (p & Hin & Hn).
  apply list_elem_of_In in Hin, Hn.
  destruct (Hp p Hin) as [Hnil|(b & Hb & Hperm)]; [by apply elem_of_nil in Hnil|].
  apply (fill_set_of_trials_inv _ l 0) in Hb as (k & -> & _).
  rewrite Hperm in Hn. by apply elem_of_repeat_list, elem_of_eligible_names in Hn.
Qed.

Lemma session_start_facts (s1 : State) :
  session_start s1 →
  max_number_of_reinforced_trials s1 = 96
  ∧ non_CP_trials s1 = 1
  ∧ session_data_frame s1 = []
  ∧ trial_start s1 = None
  ∧ is_Some (start_time s1)
  ∧ trial_stage s1 = 0
  ∧ sample_stimulus s1 = "NA."
  ∧ canvas s1 = mkCanvas None false
  ∧ destroyed s1 = false
  ∧ (∃ ms, timers s1 = [mkTimer 0 ms cb_ITI])
  ∧ Forall (λ n, n ∈ Name <$> stimuli_identity_d_list s1) (trial_stimulus_order s1).
Proof.
  intros (subject & record & phase & set_num & today & g & table & now & s0 & H0 & H1).
  unfold MainScreen_init in H0.
  destruct (dict_lookup _ _) as [group|]; [|discriminate].
  destruct (list_at _ _) as [phase_name|]; [|discriminate]. injection H0 as <-.
  unfold first_ITI in H1. cbn in H1.
  destruct (load_catalog set_num table) as [cat|]; [|discriminate].
  destruct (cat_feedback_stimulus cat); cbn in H1.
  all: destruct (build_trial_stimulus_order _ _ _) as [q|] eqn:Hq; [|discriminate].
  all: apply build_trial_stimulus_order_names in Hq.
  all: destruct (String.eqb subject "TEST"); injection H1 as <-.
  all: cbn; repeat split; eauto.
Qed.

Lemma Inv_session_start (s1 : State) : session_start s1 → loaded_ok s1 → Inv s1.
Proof.
  intros Hs (Ht & Hc & Hi & Hf).
  destruct (session_start_facts _ Hs)
    as (Hmax & Hn & Hlog & Hts & Hstart & Hst & Hsample & Hcanvas & _ & [ms Htimers] & Hq).
  constructor; try assumption; rewrite ?Hts, ?Hcanvas, ?Htimers, ?Hlog, ?Hsample; cbn;
    try done.
  all: try (intros [? ?]; done).
  - intros _. by apply Forall_singleton.
  - intros Hk. rewrite Hcanvas in Hk. discriminate Hk.
  - apply list_elem_of_here.
  - intros [Hk|[? Hk]]; discriminate Hk.
  - by intros t ->%list_elem_of_singleton.
Qed.

Lemma Inv_reachable (s : State) : reachable s → Inv s.
Proof.
  intros (s1 & evs & Hs & Hl & Hrun).
  eapply Inv_run; [|exact Hrun]. by apply Inv_session_start.
Qed.

(** ** Presses on a key that is not active *)

Lemma step_press_key now keytag x y (s : State) :
  step now (press_key keytag x y) s =
  if destroyed s then None
  else if keys_on_top (canvas s) then key_press (Some (x, y)) keytag (set_clock now s)
       else None.
Proof. reflexivity. Qed.

(** C9. In every state a session can reach, a press on a key that is not
    active is answered by one new row in the event log, a non-active press,
    and by nothing else: substage, remaining fixed ratio, feedback stimulus
    and counters are as before. The press is never lost: whenever the keys
    are on the canvas the handler returns. *)
Theorem inactive_press_is_only_logged now keytag x y (s : State) :
  reachable s →
  active s keytag = false →
  keys_on_top (canvas s) = true → destroyed s = false →
  ∃ s' r,
    step now (press_key keytag x y) s = Some s'
    ∧ s' = set_session_data_frame (session_data_frame s ++ [r]) (set_clock now s)
    ∧ non_active_event keytag (Event r)
    ∧ trial_stage s' = trial_stage s
    ∧ trial_FR s' = trial_FR s
    ∧ feedback_stimulus s' = feedback_stimulus s
    ∧ current_trial_counter s' = current_trial_counter s
    ∧ non_CP_trials s' = non_CP_trials s.
Proof.
  intros Hreach Hact Hkeys Halive. pose proof (Inv_reachable _ Hreach) as HI.
  rewrite step_press_key, Halive, Hkeys.
  assert (∀ outcome, non_active_event keytag outcome →
            ∃ s' r,
              write_data (Some (x, y)) outcome (set_clock now s) = Some s'
              ∧ s' = set_session_data_frame (session_data_frame s ++ [r]) (set_clock now s)
              ∧ non_active_event keytag (Event r)
              ∧ trial_stage s' = trial_stage s
              ∧ trial_FR s' = trial_FR s
              ∧ feedback_stimulus s' = feedback_stimulus s
              ∧ current_trial_counter s' = current_trial_counter s
              ∧ non_CP_trials s' = non_CP_trials s) as Hlog.
  { intros outcome Ho.
    assert (is_Some (trial_start s)) as Hstart by (apply HI; auto).
    destruct (write_data_is_Some (Some (x, y)) outcome (set_clock now s))
      as [s' Hs']; [apply HI|done|by apply HI|].
    pose proof (write_data_inv _ _ _ _ Hs') as (r & Heq & Hev & _).
    exists s', r. rewrite Hev. split; [done|]. split; [exact Heq|].
    split; [done|]. by rewrite Heq. }
  destruct (inv_display _ HI Hkeys) as [Has Hother].
  unfold active in Hact. unfold key_press.
  cbn [current_key_stimulus_dict set_clock training_phase config trial_stage].
  destruct (String.eqb _ "black") eqn:Eblack; [apply Hlog; by left|].
  apply String.eqb_neq in Eblack.
  destruct (training_phase s =? 2) eqn:Ep.
  { apply Z.eqb_eq in Ep. rewrite (Has Ep keytag Eblack), String.eqb_refl in Hact.
    discriminate Hact. }
  apply Z.eqb_neq in Ep.
  destruct (String.eqb _ "white") eqn:Ewhite.
  { apply String.eqb_eq in Ewhite. destruct (Hother Ep keytag Ewhite) as [-> Hst].
    rewrite Hst in Hact. discriminate Hact. }
  destruct ((trial_stage s =? 0) || (trial_stage s =? 1)) eqn:E01.
  - apply bool_decide_eq_false in Hact.
    destruct keytag; [| |done]; unfold sample_key_press;
      apply orb_true_iff in E01 as [E|E]; apply Z.eqb_eq in E.
    all: assert ((trial_stage s =? 3) = false) as -> by (apply Z.eqb_neq; lia).
    all: apply Hlog; by left.
  - apply orb_false_iff in E01 as [_ E1].
    destruct (trial_stage s =? 3) eqn:E3.
    + apply bool_decide_eq_false in Hact. assert (keytag = sample_key) as ->.
      { by destruct (decide (keytag = sample_key)). }
      unfold sample_key_press. cbn [trial_stage set_clock]. rewrite E1.
      apply Hlog. by right.
    + destruct keytag; [apply Hlog; by left..|].
      unfold sample_key_press. cbn [trial_stage set_clock]. rewrite E1.
      apply Hlog. by right.
Qed.

(** ** The condition columns of the log *)

Lemma written_refl (s : State) : written s s.
Proof. split; [done|]. exists []. by rewrite app_nil_r. Qed.

Lemma written_trans (s1 s2 s3 : State) : written s1 s2 → written s2 s3 → written s1 s3.
Proof.
  intros (Hc1 & rows1 & Hl1 & Hr1) (Hc2 & rows2 & Hl2 & Hr2).
  split; [congruence|]. exists (rows1 ++ rows2)%list.
  split; [by rewrite Hl2, Hl1, app_assoc|].
  apply Forall_app. split; [done|].
  assert (exp_condition s2 = exp_condition s1 ∧ sample_stimulus s2 = sample_stimulus s1
          ∧ trial_start s2 = trial_start s1) as (He & Hn & Ht).
  { unfold trial_consts in Hc1. by simplify_eq. }
  eapply Forall_impl; [exact Hr2|]. cbn beta. intros r. by rewrite He, Hn, Ht.
Qed.

Lemma write_data_written event outcome (s s' : State) :
  write_data event outcome s = Some s' → written s s'.
Proof.
  unfold write_data. intros H.
  destruct (start_time s), (trial_start s) eqn:Et, (trial_substage_start_time s);
    try discriminate.
  injection H as <-. split; [done|]. eexists. split; [reflexivity|].
  apply Forall_singleton. cbn. rewrite Et. by repeat split.
Qed.

Lemma build_keys_written (s s' : State) : build_keys s = Some s' → written s s'.
Proof. intros H. apply build_keys_frame in H. rewrite H. exact (written_refl s). Qed.

Ltac written_steps :=
  repeat match goal with
    | H : write_data _ _ _ = Some _ |- _ => apply write_data_written in H
    | H : build_keys _ = Some _ |- _ => apply build_keys_written in H
    end.

(** Attribute assignments that [written] does not look at disappear by
    conversion, so a chain of handler facts closes the goal. *)
Ltac written_chain :=
  lazymatch goal with
  | |- written ?c ?d =>
      first
        [ exact (written_refl c)
        | match goal with
          | H : written ?a ?b |- _ =>
              refine (written_trans c a d _ (H : written a d)); clear H; written_chain
          end ]
  end.

Lemma provide_food_written key_pecked (s s' : State) :
  provide_food key_pecked s = Some s' → written s s'.
Proof.
  unfold provide_food, after. intros H. option_steps; subst; written_steps; written_chain.
Qed.

Lemma time_out_func_written (s s' : State) : time_out_func s = Some s' → written s s'.
Proof.
  unfold time_out_func, after. intros H. option_steps; subst; written_steps; written_chain.
Qed.

Lemma ready_signal_phase_written (s s' : State) :
  ready_signal_phase s = Some s' → written s s'.
Proof. unfold ready_signal_phase. intros H. written_steps. written_chain. Qed.

Lemma sample_key_loop_written n (s s' : State) :
  sample_key_loop n s = Some s' → written s s'.
Proof. unfold sample_key_loop. intros H. written_steps. written_chain. Qed.

Lemma matching_stage_written (s s' : State) : matching_stage s = Some s' → written s s'.
Proof. unfold matching_stage. intros H. written_steps. written_chain. Qed.

Lemma delay_stage_written (s s' : State) : delay_stage s = Some s' → written s s'.
Proof.
  unfold delay_stage, after. intros H. option_steps; subst; written_steps; written_chain.
Qed.

Lemma ready_signal_press_written event (s s' : State) :
  ready_signal_press event s = Some s' → written s s'.
Proof.
  unfold ready_signal_press. intros H. option_steps.
  apply sample_key_loop_written in H. written_steps. written_chain.
Qed.

Lemma sample_key_press_written event (s s' : State) :
  sample_key_press event s = Some s' → written s s'.
Proof.
  unfold sample_key_press. intros H. option_steps; subst;
    repeat match goal with
      | H : delay_stage _ = Some _ |- _ => apply delay_stage_written in H
      | H : matching_stage _ = Some _ |- _ => apply matching_stage_written in H
      | H : sample_key_loop _ _ = Some _ |- _ => apply sample_key_loop_written in H
      end; written_steps; written_chain.
Qed.

Lemma feedback_stage_written correct (s s' : State) :
  feedback_stage correct s = Some s' → written s s'.
Proof.
  unfold feedback_stage, after. intros H. option_steps; subst; written_steps; written_chain.
Qed.

Lemma key_press_written event keytag (s s' : State) :
  key_press event keytag s = Some s' → written s s'.
Proof.
  unfold key_press. intros H.
  destruct (String.eqb _ "black"); [by eapply write_data_written|].
  destruct (training_phase s =? 2) eqn:Ep.
  { option_steps. apply provide_food_written in H. apply write_data_written in E.
    destruct (auto_timer s0); written_chain. }
  destruct (String.eqb _ "white"); [by eapply ready_signal_press_written|].
  assert (∀ (correct : bool) (reserved : Config → option string) e o,
            (let? s1 := write_data e o s in
             let? s2 := (if bool_decide (stimulus_set_num s1 ∈ [16; 17])
                            && cond_is (exp_condition s1) "C"
                         then let? n := reserved s1 in
                              Some (set_feedback_stimulus (Some (FbName n)) s1)
                         else Some s1) in
             if training_phase s2 =? 1 then feedback_stage correct s2
             else (if correct then provide_food true s2 else time_out_func s2)) = Some s' →
            written s s') as Hbranch.
  { intros correct reserved e o Hb.
    destruct (write_data e o s) as [s1|] eqn:E1; [|discriminate].
    apply write_data_written in E1.
    destruct (if _ && _ then _ else _) as [s2|] eqn:E2; [|discriminate].
    assert (written s1 s2) as E12.
    { match type of E2 with (if ?b then _ else _) = _ => destruct b end;
        [|injection E2 as <-; exact (written_refl s1)].
      destruct (reserved _); [|discriminate]. injection E2 as <-.
      exact (written_refl s1). }
    assert (written s2 s') as E23.
    { destruct (training_phase s2 =? 1); [by eapply feedback_stage_written|].
      destruct correct; [by eapply provide_food_written|by eapply time_out_func_written]. }
    exact (written_trans _ _ _ E1 (written_trans _ _ _ E12 E23)). }
  destruct keytag; [| |by eapply sample_key_press_written].
  all: destruct (trial_stage s =? 3); [|by eapply write_data_written].
  all: destruct (_ || _);
    [exact (Hbranch true control_correct_feedback _ _ H)
    |exact (Hbranch false control_incorrect_feedback _ _ H)].
Qed.

Lemma letter_of_sample_letter table sample c :
  letter_of table sample c → sample_letter table (stem sample) c.
Proof. intros (i & x & Hi & <- & Hx & ->). by exists i, x. Qed.

Lemma Tied_written (s s' : State) : Tied s → written s s' → Tied s'.
Proof.
  intros [Hs Hl] (Hc & rows & Hrows & Hr).
  assert (config s' = config s ∧ exp_condition s' = exp_condition s
          ∧ sample_stimulus s' = sample_stimulus s ∧ trial_start s' = trial_start s)
    as (Hcfg & He & Hn & Ht).
  { unfold trial_consts in Hc. by simplify_eq. }
  constructor.
  - rewrite Hcfg, He, Hn, Ht. exact Hs.
  - rewrite Hcfg, Hrows. apply Forall_app. split; [exact Hl|].
    eapply Forall_impl; [exact Hr|]. cbn beta. intros r (Hts & Hsam & Hc1 & Hc2).
    split; [congruence|]. rewrite Hsam, Hc2. apply letter_of_sample_letter. by apply Hs.
Qed.

Lemma ITI_assign_tied table i_dict (s s' : State) :
  ITI_assign i_dict s = Some s' → i_dict ∈ table →
  (Name i_dict = sample_stimulus s ∨ letter_of table (sample_stimulus s) (exp_condition s)) →
  letter_of table (sample_stimulus s) (exp_condition s').
Proof.
  unfold ITI_assign. intros H Hin.
  destruct (String.eqb _ _) eqn:En.
  - intros _. apply String.eqb_eq in En.
    destruct (str_at _ _) as [c|] eqn:Ec; [|discriminate].
    option_steps; subst; cbn; by exists i_dict, c.
  - injection H as <-. apply String.eqb_neq in En. by intros [?|?].
Qed.

Lemma for_each_ITI_assign_tied table l (s s' : State) :
  for_each ITI_assign l s = Some s' → (∀ i, i ∈ l → i ∈ table) →
  (sample_stimulus s ∈ Name <$> l ∨ letter_of table (sample_stimulus s) (exp_condition s)) →
  letter_of table (sample_stimulus s) (exp_condition s').
Proof.
  revert s. induction l as [|i l IH]; intros s.
  - intros [= <-] _ [?%elem_of_nil|?]; done.
  - rewrite for_each_cons. destruct (ITI_assign i s) as [s1|] eqn:E; [|discriminate].
    intros H Hsub Hs.
    pose proof (ITI_assign_frame _ _ _ E) as Hf. unfold ITI_assign_only in Hf.
    assert (sample_stimulus s1 = sample_stimulus s) as Hsam by (by rewrite Hf).
    rewrite <- Hsam. apply (IH _ H).
    { intros j Hj. apply Hsub. by apply list_elem_of_further. }
    rewrite Hsam.
    assert (i ∈ table) as Hi by (apply Hsub, list_elem_of_here).
    rewrite fmap_cons, elem_of_cons in Hs.
    destruct Hs as [[Hs|Hs]|Hs]; [right|by left|right].
    + eapply ITI_assign_tied; eauto.
    + eapply ITI_assign_tied; eauto.
Qed.

Lemma Tied_ITI (s s' : State) : Inv s → Tied s → ITI s = Some s' → Tied s'.
Proof.
  intros HI HT H.
  destruct (non_CP_trials s >? max_number_of_reinforced_trials s) eqn:Ec.
  { unfold ITI in H. cbn in H. rewrite Ec in H.
    apply exit_program_inv in H as (s1 & H1 & ->).
    apply write_data_written in H1. eapply Tied_written; [exact HT|]. written_chain. }
  apply ITI_continue_inv in H as (s1 & s2 & s3 & H1 & H2 & H3 & ->); [|done].
  apply ITI_reset_inv in H1 as (d & g & _ & Hs1).
  apply ITI_pick_sample_inv in H2 as (sample & Hhead & Hfor & Hs2).
  apply ITI_requirement_inv in H3 as [Hs3 _].
  assert (sample ∈ Name <$> stimuli_identity_d_list s) as Hname.
  { pose proof (inv_queue _ HI) as Hq. rewrite Forall_forall in Hq. apply Hq.
    rewrite Hs1 in Hhead. cbn in Hhead.
    destruct (trial_stimulus_order s); simplify_eq/=. apply list_elem_of_here. }
  apply (for_each_ITI_assign_tied (stimuli_identity_d_list s)) in Hfor.
  - destruct HT as [_ Hl]. constructor.
    + intros _. cbn. rewrite Hs3. cbn. rewrite Hs2. cbn. rewrite Hs1. cbn.
      cbn in Hfor. exact Hfor.
    + cbn. rewrite Hs3. cbn. rewrite Hs2. cbn. rewrite Hs1. cbn. exact Hl.
  - rewrite Hs1. cbn. auto.
  - left. cbn. rewrite Hs1. cbn. exact Hname.
Qed.

Lemma Tied_step now i (s s' : State) : Inv s → Tied s → step now i s = Some s' → Tied s'.
Proof.
  intros HI HT. unfold step. destruct (destroyed s); [discriminate|].
  assert (Tied (set_clock now s)) as HT0 by (destruct HT; by constructor).
  assert (Inv (set_clock now s)) as HI0 by (destruct HI; by constructor).
  destruct i as [keytag x y|x y|id].
  - destruct (keys_on_top _); [|discriminate]. intros H.
    apply key_press_written in H. by eapply Tied_written.
  - intros H. option_steps. apply write_data_written in H. by eapply Tied_written.
  - intros H.
    destruct (find_timer id (set_clock now s)) as [t|]; [|discriminate].
    assert (Tied (after_cancel id (set_clock now s))) as HT1
      by (destruct HT0; by constructor).
    pose proof (Inv_after_cancel id _ HI0) as HI1.
    destruct (callback t); unfold run_callback in H.
    + by eapply Tied_ITI.
    + apply ready_signal_phase_written in H. by eapply Tied_written.
    + apply matching_stage_written in H. by eapply Tied_written.
    + apply provide_food_written in H. by eapply Tied_written.
    + apply time_out_func_written in H. by eapply Tied_written.
Qed.

Lemma Tied_run evs : ∀ (s s' : State), Inv s → Tied s → run evs s = Some s' → Tied s'.
Proof.
  induction evs as [|[now i] evs IH]; intros s s' HI HT; simpl.
  - by intros [= <-].
  - destruct (step now i s) as [s1|] eqn:E; [|discriminate].
    apply IH; [by eapply Inv_step|by eapply Tied_step].
Qed.

Lemma Tied_session_start (s1 : State) : session_start s1 → Tied s1.
Proof.
  intros H. apply session_start_facts in H as (_ & _ & Hlog & Hts & _).
  constructor.
  - rewrite Hts. by intros [? ?].
  - by rewrite Hlog.
Qed.

Lemma NoDup_fmap_eq {A B} (f : A → B) (l : list A) x y :
  NoDup (f <$> l) → x ∈ l → y ∈ l → f x = f y → x = y.
Proof.
  induction l as [|a l IH]; [by intros _ ?%elem_of_nil|].
  rewrite fmap_cons, NoDup_cons, !elem_of_cons.
  intros [Ha Hl] [->|Hx] [->|Hy] Hf; auto.
  - exfalso. apply Ha. rewrite Hf. apply list_elem_of_fmap. eauto.
  - exfalso. apply Ha. rewrite <- Hf. apply list_elem_of_fmap. eauto.
Qed.

(** C10. The two condition columns of every row hold the same value: the
    first character of the group tag of the row of the stimulus table whose
    name, without extension, is the sample logged in the same row (when the
    samples of the table are logged under distinct names, of the one row
    with that name). The group number (1 to 4) that [__init__] stored in
    [exp_condition] is in no row. *)
Theorem condition_columns_hold_the_group_letter evs (s1 s : State) :
  session_start s1 → loaded_ok s1 → run evs s1 = Some s →
  (∃ g, exp_condition s1 = CondGroup g ∧ 1 ≤ g ≤ 4)
  ∧ Forall (λ r, StimulusCondition r = ExpCondition r
                 ∧ sample_letter (stimuli_identity_d_list s) (SampleStimulus r)
                     (ExpCondition r)
                 ∧ (NoDup ((λ i, stem (Name i)) <$> stimuli_identity_d_list s) →
                    ∀ i, i ∈ stimuli_identity_d_list s →
                         stem (Name i) = SampleStimulus r →
                         ∃ x, str_at (Group i) 0 = Some x
                              ∧ ExpCondition r = CondLetter x)
                 ∧ ∀ g, ExpCondition r ≠ CondGroup g ∧ StimulusCondition r ≠ CondGroup g)
      (session_data_frame s).
Proof.
  intros Hs Hl Hrun. split.
  - destruct Hs as (subject & record & phase & set_num & today & g & table & now & s0
                    & H0 & H1).
    unfold MainScreen_init in H0.
    destruct (dict_lookup _ _) as [group|] eqn:Eg; [|discriminate].
    destruct (list_at _ _) as [phase_name|]; [|discriminate]. injection H0 as <-.
    unfold first_ITI in H1. cbn in H1.
    destruct (load_catalog set_num table) as [cat|]; [|discriminate].
    assert (1 ≤ group ≤ 4) as Hgroup.
    { unfold dict_lookup, dict_of_subject_assignments in Eg.
      rewrite !filter_cons, filter_nil in Eg.
      repeat (case_decide; simplify_eq/=; try lia). }
    destruct (cat_feedback_stimulus cat); cbn in H1.
    all: destruct (build_trial_stimulus_order _ _ _) as [q|]; [|discriminate].
    all: destruct (String.eqb subject "TEST"); injection H1 as <-.
    all: exists group; by split.
  - pose proof (Inv_session_start _ Hs Hl) as HI1.
    pose proof (Tied_run _ _ _ HI1 (Tied_session_start _ Hs) Hrun) as HT.
    eapply Forall_impl; [exact (tied_log _ HT)|]. cbn beta.
    intros r [Heq Hletter]. split; [done|]. split; [done|]. split.
    + intros Hnd i Hi Hstem. destruct Hletter as (i0 & x & Hi0 & Hstem0 & Hx & Hc).
      assert (i = i0) as ->.
      { eapply (NoDup_fmap_eq (λ i, stem (Name i))); eauto. congruence. }
      by exists x.
    + intros g. destruct Hletter as (i & x & _ & _ & _ & Hx). rewrite Heq, Hx. by split.
Qed.

(** ** The end of the session *)

Lemma ITI_continue_alive (s s' : State) :
  (non_CP_trials s >? max_number_of_reinforced_trials s) = false →
  ITI s = Some s' → destroyed s' = destroyed s.
Proof.
  intros Hc H. apply ITI_continue_inv in H as (s1 & s2 & s3 & H1 & H2 & H3 & ->); [|done].
  apply ITI_reset_inv in H1 as (d & g & _ & Hs1).
  apply ITI_pick_sample_inv in H2 as (sample & _ & _ & Hs2).
  apply ITI_requirement_inv in H3 as [Hs3 _].
  cbn. rewrite Hs3. cbn. rewrite Hs2. cbn. by rewrite Hs1.
Qed.

(** C8 (as the code has it). The counter of non-correction trials is one
    more than the number of trials closed in the log; the check in [ITI]
    ends the session exactly when that counter exceeds 96, that is once 96
    trials are closed. The session then ends with a [SessionEnds] row and no
    timer pending, and the whole log is written to the data file when the
    record-data flag is set; without the flag nothing is written. *)
Theorem session_ends_once_96_trials_are_closed now id t (s s' : State) :
  reachable s →
  find_timer id s = Some t → callback t = cb_ITI →
  step now (timer_fires id) s = Some s' →
  non_CP_trials s = 1 + completed_trials (session_data_frame s)
  ∧ (destroyed s' = true ↔ 96 < non_CP_trials s)
  ∧ (destroyed s' = true ↔ 96 ≤ completed_trials (session_data_frame s))
  ∧ (destroyed s' = true →
     timers s' = []
     ∧ (∃ r, Event r = "SessionEnds"
             ∧ session_data_frame s' = (session_data_frame s ++ [r])%list)
     ∧ csv_file s' = if record_data s then Some (session_data_frame s')
                     else csv_file s).
Proof.
  intros Hreach Ht Hcb. pose proof (Inv_reachable _ Hreach) as HI.
  pose proof (inv_count _ HI) as Hcount. pose proof (inv_budget _ HI) as Hmax.
  unfold step. destruct (destroyed s) eqn:Halive; [discriminate|].
  change (find_timer id (set_clock now s)) with (find_timer id s).
  rewrite Ht, Hcb. unfold run_callback. intros H.
  split; [done|].
  destruct (non_CP_trials s >? max_number_of_reinforced_trials s) eqn:Ec.
  - assert (96 < non_CP_trials s) as Hgt by (apply Z.gtb_lt in Ec; lia).
    unfold ITI in H.
    cbn [non_CP_trials set_canvas after_cancel set_timers set_clock config
         max_number_of_reinforced_trials] in H.
    rewrite Ec in H. apply exit_program_inv in H as (s1 & H1 & ->).
    apply write_data_inv in H1 as (r & -> & Hev & _).
    cbn. split; [done|]. split; [split; [lia|done]|]. intros _.
    split; [done|]. split; [by exists r|]. done.
  - assert (¬ 96 < non_CP_trials s) as Hle.
    { intros Hgt. rewrite Hmax in Ec. apply Z.gtb_lt in Hgt. congruence. }
    apply ITI_continue_alive in H; [|done]. cbn in H. rewrite H, Halive.
    split; [split; [done|lia]|]. split; [split; [done|lia]|]. done.
Qed.

(** ** What a trial keeps *)

Lemma quiet_refl s : quiet s s.
Proof. by repeat split. Qed.

Lemma quiet_trans s1 s2 s3 : quiet s1 s2 → quiet s2 s3 → quiet s1 s3.
Proof. unfold quiet. intros (? & ? & ?) (? & ? & ?). repeat split; congruence. Qed.

Lemma write_data_quiet event outcome s s' :
  write_data event outcome s = Some s' → quiet s s'.
Proof. intros H. apply write_data_frame in H. rewrite H. by repeat split. Qed.

Lemma build_keys_quiet s s' : build_keys s = Some s' → quiet s s'.
Proof. intros H. apply build_keys_frame in H. rewrite H. by repeat split. Qed.

Ltac quiet_steps :=
  repeat match goal with
    | H : write_data _ _ _ = Some _ |- _ => apply write_data_quiet in H
    | H : build_keys _ = Some _ |- _ => apply build_keys_quiet in H
    end.

(** Attribute assignments that [quiet] does not look at disappear by
    conversion, so a chain of handler facts closes the goal. *)
Ltac quiet_chain :=
  lazymatch goal with
  | |- quiet ?c ?d =>
      first
        [ exact (quiet_refl c)
        | match goal with
          | H : quiet ?a ?b |- _ =>
              refine (quiet_trans c a d _ (H : quiet a d)); clear H; quiet_chain
          end ]
  end.









Lemma feedback_stage_quiet correct s s' :
  feedback_stage correct s = Some s' → quiet s s'.
Proof.
  unfold feedback_stage, after. intros H. option_steps; subst; quiet_steps; quiet_chain.
Qed.

(** ** The choice *)




(** ** Feedback deferred to the choice (sets 16 and 17) *)








Lemma provide_food_is_Some key_pecked (s : State) :
  times_set s → is_Some (provide_food key_pecked s).
Proof.
  intros (H1 & H2 & H3). unfold provide_food.
  destruct (write_data_is_Some None "reinforcer_provided" (clear_canvas s)) as [s1 Hs1];
    [done..|].
  rewrite Hs1. apply write_data_frame in Hs1.
  destruct key_pecked; [by eexists|].
  destruct (write_data_is_Some None "auto_reinforcer_provided"
              (set_previous_trial_correct true
                 (set_non_CP_trials (non_CP_trials s1 + 1) s1))) as [s2 Hs2].
  1-3: by rewrite Hs1.
  rewrite Hs2. by eexists.
Qed.

Lemma time_out_func_is_Some (s : State) : times_set s → is_Some (time_out_func s).
Proof.
  intros (H1 & H2 & H3). unfold time_out_func.
  destruct (write_data_is_Some None "time_out" s) as [s1 Hs1]; [done..|].
  rewrite Hs1. by eexists.
Qed.




(** ** The sample loop *)

Lemma build_keys_before_feedback (s : State) :
  training_phase s ≠ 2 → trial_stage s ≠ 4 →
  ∃ d, build_keys s
       = Some (set_canvas (mkCanvas (Some "background_peck") true)
                 (set_current_key_stimulus_dict d s))
       ∧ (trial_stage s = 1 → d = mkKeyDict "black" "black" (sample_stimulus s)).
Proof.
  intros Hp Hst. unfold build_keys, calculate_trial_key_stimuli.
  assert ((training_phase s =? 2) = false) as Hp2 by (by apply Z.eqb_neq).
  assert ((trial_stage s =? 4) = false) as Hst4 by (by apply Z.eqb_neq).
  rewrite Hp2, Hst4. cbn [andb].
  destruct (trial_stage s =? 0) eqn:E0; destruct (trial_stage s =? 1) eqn:E1;
    destruct (trial_stage s =? 3) eqn:E3;
    destruct (training_phase s =? 0), (training_phase s =? 3); cbn; rewrite ?Hp2;
    eexists; (split; [reflexivity|]); intros Hs1;
    try (rewrite Hs1 in E1; discriminate E1); try reflexivity.
  all: eqb_props; lia.
Qed.

Lemma sample_key_loop_enters n (s : State) :
  training_phase s = 0 ∨ training_phase s = 1 →
  times_set s → destroyed s = false →
  sample_stimulus s ≠ "black" → sample_stimulus s ≠ "white" →
  ∃ s', sample_key_loop n s = Some s' ∧ in_sample_loop n s'
        ∧ timers s' = timers s ∧ config s' = config s.
Proof.
  intros Hp Ht Ha Hb Hw. unfold sample_key_loop.
  destruct (build_keys_before_feedback
              (set_trial_stage 1 (clear_canvas (set_trial_FR (Some n) s))))
    as (d & -> & Hd); [cbn; lia|cbn; lia|].
  rewrite (Hd eq_refl). eexists. split; [reflexivity|].
  split; [|done]. by constructor.
Qed.

Lemma press_sample_in_loop now x y n (s : State) :
  in_sample_loop n s →
  ∃ s1, write_data (Some (x, y)) "sample_key_press" (set_clock now s) = Some s1
    ∧ step now (press_key sample_key x y) s
      = if n <=? 1 then
          let? s2 := build_keys (clear_canvas s1) in
          if training_phase s2 =? 1 then delay_stage s2
          else if training_phase s2 =? 0 then matching_stage s2 else Some s2
        else sample_key_loop (n - 1) (set_trial_FR (Some (n - 1)) s1).
Proof.
  intros [Hp (Ht1 & Ht2 & Ht3) Ha Hk Hst HFR Hshown Hb Hw].
  destruct (write_data_is_Some (Some (x, y)) "sample_key_press" (set_clock now s))
    as [s1 Hs1]; [done..|].
  exists s1. split; [done|].
  rewrite step_press_key, Ha, Hk. unfold key_press.
  cbn [current_key_stimulus_dict set_clock dict_get training_phase config].
  rewrite Hshown.
  apply String.eqb_neq in Hb, Hw. rewrite Hb, Hw.
  assert ((training_phase s =? 2) = false) as -> by (apply Z.eqb_neq; lia).
  unfold sample_key_press. cbn [trial_stage set_clock]. rewrite Hst. cbn [Z.eqb Pos.eqb].
  rewrite Hs1. apply write_data_frame in Hs1.
  assert (trial_FR s1 = Some n) as -> by (by rewrite Hs1).
  reflexivity.
Qed.

Lemma press_sample_counts_down now x y n (s : State) :
  in_sample_loop n s → 1 < n →
  ∃ s', step now (press_key sample_key x y) s = Some s' ∧ in_sample_loop (n - 1) s'
        ∧ timers s' = timers s ∧ config s' = config s.
Proof.
  intros Hl Hn. destruct (press_sample_in_loop now x y n s Hl) as (s1 & Hs1 & ->).
  assert ((n <=? 1) = false) as -> by (apply Z.leb_gt; lia).
  apply write_data_frame in Hs1. destruct Hl.
  destruct (sample_key_loop_enters (n - 1) (set_trial_FR (Some (n - 1)) s1))
    as (s' & Hs' & Hl' & Ht' & Hc'); try (rewrite Hs1; done).
  exists s'. split; [done|]. split; [done|]. rewrite Ht', Hc', Hs1. done.
Qed.

Lemma press_sample_ends_loop now x y n (s : State) :
  in_sample_loop n s → n ≤ 1 →
  ∃ s', step now (press_key sample_key x y) s = Some s'
        ∧ trial_stage s' = (if training_phase s =? 1 then 2 else 3)
        ∧ callback <$> timers s'
          = ((callback <$> timers s)
             ++ (if training_phase s =? 1 then [cb_matching_stage] else []))%list.
Proof.
  intros Hl Hn. destruct (press_sample_in_loop now x y n s Hl) as (s1 & Hs1 & ->).
  assert ((n <=? 1) = true) as -> by (apply Z.leb_le; lia).
  apply write_data_frame in Hs1. destruct Hl.
  assert (training_phase s1 = training_phase s) as Hp1 by (by rewrite Hs1).
  assert (trial_stage s1 = 1) as Hst1 by (by rewrite Hs1).
  destruct (build_keys_before_feedback (clear_canvas s1)) as (d & -> & _);
    [cbn; lia|cbn; lia|].
  cbn [training_phase config set_canvas set_current_key_stimulus_dict clear_canvas].
  rewrite Hp1. destruct loop_phase0 as [Hp|Hp]; rewrite Hp; cbn [Z.eqb Pos.eqb].
  - unfold matching_stage.
    match goal with
    | |- context [build_keys ?a] =>
        destruct (build_keys_before_feedback a) as (d' & -> & _); [cbn; lia|cbn; lia|]
    end.
    eexists. split; [reflexivity|]. cbn. rewrite Hs1. cbn. by rewrite app_nil_r.
  - unfold delay_stage.
    match goal with
    | |- context [build_keys ?a] =>
        destruct (build_keys_before_feedback a) as (d' & -> & _); [cbn; lia|cbn; lia|]
    end.
    eexists. split; [reflexivity|]. cbn. rewrite Hs1. cbn. by rewrite fmap_app.
Qed.

(** C7. When the sample loop is entered with a fixed ratio [n ≥ 1], every
    valid press on the sample key before the [n]-th lowers the remaining
    count by one and stays in the loop, and the [n]-th press leaves it: for
    the delay in DMTO (stage 2, with the delay timer pending), for the choice
    in MTO (stage 3). *)
Theorem sample_loop_takes_n_presses n (s0 s1 : State) evs :
  training_phase s0 = 0 ∨ training_phase s0 = 1 →
  times_set s0 → destroyed s0 = false →
  sample_stimulus s0 ≠ "black" → sample_stimulus s0 ≠ "white" →
  1 ≤ n →
  sample_key_loop n s0 = Some s1 →
  sample_presses evs →
  (Z.of_nat (length evs) < n →
   ∃ s, run evs s1 = Some s ∧ trial_stage s = 1
        ∧ trial_FR s = Some (n - Z.of_nat (length evs))
        ∧ timers s = timers s0)
  ∧ (Z.of_nat (length evs) = n →
     ∃ s, run evs s1 = Some s
          ∧ trial_stage s = (if training_phase s0 =? 1 then 2 else 3)
          ∧ callback <$> timers s
            = ((callback <$> timers s0)
               ++ (if training_phase s0 =? 1 then [cb_matching_stage] else []))%list).
Proof.
  intros Hp Ht Ha Hb Hw Hn Hloop Hevs.
  destruct (sample_key_loop_enters n s0 Hp Ht Ha Hb Hw) as (s1' & Hs1' & Hl & Htm & Hcfg).
  rewrite Hloop in Hs1'. injection Hs1' as <-.
  assert (training_phase s0 = training_phase s1) as -> by (by rewrite Hcfg).
  rewrite <- Htm. clear Hloop Hp Ht Ha Hb Hw Hcfg Htm s0.
  revert n s1 Hn Hl. induction Hevs as [|[now i] evs (x & y & Hi) Hevs IH];
    intros n s Hn Hl.
  - split; [|simpl; lia]. intros _. exists s. split; [done|].
    destruct Hl. repeat split; try done. simpl. by rewrite Z.sub_0_r.
  - simpl in Hi. subst i. cbn [length run].
    destruct (decide (1 < n)) as [Hgt|Hle].
    + destruct (press_sample_counts_down now x y n s Hl Hgt)
        as (s' & -> & Hl' & Htm & Hcfg).
      destruct (IH (n - 1) s') as [IH1 IH2]; [lia|done|].
      assert (training_phase s = training_phase s') as -> by (by rewrite Hcfg).
      rewrite <- Htm. split.
      * intros Hlen. destruct IH1 as (s'' & ? & ? & HFR & ?); [lia|].
        exists s''. repeat split; try done. rewrite HFR. f_equal. lia.
      * intros Hlen. apply IH2. lia.
    + split; [lia|]. intros Hlen. assert (evs = []) as ->.
      { destruct evs; [done|]. simpl in Hlen. lia. }
      destruct (press_sample_ends_loop now x y n s Hl) as (s' & -> & ? & ?); [lia|].
      by exists s'.
Qed.

(** ** The substages of a DMTO trial *)

Lemma moves_refl (s : State) : moves s s (trial_stage s) [].
Proof. unfold moves. by rewrite app_nil_r. Qed.

Lemma moves_trans (s1 s2 s3 : State) st2 st3 n2 n3 :
  moves s1 s2 st2 n2 → moves s2 s3 st3 n3 → moves s1 s3 st3 (n2 ++ n3).
Proof.
  unfold moves. intros (? & Ha & ? & ? & ? & ?) (? & Hb & ? & ? & ? & ?).
  repeat split; try congruence. by rewrite Hb, Ha, app_assoc.
Qed.

Lemma write_data_moves event outcome (s s' : State) :
  write_data event outcome s = Some s' → moves s s' (trial_stage s) [].
Proof. intros H. apply write_data_frame in H. rewrite H. exact (moves_refl s). Qed.

Lemma build_keys_moves (s s' : State) :
  training_phase s ≠ 2 → build_keys s = Some s' → moves s s' (trial_stage s) [].
Proof.
  intros Hp. unfold build_keys. intros H.
  apply Z.eqb_neq in Hp.
  destruct (_ && _ && _); [injection H as <-; exact (moves_refl s)|].
  destruct (calculate_trial_key_stimuli s) as [s1|] eqn:E; [|discriminate].
  apply calculate_frame in E.
  cbn [training_phase set_canvas config] in H.
  assert (training_phase s1 = training_phase s) as Hp1 by (by rewrite E).
  rewrite Hp1, Hp in H. injection H as <-. rewrite E. exact (moves_refl s).
Qed.

Lemma provide_food_moves key_pecked (s s' : State) :
  provide_food key_pecked s = Some s' →
  callback <$> timers s' = ((callback <$> timers s) ++ [cb_ITI])%list
  ∧ destroyed s' = destroyed s
  ∧ previous_trial_correct s' = true
  ∧ config s' = config s
  ∧ is_Some (trial_start s')
  ∧ keys_on_top (canvas s') = false.
Proof.
  unfold provide_food, after. intros H.
  destruct (write_data None "reinforcer_provided" (clear_canvas s)) as [s1|] eqn:E1;
    [|discriminate].
  pose proof (write_data_inv _ _ _ _ E1) as (_ & _ & _ & _ & _ & Hts).
  apply write_data_frame in E1.
  destruct key_pecked.
  - injection H as <-. cbn. rewrite E1. cbn. rewrite fmap_app. by repeat split.
  - destruct (write_data None "auto_reinforcer_provided" _) as [s2|] eqn:E2;
      [|discriminate].
    apply write_data_frame in E2. injection H as <-.
    cbn. rewrite E2. cbn. rewrite E1. cbn. rewrite fmap_app. by repeat split.
Qed.

Lemma time_out_func_moves (s s' : State) :
  time_out_func s = Some s' →
  callback <$> timers s' = ((callback <$> timers s) ++ [cb_ITI])%list
  ∧ destroyed s' = destroyed s
  ∧ previous_trial_correct s' = false
  ∧ config s' = config s
  ∧ is_Some (trial_start s')
  ∧ keys_on_top (canvas s') = false.
Proof.
  unfold time_out_func, after. intros H.
  destruct (write_data None "time_out" s) as [s1|] eqn:E1; [|discriminate].
  pose proof (write_data_inv _ _ _ _ E1) as (_ & _ & _ & _ & _ & Hts).
  apply write_data_frame in E1. injection H as <-.
  cbn. rewrite E1. cbn. rewrite fmap_app. by repeat split.
Qed.

Lemma ready_signal_phase_moves (s s' : State) :
  training_phase s ≠ 2 → ready_signal_phase s = Some s' → moves s s' 0 [].
Proof. intros Hp H. unfold ready_signal_phase in H. by apply build_keys_moves in H. Qed.

Lemma sample_key_loop_moves n (s s' : State) :
  training_phase s ≠ 2 → sample_key_loop n s = Some s' → moves s s' 1 [].
Proof. intros Hp H. unfold sample_key_loop in H. by apply build_keys_moves in H. Qed.

Lemma matching_stage_moves (s s' : State) :
  training_phase s ≠ 2 → matching_stage s = Some s' → moves s s' 3 [].
Proof. intros Hp H. unfold matching_stage in H. by apply build_keys_moves in H. Qed.

Lemma after_moves ms cb (s : State) :
  moves s (snd (after ms cb s)) (trial_stage s) [cb].
Proof. unfold moves. cbn. rewrite fmap_app. by repeat split. Qed.

Lemma delay_stage_moves (s s' : State) :
  training_phase s ≠ 2 → delay_stage s = Some s' → moves s s' 2 [cb_matching_stage].
Proof.
  intros Hp. unfold delay_stage. intros H.
  destruct (build_keys _) as [s1|] eqn:E; [|discriminate]. injection H as <-.
  apply build_keys_moves in E; [|done].
  pose proof (moves_trans _ _ _ _ _ _ _ E
                (after_moves (trial_delay_duration s1) cb_matching_stage s1)) as Hm.
  destruct E as (E & _). cbn in E. by rewrite E in Hm.
Qed.

Lemma ready_signal_press_moves event (s s' : State) :
  training_phase s ≠ 2 → ready_signal_press event s = Some s' → moves s s' 1 [].
Proof.
  intros Hp. unfold ready_signal_press. intros H.
  destruct (write_data _ _ _) as [s1|] eqn:E; [|discriminate].
  apply write_data_frame in E. apply sample_key_loop_moves in H; [|by rewrite E].
  rewrite E in H. exact H.
Qed.

Lemma feedback_stage_moves correct (s s' : State) :
  training_phase s ≠ 2 → feedback_stage correct s = Some s' →
  moves s s' 4 [if correct then cb_provide_food true else cb_time_out_func].
Proof.
  intros Hp. unfold feedback_stage. cbv zeta. intros H.
  destruct (_ && _).
  - cbn in H. injection H as <-. unfold moves. cbn. rewrite fmap_app. by repeat split.
  - destruct (choice _ _) as [[d g]|]; [|discriminate].
    destruct (build_keys _) as [s1|] eqn:E1; [|discriminate].
    apply build_keys_moves in E1; [|done].
    destruct (feedback_duration s1) as [z|]; [|discriminate]. injection H as <-.
    pose proof (moves_trans _ _ _ _ _ _ _ E1
                  (after_moves z (if correct then cb_provide_food true
                                  else cb_time_out_func) s1)) as Hm.
    destruct E1 as (E1 & _). cbn in E1. by rewrite E1 in Hm.
Qed.

Lemma sample_key_press_moves event (s s' : State) :
  training_phase s = 1 → sample_key_press event s = Some s' →
  moves s s' (trial_stage s) []
  ∨ (trial_stage s = 1 ∧ moves s s' 2 [cb_matching_stage]).
Proof.
  intros Hp. unfold sample_key_press. intros H.
  destruct (trial_stage s =? 1) eqn:Est.
  - apply Z.eqb_eq in Est.
    destruct (write_data _ _ _) as [s1|] eqn:E; [|discriminate].
    apply write_data_moves in E.
    assert (training_phase s1 = 1) as Hp1.
    { destruct E as (_ & _ & _ & _ & Hc & _). by rewrite Hc. }
    destruct (trial_FR s1) as [FR|]; [|discriminate].
    destruct (FR <=? 1).
    + right. split; [done|].
      destruct (build_keys _) as [s2|] eqn:E2; [|discriminate].
      apply build_keys_moves in E2; [|cbn; lia].
      assert (training_phase s2 = 1) as Hp2.
      { destruct E2 as (_ & _ & _ & _ & Hc & _). by rewrite Hc. }
      rewrite Hp2 in H. cbn [Z.eqb Pos.eqb] in H.
      apply delay_stage_moves in H; [|lia].
      exact (moves_trans _ _ _ _ _ _ _ E (moves_trans _ _ _ _ _ _ _ E2 H)).
    + left. apply sample_key_loop_moves in H; [|cbn; lia].
      rewrite Est. exact (moves_trans _ _ _ _ _ _ _ E H).
  - left. by eapply write_data_moves.
Qed.

Lemma key_press_moves event k (s s' : State) :
  training_phase s = 1 → display_ok s → keys_on_top (canvas s) = true →
  key_press event k s = Some s' →
  moves s s' (trial_stage s) []
  ∨ (trial_stage s = 0 ∧ moves s s' 1 [])
  ∨ (trial_stage s = 1 ∧ moves s s' 2 [cb_matching_stage])
  ∨ (trial_stage s = 3
     ∧ ∃ c : bool, moves s s' 4 [if c then cb_provide_food true else cb_time_out_func]).
Proof.
  intros Hp Hd Hk. unfold key_press. cbv zeta. intros H.
  destruct (Hd Hk) as [_ Hw].
  assert (training_phase s ≠ 2) as Hn by lia. specialize (Hw Hn k).
  destruct (String.eqb _ "black"); [left; by eapply write_data_moves|].
  rewrite Hp in H. cbn [Z.eqb Pos.eqb] in H.
  destruct (String.eqb _ "white") eqn:Ew.
  { apply String.eqb_eq in Ew. destruct (Hw Ew) as [_ Hst].
    right. left. split; [done|]. apply ready_signal_press_moves in H; [done|lia]. }
  clear Hw Ew.
  assert (∀ c (s1 s2 s3 : State) e o (reserved : Config → option string),
            write_data e o s = Some s1 →
            (if bool_decide (stimulus_set_num s1 ∈ [16; 17])
                && cond_is (exp_condition s1) "C"
             then let? n := reserved s1 in
                  Some (set_feedback_stimulus (Some (FbName n)) s1)
             else Some s1) = Some s2 →
            feedback_stage c s2 = Some s3 →
            moves s s3 4 [if c then cb_provide_food true else cb_time_out_func])
    as Hchoice.
  { intros c s1 s2 s3 e o reserved E1 E2 E3.
    apply write_data_moves in E1.
    assert (moves s1 s2 (trial_stage s1) []) as M2.
    { match type of E2 with (if ?b then _ else _) = _ => destruct b end;
        [|injection E2 as <-; exact (moves_refl s1)].
      destruct (reserved _); [|discriminate]. injection E2 as <-.
      exact (moves_refl s1). }
    apply feedback_stage_moves in E3.
    - exact (moves_trans _ _ _ _ _ _ _ E1 (moves_trans _ _ _ _ _ _ _ M2 E3)).
    - destruct E1 as (_ & _ & _ & _ & Hc1 & _), M2 as (_ & _ & _ & _ & Hc2 & _).
      rewrite Hc2, Hc1. lia. }
  assert (∀ c (reserved : Config → option string) e o,
            (let? s1 := write_data e o s in
             let? s2 := (if bool_decide (stimulus_set_num s1 ∈ [16; 17])
                            && cond_is (exp_condition s1) "C"
                         then let? n := reserved s1 in
                              Some (set_feedback_stimulus (Some (FbName n)) s1)
                         else Some s1) in
             if training_phase s2 =? 1 then feedback_stage c s2
             else (if c then provide_food true s2 else time_out_func s2)) = Some s' →
            moves s s' 4 [if c then cb_provide_food true else cb_time_out_func])
    as Hbranch.
  { intros c reserved e o Hb.
    destruct (write_data e o s) as [s1|] eqn:E1; [|discriminate].
    destruct (if _ && _ then _ else _) as [s2|] eqn:E2; [|discriminate].
    assert (training_phase s2 = 1) as Hp2.
    { pose proof (write_data_moves _ _ _ _ E1) as (_ & _ & _ & _ & Hc1 & _).
      match type of E2 with (if ?b then _ else _) = _ => destruct b end;
        [|injection E2 as <-; by rewrite Hc1].
      destruct (reserved _); [|discriminate]. injection E2 as <-. cbn. by rewrite Hc1. }
    rewrite Hp2 in Hb. cbn [Z.eqb Pos.eqb] in Hb.
    eapply Hchoice; eauto. }
  assert (∀ k', (if trial_stage s =? 3
                 then
                   if (String.eqb (dict_get (current_key_stimulus_dict s) k) "red"
                       && String.eqb (correct_key s) "R")
                      || (String.eqb (dict_get (current_key_stimulus_dict s) k) "green"
                          && String.eqb (correct_key s) "L")
                   then
                     let? s1 := write_data event "correct_choice" s in
                     let? s2 := (if bool_decide (stimulus_set_num s1 ∈ [16; 17])
                                    && cond_is (exp_condition s1) "C"
                                 then let? n := control_correct_feedback s1 in
                                      Some (set_feedback_stimulus (Some (FbName n)) s1)
                                 else Some s1) in
                     if training_phase s2 =? 1 then feedback_stage true s2
                     else provide_food true s2
                   else
                     let? s1 := write_data event "incorrect_choice" s in
                     let? s2 := (if bool_decide (stimulus_set_num s1 ∈ [16; 17])
                                    && cond_is (exp_condition s1) "C"
                                 then let? n := control_incorrect_feedback s1 in
                                      Some (set_feedback_stimulus (Some (FbName n)) s1)
                                 else Some s1) in
                     if training_phase s2 =? 1 then feedback_stage false s2
                     else time_out_func s2
                 else write_data event ("non_active_" +:+ keytag_name k' +:+ "_peck") s)
                = Some s' →
                moves s s' (trial_stage s) []
                ∨ (trial_stage s = 0 ∧ moves s s' 1 [])
                ∨ (trial_stage s = 1 ∧ moves s s' 2 [cb_matching_stage])
                ∨ (trial_stage s = 3
                   ∧ ∃ c : bool, moves s s' 4 [if c then cb_provide_food true
                                        else cb_time_out_func])) as Hcomp.
  { intros k' Hc.
    destruct (trial_stage s =? 3) eqn:E3; [|left; by eapply write_data_moves].
    apply Z.eqb_eq in E3. right. right. right. split; [done|].
    destruct (_ || _).
    - exists true. exact (Hbranch true control_correct_feedback _ _ Hc).
    - exists false. exact (Hbranch false control_incorrect_feedback _ _ Hc). }
  destruct k; try exact (Hcomp _ H).
  apply sample_key_press_moves in H; [|done].
  destruct H as [H|[? H]]; [by left|]. right. right. left. done.
Qed.

Lemma ITI_moves (s s' : State) :
  ITI s = Some s' →
  config s' = config s
  ∧ (destroyed s' = true
     ∨ (destroyed s' = destroyed s
        ∧ callback <$> timers s'
          = ((callback <$> timers s) ++ [cb_ready_signal_phase])%list
        ∧ keys_on_top (canvas s') = false
        ∧ is_Some (trial_start s'))).
Proof.
  intros H.
  destruct (non_CP_trials s >? max_number_of_reinforced_trials s) eqn:E.
  - unfold ITI in H. cbn in H. rewrite E in H.
    apply exit_program_inv in H as (s1 & H1 & ->).
    apply write_data_frame in H1. split; [|by left]. cbn. by rewrite H1.
  - destruct (ITI_continue_inv _ _ E H) as (s1 & s2 & s3 & H1 & H2 & H3 & ->).
    apply ITI_reset_inv in H1 as (d & g & _ & H1).
    apply ITI_pick_sample_inv in H2 as (sample & _ & _ & H2).
    apply ITI_requirement_inv in H3 as (H3 & _).
    cbn. rewrite H3. cbn. rewrite H2. cbn. rewrite H1. cbn.
    split; [done|]. right. rewrite fmap_app. by repeat split.
Qed.

Lemma at_substage_label st (s : State) : at_substage st s → substage s = st.
Proof.
  unfold at_substage, substage, pending.
  destruct st; cbn zeta; intros H.
  - destruct H as (Hd & Ht & _). by rewrite Hd, Ht.
  - destruct H as (Hd & [x Ht] & Hc & _). by rewrite Hd, Ht, Hc.
  - destruct H as (Hd & [x Ht] & Hc & Hs). by rewrite Hd, Ht, Hc, Hs.
  - destruct H as (Hd & [x Ht] & Hc & Hs). by rewrite Hd, Ht, Hc, Hs.
  - destruct H as (Hd & [x Ht] & Hc & Hs). by rewrite Hd, Ht, Hc, Hs.
  - destruct H as (Hd & [x Ht] & Hc & Hs). by rewrite Hd, Ht, Hc, Hs.
  - destruct H as (Hd & [x Ht] & Hc & Hs). rewrite Hd, Ht, Hc, Hs.
    by destruct correct.
  - destruct H as (Hd & [x Ht] & Hc & _ & Hp). by rewrite Hd, Ht, Hc, Hp.
  - destruct H as (Hd & [x Ht] & Hc & _ & Hp). by rewrite Hd, Ht, Hc, Hp.
  - by rewrite H.
  - done.
Qed.

Lemma timer_fires_single id t (s : State) cb :
  find_timer id s = Some t → callback <$> timers s = [cb] →
  callback t = cb ∧ timers (after_cancel id s) = [].
Proof.
  intros Hf Hc. apply find_timer_elem_of in Hf as [Hin Hid].
  destruct (timers s) as [|t0 [|t1 l]] eqn:E; try discriminate.
  apply list_elem_of_singleton in Hin as ->.
  injection Hc as Hc. split; [done|].
  unfold after_cancel. cbn. rewrite E. cbn.
  rewrite decide_False; [done|]. intros Hne. by apply Hne.
Qed.

Lemma timer_fires_none id (s : State) :
  callback <$> timers s = [] → find_timer id s = None.
Proof.
  intros Hc. apply fmap_nil_inv in Hc. unfold find_timer. by rewrite Hc.
Qed.

Ltac use_moves M :=
  let Ms := fresh "Ms" in let Mc := fresh "Mc" in let Md := fresh "Md" in
  let Mp := fresh "Mp" in let Mcfg := fresh "Mcfg" in let Mt := fresh "Mt" in
  destruct M as (Ms & Mc & Md & Mp & Mcfg & Mt);
  unfold after_cancel in Ms, Mc, Md, Mp, Mcfg, Mt;
  cbn [trial_stage timers destroyed previous_trial_correct config trial_start
       set_timers] in Ms, Mc, Md, Mp, Mcfg, Mt.

Ltac at_solve :=
  unfold at_substage; cbn zeta;
  repeat match goal with
         | H : callback <$> timers ?s = _ ++ _ |- _ => rewrite H
         | H : callback <$> timers ?s = _ |- _ => rewrite H
         | H : filter _ _ = [] |- _ => rewrite H
         end;
  repeat split; try congruence; try lia.

Lemma step_substage now i (s s' : State) st :
  training_phase s = 1 → Inv s → at_substage st s → step now i s = Some s' →
  training_phase s' = 1
  ∧ (at_substage st s' ∨ ∃ st', next st st' ∧ at_substage st' s').
Proof.
  intros Hp HI Hat Hstep. unfold step in Hstep.
  destruct (destroyed s) eqn:Hd; [discriminate|]. cbv zeta in Hstep.
  assert (display_ok (set_clock now s)) as Hdisp by exact (inv_display _ HI).
  assert (at_substage st (set_clock now s)) as Hat0 by exact Hat.
  assert (training_phase (set_clock now s) = 1) as Hp0 by exact Hp.
  assert (destroyed (set_clock now s) = false) as Hd0 by exact Hd.
  clear Hat HI Hp Hd. revert Hstep Hdisp Hat0 Hp0 Hd0.
  generalize (set_clock now s). clear s. intros s Hstep Hdisp Hat Hp Halive.
  destruct i as [k x y|x y|id].
  - destruct (keys_on_top (canvas s)) eqn:Hk; [|discriminate].
    apply key_press_moves in Hstep; [|done..].
    assert (∀ n l, moves s s' n l → training_phase s' = 1) as Hphase.
    { intros n l M. use_moves M. congruence. }
    destruct Hstep as [M|[[Hs M]|[[Hs M]|[Hs [c M]]]]];
      (split; [by eapply Hphase|]); use_moves M;
      destruct st; cbn [at_substage] in Hat;
      try (destruct Hat as (Hd & Hts & Hc & Hst));
      try match type of Hst with _ ∧ _ => destruct Hst as [Hst Hprev] end;
      try congruence; try lia; try done.
    all: first [ by left; at_solve | right ].
    + exists AtSampleLoop. split; [done|]. at_solve.
    + exists AtDelay. split; [done|]. at_solve.
    + exists (AtFeedback c). split; [by exists c|]. at_solve.
  - destruct (bkgrd (canvas s)); [|discriminate].
    apply write_data_frame in Hstep. rewrite Hstep. split; [exact Hp|]. left. exact Hat.
  - destruct (find_timer id s) as [t|] eqn:Hf; [|discriminate].
    assert (∀ cb, callback <$> timers s = [cb] →
                  run_callback cb (after_cancel id s) = Some s'
                  ∧ filter (λ t, tid t ≠ id) (timers s) = []) as Hfire.
    { intros cb Hc. destruct (timer_fires_single _ _ _ _ Hf Hc) as [<- Hnil]. done. }
    destruct st; cbn [at_substage] in Hat;
      try (destruct Hat as (Hd & Hts & Hc & Hst));
      try match type of Hst with _ ∧ _ => destruct Hst as [Hst Hprev] end;
      try done; try congruence;
      try (rewrite (timer_fires_none id s Hc) in Hf; discriminate);
      try (destruct (Hfire _ Hc) as [Hrun Hnil]; clear Hfire Hstep;
           unfold run_callback in Hrun).
    + apply ITI_moves in Hrun as [Hcfg [Hd'|(Hd' & Hc' & Hk' & Ht')]];
        (split; [unfold after_cancel in Hcfg; cbn in Hcfg; congruence|]); right.
      * exists AtEnd. split; [by right|]. exact Hd'.
      * exists AtITI. split; [by left|].
        unfold after_cancel in Hd', Hc'. cbn [timers destroyed set_timers] in Hd', Hc'.
        rewrite Hnil in Hc'. at_solve.
    + apply ready_signal_phase_moves in Hrun; [|unfold after_cancel; cbn; lia].
      assert (training_phase s' = 1) as Hp'.
      { destruct Hrun as (_ & _ & _ & _ & Hcfg & _).
        unfold after_cancel in Hcfg. cbn in Hcfg. congruence. }
      split; [done|]. right. exists AtReadySignal. split; [done|].
      use_moves Hrun. rewrite Hnil in Mc. at_solve.
    + apply matching_stage_moves in Hrun; [|unfold after_cancel; cbn; lia].
      assert (training_phase s' = 1) as Hp'.
      { destruct Hrun as (_ & _ & _ & _ & Hcfg & _).
        unfold after_cancel in Hcfg. cbn in Hcfg. congruence. }
      split; [done|]. right. exists AtChoice. split; [done|].
      use_moves Hrun. rewrite Hnil in Mc. at_solve.
    + destruct correct.
      * apply provide_food_moves in Hrun as (Hc' & Hd' & Hp' & Hcfg & Ht' & Hk').
        unfold after_cancel in Hc', Hd', Hcfg.
        cbn [timers destroyed set_timers config] in Hc', Hd', Hcfg.
        rewrite Hnil in Hc'.
        split; [congruence|]. right. exists AtReinforce. split; [done|]. at_solve.
      * apply time_out_func_moves in Hrun as (Hc' & Hd' & Hp' & Hcfg & Ht' & Hk').
        unfold after_cancel in Hc', Hd', Hcfg.
        cbn [timers destroyed set_timers config] in Hc', Hd', Hcfg.
        rewrite Hnil in Hc'.
        split; [congruence|]. right. exists AtTimeout. split; [done|]. at_solve.
    + apply ITI_moves in Hrun as [Hcfg [Hd'|(Hd' & Hc' & Hk' & Ht')]];
        (split; [unfold after_cancel in Hcfg; cbn in Hcfg; congruence|]); right.
      * exists AtEnd. split; [by right|]. exact Hd'.
      * exists AtITI. split; [by left|].
        unfold after_cancel in Hd', Hc'. cbn [timers destroyed set_timers] in Hd', Hc'.
        rewrite Hnil in Hc'. at_solve.
    + apply ITI_moves in Hrun as [Hcfg [Hd'|(Hd' & Hc' & Hk' & Ht')]];
        (split; [unfold after_cancel in Hcfg; cbn in Hcfg; congruence|]); right.
      * exists AtEnd. split; [by right|]. exact Hd'.
      * exists AtITI. split; [by left|].
        unfold after_cancel in Hd', Hc'. cbn [timers destroyed set_timers] in Hd', Hc'.
        rewrite Hnil in Hc'. at_solve.
Qed.

Lemma stages_chain evs : ∀ (s : State) st l,
  training_phase s = 1 → Inv s → at_substage st s → stages evs s = Some l →
  ∃ l', l = st :: l' ∧ chain st l'.
Proof.
  induction evs as [|[now i] evs IH]; intros s st l Hp HI Hat; simpl.
  - intros [= <-]. exists []. by rewrite (at_substage_label _ _ Hat).
  - destruct (step now i s) as [s'|] eqn:Hstep; [|discriminate].
    destruct (stages evs s') as [l0|] eqn:Hl0; [|discriminate]. intros [= <-].
    rewrite (at_substage_label _ _ Hat).
    pose proof (Inv_step _ _ _ _ HI Hstep) as HI'.
    destruct (step_substage _ _ _ _ _ Hp HI Hat Hstep) as [Hp' [Hat'|(st' & Hn & Hat')]].
    + destruct (IH _ _ _ Hp' HI' Hat' Hl0) as (l' & -> & Hc).
      exists (st :: l'). split; [done|]. simpl. auto.
    + destruct (IH _ _ _ Hp' HI' Hat' Hl0) as (l' & -> & Hc).
      exists (st' :: l'). split; [done|]. simpl. auto.
Qed.

Lemma compress_same x l : compress (x :: x :: l) = compress (x :: l).
Proof. simpl. by rewrite decide_True. Qed.

Lemma compress_other x y l : x ≠ y → compress (x :: y :: l) = x :: compress (y :: l).
Proof. intros H. simpl. by rewrite decide_False. Qed.

Lemma chain_compress l : ∀ st,
  in_trial st → chain st l → AtITI ∉ l → AtEnd ∉ l →
  last (st :: l) = Some AtReinforce ∨ last (st :: l) = Some AtTimeout →
  ∃ c, compress (st :: l) = path st c.
Proof.
  induction l as [|x l IH]; intros st Hin Hch Hiti Hend Hlast.
  - exists true. cbn in Hlast. destruct Hlast as [[= Hst]|[= Hst]]; by rewrite Hst.
  - destruct Hch as [Hx Hch].
    apply not_elem_of_cons in Hiti as [Hiti1 Hiti], Hend as [Hend1 Hend].
    change (last (st :: x :: l)) with (last (x :: l)) in Hlast.
    destruct Hx as [->|Hn].
    + rewrite compress_same. by apply IH.
    + assert (in_trial x ∧ x ≠ st ∧ ∀ c, ∃ c', st :: path x c = path st c') as (Hx & Hne & Hp).
      { destruct st; cbn in Hin, Hn; try done; subst; try (destruct Hn; done).
        - repeat split; [done|]. intros c. by exists c.
        - repeat split; [done|]. intros c. by exists c.
        - repeat split; [done|]. intros c. by exists c.
        - destruct Hn as [c Hn]. subst x. repeat split; [done|]. intros ?. by exists c.
        - destruct correct; (repeat split; [done|]); intros ?; by exists true. }
      destruct (IH x Hx Hch Hiti Hend Hlast) as (c & Hc).
      destruct (Hp c) as (c' & Hc').
      exists c'. rewrite compress_other by done. by rewrite Hc, Hc'.
Qed.

Lemma run_substage evs : ∀ (s s' : State) st,
  training_phase s = 1 → Inv s → at_substage st s → run evs s = Some s' →
  training_phase s' = 1 ∧ ∃ st', at_substage st' s'.
Proof.
  induction evs as [|[now i] evs IH]; intros s s' st Hp HI Hat; simpl.
  - intros [= <-]. eauto.
  - destruct (step now i s) as [s1|] eqn:Hstep; [|discriminate]. intros Hrun.
    pose proof (Inv_step _ _ _ _ HI Hstep) as HI'.
    destruct (step_substage _ _ _ _ _ Hp HI Hat Hstep) as [Hp' [Hat'|(st' & Hn & Hat')]];
      eauto.
Qed.

Lemma session_start_substage (s1 : State) : session_start s1 → at_substage AtStart s1.
Proof.
  intros H. apply session_start_facts in H
    as (_ & _ & _ & Ht & _ & _ & _ & Hc & Hd & (ms & Htm) & _).
  unfold at_substage. cbn zeta. by rewrite Hd, Ht, Hc, Htm.
Qed.

Lemma feedback_stage_label c (s s' : State) :
  training_phase s ≠ 2 → destroyed s = false → is_Some (trial_start s) →
  timers s = [] → feedback_stage c s = Some s' → substage s' = AtFeedback c.
Proof.
  intros Hp Hd Ht Htm H. apply feedback_stage_moves in H; [|done].
  destruct H as (Hs & Hc & Hd' & _ & _ & Ht').
  apply at_substage_label. unfold at_substage. cbn zeta.
  rewrite Hc, Htm, Hd', Ht', Hs. done.
Qed.

Lemma feedback_timer_fires now c (s : State) :
  Inv s → at_substage (AtFeedback c) s →
  ∃ t s', timers s = [t]
    ∧ callback t = (if c then cb_provide_food true else cb_time_out_func)
    ∧ step now (timer_fires (tid t)) s = Some s'
    ∧ at_substage (if c then AtReinforce else AtTimeout) s'.
Proof.
  intros HI (Hd & Hts & Hc & Hst).
  destruct (timers s) as [|t [|t' l]] eqn:Et; try discriminate. injection Hc as Hc.
  exists t.
  assert (find_timer (tid t) (set_clock now s) = Some t) as Hf.
  { unfold find_timer. cbn. rewrite Et. cbn. by rewrite decide_True. }
  assert (timers (after_cancel (tid t) (set_clock now s)) = []) as Hnil.
  { unfold after_cancel. cbn. rewrite Et. cbn. rewrite decide_False; [done|].
    intros H. by apply H. }
  assert (times_set (after_cancel (tid t) (set_clock now s))) as Hset.
  { split; [exact (inv_start _ HI)|]. split; [exact Hts|].
    exact (inv_substage _ HI Hts). }
  unfold step. rewrite Hd. cbv zeta. rewrite Hf, Hc.
  destruct c; unfold run_callback.
  - destruct (provide_food_is_Some true _ Hset) as [s' Hs']. exists s'.
    split; [done|]. split; [done|]. split; [exact Hs'|].
    apply provide_food_moves in Hs' as (Hc' & Hd' & Hp' & Hcfg & Ht' & Hk').
    rewrite Hnil in Hc'. unfold at_substage. cbn zeta. rewrite Hc'.
    split; [by rewrite Hd'|]. by repeat split.
  - destruct (time_out_func_is_Some _ Hset) as [s' Hs']. exists s'.
    split; [done|]. split; [done|]. split; [exact Hs'|].
    apply time_out_func_moves in Hs' as (Hc' & Hd' & Hp' & Hcfg & Ht' & Hk').
    rewrite Hnil in Hc'. unfold at_substage. cbn zeta. rewrite Hc'.
    split; [by rewrite Hd'|]. by repeat split.
Qed.

Lemma press_in_feedback event k c (s s' : State) :
  training_phase s = 1 → display_ok s → keys_on_top (canvas s) = true →
  at_substage (AtFeedback c) s → key_press event k s = Some s' →
  at_substage (AtFeedback c) s'.
Proof.
  intros Hp Hdisp Hk (Hd & Hts & Hc & Hst) H.
  apply key_press_moves in H; [|done..].
  destruct H as [M|[[Hs M]|[[Hs M]|[Hs [c' M]]]]]; [|lia..].
  use_moves M. at_solve.
Qed.

Lemma feedback_waits_for_its_timer now i c t (s s' : State) :
  training_phase s = 1 → Inv s → at_substage (AtFeedback c) s → timers s = [t] →
  i ≠ timer_fires (tid t) → step now i s = Some s' →
  at_substage (AtFeedback c) s'.
Proof.
  intros Hp HI Hat Et Hi Hstep. unfold step in Hstep.
  destruct (destroyed s) eqn:Hd; [discriminate|]. cbv zeta in Hstep.
  destruct i as [k x y|x y|id].
  - destruct (keys_on_top (canvas (set_clock now s))) eqn:Hk; [|discriminate].
    exact (press_in_feedback _ _ _ (set_clock now s) _ Hp (inv_display _ HI) Hk Hat Hstep).
  - destruct (bkgrd _); [|discriminate].
    apply write_data_frame in Hstep. rewrite Hstep. exact Hat.
  - assert (find_timer id (set_clock now s) = None) as Hf.
    { unfold find_timer. cbn. rewrite Et. cbn. rewrite decide_False; [done|].
      intros <-. by apply Hi. }
    rewrite Hf in Hstep. discriminate.
Qed.

(** C3. In a DMTO session, a run of events that starts when the ready
    signal is up and stops in the reinforcement or the time-out of the same
    trial (it reaches neither the inter-trial interval nor the end of the
    session) visits the substages ReadySignal, SampleLoop, Delay, Choice,
    Feedback and then Reinforce or Timeout, each once and in this order;
    [feedback_stage correct] schedules the callback of [correct], which is
    the flag of the Feedback substage. In every state of the session that is
    in Feedback with flag [c], one timer is pending; its expiry is handled
    and leads to Reinforce when [c] is true and to Timeout otherwise, and no
    other event leaves the substage. *)
Theorem DMTO_trial_visits_each_substage_once evs0 evs (s1 s : State) l :
  session_start s1 → loaded_ok s1 → training_phase s1 = 1 →
  run evs0 s1 = Some s →
  substage s = AtReadySignal →
  stages evs s = Some l →
  AtITI ∉ l → AtEnd ∉ l →
  last l = Some AtReinforce ∨ last l = Some AtTimeout →
  (∃ c, compress l = [AtReadySignal; AtSampleLoop; AtDelay; AtChoice; AtFeedback c;
                      if c then AtReinforce else AtTimeout])
  ∧ (∀ correct (sa sb : State),
       training_phase sa = 1 → destroyed sa = false → is_Some (trial_start sa) →
       timers sa = [] → feedback_stage correct sa = Some sb →
       substage sb = AtFeedback correct)
  ∧ (∀ evs1 (sa : State) c,
       run evs1 s1 = Some sa → substage sa = AtFeedback c →
       ∃ t, timers sa = [t]
         ∧ callback t = (if c then cb_provide_food true else cb_time_out_func)
         ∧ (∀ now, ∃ sb, step now (timer_fires (tid t)) sa = Some sb
                         ∧ substage sb = if c then AtReinforce else AtTimeout)
         ∧ (∀ now i sb, i ≠ timer_fires (tid t) → step now i sa = Some sb →
                        substage sb = AtFeedback c)).
Proof.
  intros Hstart Hload Hp Hrun Hsub Hl Hiti Hend Hlast.
  pose proof (Inv_session_start _ Hstart Hload) as HI1.
  split; [|split].
  - destruct (run_substage _ _ _ _ Hp HI1 (session_start_substage _ Hstart) Hrun)
      as (Hp' & st & Hat).
    pose proof (Inv_run _ _ _ HI1 Hrun) as HI.
    pose proof (at_substage_label _ _ Hat) as Hst. rewrite Hsub in Hst. subst st.
    destruct (stages_chain _ _ _ _ Hp' HI Hat Hl) as (l' & -> & Hch).
    apply not_elem_of_cons in Hiti as [_ Hiti], Hend as [_ Hend].
    destruct (chain_compress l' AtReadySignal) as (c & Hc); try done.
    by exists c.
  - intros correct sa sb Ha Hd Ht Htm Hf.
    eapply feedback_stage_label; eauto. lia.
  - intros evs1 sa c Hrun1 Hsa.
    destruct (run_substage _ _ _ _ Hp HI1 (session_start_substage _ Hstart) Hrun1)
      as (Hpa & st & Hat).
    pose proof (Inv_run _ _ _ HI1 Hrun1) as HIa.
    pose proof (at_substage_label _ _ Hat) as Hst. rewrite Hsa in Hst. subst st.
    destruct (feedback_timer_fires 0 c sa HIa Hat) as (t & _ & Et & Hcb & _).
    exists t. split; [exact Et|]. split; [exact Hcb|]. split.
    + intros now.
      destruct (feedback_timer_fires now c sa HIa Hat) as (t' & sb & Et' & _ & Hstep & Hsb).
      rewrite Et in Et'. injection Et' as <-.
      exists sb. split; [exact Hstep|]. by apply at_substage_label.
    + intros now i sb Hi Hstep. apply at_substage_label.
      by eapply feedback_waits_for_its_timer.
Qed.

(** C1. In a DMTO trial of stimulus set 1 whose sample belongs to group
    "E", the feedback stage puts the control colour ("dark slate gray") on
    the sample key, whatever the choice was: the sample is not shown again
    (unless it is itself called like the control colour). *)
Theorem set_1_experimental_feedback_is_the_control_colour correct (s : State) :
  training_phase s = 1 → stimulus_set_num s = 1 →
  exp_condition s = CondLetter "E" →
  ∃ s', feedback_stage correct s = Some s'
        ∧ trial_stage s' = 4
        ∧ keys_on_top (canvas s') = true
        ∧ dict_get (current_key_stimulus_dict s') sample_key = control_feedback_color
        ∧ sample_stimulus s' = sample_stimulus s
        ∧ (sample_stimulus s ≠ control_feedback_color →
           dict_get (current_key_stimulus_dict s') sample_key ≠ sample_stimulus s').
Proof.
  intros Hp Hset Hcond.
  unfold feedback_stage. cbv zeta.
  cbn [stimulus_set_num exp_condition rng config set_trial_stage
       set_trial_substage_start_time].
  rewrite Hset, Hcond.
  destruct (choice_is_Some (range 2 5) (rng s)) as [d Hd]; [done|].
  rewrite Hd. cbn [bool_decide andb].
  replace (bool_decide (1 ∈ [3; 12])) with false by reflexivity. cbn [andb].
  unfold build_keys, calculate_trial_key_stimuli.
  cbn [trial_stage stimulus_set_num exp_condition training_phase rng config
       set_trial_stage set_trial_substage_start_time set_feedback_duration set_rng
       set_canvas set_current_key_stimulus_dict feedback_duration sample_stimulus
       feedback_stimulus].
  rewrite Hset, Hcond, Hp. cbn. rewrite String.eqb_refl. cbn.
  match goal with
  | |- context [if ?b then _ else _] =>
      destruct b eqn:E; [apply Z.eqb_eq in E; congruence|]
  end.
  eexists. split; [reflexivity|]. cbn. repeat split. intros Hne Heq. by apply Hne.
Qed.

Lemma as_options_counts n :
  length (as_options n) = (if n >? 15 then 4 else 3)%nat
  ∧ occurrences "left_comparison_key" (as_options n) = 1%nat
  ∧ occurrences "right_comparison_key" (as_options n) = 1%nat
  ∧ occurrences "sample_key" (as_options n) = (if n >? 15 then 2 else 1)%nat.
Proof. unfold as_options. destruct (n >? 15); by vm_compute. Qed.

(** C6 (amended). In the autoshaping phase the ITI draws the illuminated
    key by one [choice] over [as_options]: the key is the option at the index
    given by the draw modulo the number of options. The list holds each
    comparison key once and the sample key once, whatever the number of
    elapsed trials, and holds the sample key a second time once the trial
    counter is above 15: three options with one entry each up to then, four
    entries of which two are the sample key afterwards. *)
Theorem autoshaping_key_is_one_draw_from_as_options (s s' : State) :
  training_phase s = 2 →
  (non_CP_trials s >? max_number_of_reinforced_trials s) = false →
  ITI s = Some s' →
  let options := as_options (current_trial_counter s) in
  (∃ g, rng s' = mkRng (draws g) (S (pos g))
        ∧ options !! (draws g (pos g) mod length options)%nat
          = Some (illuminated_key s'))
  ∧ length options = (if current_trial_counter s >? 15 then 4 else 3)%nat
  ∧ occurrences "left_comparison_key" options = 1%nat
  ∧ occurrences "right_comparison_key" options = 1%nat
  ∧ occurrences "sample_key" options
    = (if current_trial_counter s >? 15 then 2 else 1)%nat.
Proof.
  intros Hp Hc H options. split; [|apply as_options_counts].
  destruct (ITI_continue_inv _ _ Hc H) as (s1 & s2 & s3 & H1 & H2 & H3 & ->).
  apply ITI_reset_inv in H1 as (d & g1 & _ & H1).
  apply ITI_pick_sample_inv in H2 as (sample & _ & _ & H2).
  apply ITI_requirement_inv in H3 as (_ & H3).
  assert (training_phase s2 = 2) as Hp2 by (rewrite H2; cbn; rewrite H1; exact Hp).
  assert (current_trial_counter s2 = current_trial_counter s) as Hn
    by (rewrite H2; cbn; rewrite H1; reflexivity).
  specialize (H3 Hp2). rewrite Hn in H3.
  apply choice_inv in H3 as [Hi Hg].
  exists (rng s2). split; [exact Hg|exact Hi].
Qed.

(** ** Example sessions *)

Lemma fb_okb_ok v : fb_okb v = true → fb_ok v.
Proof.
  destruct v as [n|l|]; simpl; [| |done].
  - intros H ->. by rewrite String.eqb_refl in H.
  - intros H. apply Forall_forall. intros n Hn ->.
    rewrite forallb_forall in H. apply list_elem_of_In in Hn.
    specialize (H _ Hn). by rewrite String.eqb_refl in H.
Qed.

Lemma stim_okb_ok i : stim_okb i = true → stim_ok i.
Proof.
  unfold stim_okb, stim_ok. intros [H1 H2]%andb_true_iff. split.
  - intros E. by rewrite E, String.eqb_refl in H1.
  - intros v E. rewrite E in H2. by apply fb_okb_ok.
Qed.

Lemma loaded_okb_ok (s : State) : loaded_okb s = true → loaded_ok s.
Proof.
  unfold loaded_okb, loaded_ok.
  intros [[[H1 H2]%andb_true_iff H3]%andb_true_iff H4]%andb_true_iff.
  repeat split.
  - apply Forall_forall. intros i Hi. apply stim_okb_ok.
    rewrite forallb_forall in H1. apply H1. by apply list_elem_of_In.
  - intros E. by rewrite E in H2.
  - intros E. by rewrite E in H3.
  - intros v E. rewrite E in H4. by apply fb_okb_ok.
Qed.

Lemma session_16_loaded record :
  from_option loaded_okb false (session_16 record) = true.
Proof. destruct record; vm_compute; reflexivity. Qed.

Lemma session_16_start record (s1 : State) :
  session_16 record = Some s1 → session_start s1 ∧ loaded_ok s1.
Proof.
  intros H. split.
  - unfold session_16 in H.
    destruct (MainScreen_init "Wario" record 1 16 "24-10-18" draws_0) as [s0|] eqn:E0;
      [|discriminate].
    by exists "Wario", record, 1, 16, "24-10-18", draws_0, table_16, 0, s0.
  - apply loaded_okb_ok. pose proof (session_16_loaded record) as Hb.
    rewrite H in Hb. exact Hb.
Qed.

Lemma session_16_reachable record evs (s1 s : State) :
  session_16 record = Some s1 → run evs s1 = Some s → reachable s.
Proof.
  intros H Hrun. destruct (session_16_start _ _ H) as [H1 H2].
  exists s1, evs. split; [exact H1|]. split; [exact H2|exact Hrun].
Qed.

Lemma inactive_press_is_only_logged_witness :
  ∃ s1 s, session_16 false = Some s1
    ∧ run [(1, timer_fires 0); (2, timer_fires 1)] s1 = Some s
    ∧ active s left_comparison_key = false
    ∧ ∃ s' r,
        step 3 (press_key left_comparison_key 10 20) s = Some s'
        ∧ s' = set_session_data_frame (session_data_frame s ++ [r]) (set_clock 3 s)
        ∧ non_active_event left_comparison_key (Event r)
        ∧ trial_stage s' = trial_stage s
        ∧ trial_FR s' = trial_FR s
        ∧ feedback_stimulus s' = feedback_stimulus s
        ∧ current_trial_counter s' = current_trial_counter s
        ∧ non_CP_trials s' = non_CP_trials s.
Proof.
  eexists _, _. split; [vm_compute; reflexivity|].
  split; [vm_compute; reflexivity|].
  split; [vm_compute; reflexivity|].
  apply inactive_press_is_only_logged.
  - eapply (session_16_reachable false [(1, timer_fires 0); (2, timer_fires 1)]);
      [vm_compute; reflexivity|vm_compute; reflexivity].
  - vm_compute; reflexivity.
  - vm_compute; reflexivity.
  - vm_compute; reflexivity.
Defined.

Lemma set_1_experimental_feedback_witness :
  ∃ s1 s, session_1 = Some s1 ∧ run to_choice s1 = Some s
    ∧ training_phase s = 1 ∧ stimulus_set_num s = 1
    ∧ exp_condition s = CondLetter "E"
    ∧ sample_stimulus s = "Apple.bmp"
    ∧ ∃ s', feedback_stage true s = Some s'
        ∧ trial_stage s' = 4
        ∧ keys_on_top (canvas s') = true
        ∧ dict_get (current_key_stimulus_dict s') sample_key = control_feedback_color
        ∧ sample_stimulus s' = sample_stimulus s
        ∧ (sample_stimulus s ≠ control_feedback_color →
           dict_get (current_key_stimulus_dict s') sample_key ≠ sample_stimulus s').
Proof.
  eexists _, _. split; [vm_compute; reflexivity|].
  split; [vm_compute; reflexivity|].
  split; [vm_compute; reflexivity|].
  split; [vm_compute; reflexivity|].
  split; [vm_compute; reflexivity|].
  split; [vm_compute; reflexivity|].
  apply set_1_experimental_feedback_is_the_control_colour; vm_compute; reflexivity.
Defined.

Lemma every_pass_repeats_each_stimulus_witness :
  eligible_names table_16 = ["Action.bmp"; "Balloon.bmp"]
  ∧ ∃ q k, build_trial_stimulus_order table_16 96 draws_0 = Some q
      ∧ passes q ≠ []
      ∧ (2 ≤ k)%nat
      ∧ ∀ p x, p ∈ passes q →
          occurrences x p = (k * occurrences x (eligible_names table_16))%nat
          ∧ (x ∈ eligible_names table_16 → (2 ≤ occurrences x p)%nat).
Proof.
  split; [vm_compute; reflexivity|].
  apply every_pass_repeats_each_stimulus.
  - vm_compute. discriminate.
  - vm_compute. lia.
  - lia.
Defined.

Lemma ITI_delay_witness :
  ∃ s1 s', session_16 false = Some s1 ∧ ITI s1 = Some s'
    ∧ trial_delay_duration s' ∈ [2000; 3000; 4000]
    ∧ trial_delay_duration s' ≠ 5000.
Proof.
  eexists _, _. split; [vm_compute; reflexivity|].
  match goal with
  | |- ITI ?s = _ ∧ _ =>
      split; [vm_compute; reflexivity|apply (ITI_delay_is_2_3_or_4_seconds s)]
  end.
  - vm_compute. discriminate.
  - vm_compute. reflexivity.
Defined.

Lemma condition_columns_witness :
  ∃ s1 s, session_16 false = Some s1 ∧ run to_choice s1 = Some s
    ∧ length (session_data_frame s) = 4%nat
    ∧ SampleStimulus <$> session_data_frame s = ["Balloon"; "Balloon"; "Balloon"; "Balloon"]
    ∧ ExpCondition <$> session_data_frame s
      = [CondLetter "C"; CondLetter "C"; CondLetter "C"; CondLetter "C"]
    ∧ (∃ g, exp_condition s1 = CondGroup g ∧ 1 ≤ g ≤ 4)
    ∧ Forall (λ r, StimulusCondition r = ExpCondition r
                   ∧ sample_letter (stimuli_identity_d_list s) (SampleStimulus r)
                       (ExpCondition r)
                   ∧ (NoDup ((λ i, stem (Name i)) <$> stimuli_identity_d_list s) →
                      ∀ i, i ∈ stimuli_identity_d_list s →
                           stem (Name i) = SampleStimulus r →
                           ∃ x, str_at (Group i) 0 = Some x
                                ∧ ExpCondition r = CondLetter x)
                   ∧ ∀ g, ExpCondition r ≠ CondGroup g ∧ StimulusCondition r ≠ CondGroup g)
        (session_data_frame s).
Proof.
  eexists _, _. split; [vm_compute; reflexivity|].
  split; [vm_compute; reflexivity|].
  split; [vm_compute; reflexivity|].
  split; [vm_compute; reflexivity|].
  split; [vm_compute; reflexivity|].
  apply (condition_columns_hold_the_group_letter to_choice).
  - refine (proj1 (session_16_start false _ _)). vm_compute. reflexivity.
  - refine (proj2 (session_16_start false _ _)). vm_compute. reflexivity.
  - vm_compute. reflexivity.
Defined.

Lemma session_ends_witness :
  ∃ s1 s s', session_16 true = Some s1
    ∧ run (play 864 left_comparison_key 1 s1) s1 = Some s
    ∧ record_data s = true
    ∧ completed_trials (session_data_frame s) = 96
    ∧ step 865 (timer_fires 384) s = Some s'
    ∧ destroyed s' = true
    ∧ length (session_data_frame s') = 577%nat
    ∧ csv_file s' = Some (session_data_frame s')
    ∧ non_CP_trials s = 1 + completed_trials (session_data_frame s)
    ∧ (destroyed s' = true ↔ 96 < non_CP_trials s)
    ∧ (destroyed s' = true ↔ 96 ≤ completed_trials (session_data_frame s))
    ∧ (destroyed s' = true →
       timers s' = []
       ∧ (∃ r, Event r = "SessionEnds"
               ∧ session_data_frame s' = (session_data_frame s ++ [r])%list)
       ∧ csv_file s' = if record_data s then Some (session_data_frame s')
                       else csv_file s).
Proof.
  eexists _, _, _. split; [vm_compute; reflexivity|].
  match goal with
  | |- run ?evs ?a1 = Some _ ∧ _ =>
      split; [vm_compute; reflexivity|];
      split; [vm_compute; reflexivity|];
      split; [vm_compute; reflexivity|];
      match goal with
      | |- step _ _ ?a = Some _ ∧ _ =>
          split; [vm_compute; reflexivity|];
          split; [vm_compute; reflexivity|];
          split; [vm_compute; reflexivity|];
          split; [vm_compute; reflexivity|];
          eapply (session_ends_once_96_trials_are_closed 865 384 _ a);
          [ eapply (session_16_reachable true evs a1);
            [vm_compute; reflexivity|vm_compute; reflexivity]
          | vm_compute; reflexivity
          | vm_compute; reflexivity
          | vm_compute; reflexivity ]
      end
  end.
Defined.

Lemma sample_loop_witness :
  ∃ s s0 s1, session_16 false = Some s ∧ run to_ready_signal s = Some s0
    ∧ sample_key_loop 3 s0 = Some s1
    ∧ let evs := [(4, press_key sample_key 0 0); (5, press_key sample_key 0 0);
                  (6, press_key sample_key 0 0)] in
      (Z.of_nat (length (take 2 evs)) < 3 →
       ∃ s, run (take 2 evs) s1 = Some s ∧ trial_stage s = 1
            ∧ trial_FR s = Some (3 - Z.of_nat (length (take 2 evs)))
            ∧ timers s = timers s0)
      ∧ (Z.of_nat (length evs) = 3 →
         ∃ s, run evs s1 = Some s
              ∧ trial_stage s = (if training_phase s0 =? 1 then 2 else 3)
              ∧ callback <$> timers s
                = ((callback <$> timers s0)
                   ++ (if training_phase s0 =? 1 then [cb_matching_stage] else []))%list).
Proof.
  eexists _, _, _. split; [vm_compute; reflexivity|].
  split; [vm_compute; reflexivity|].
  match goal with
  | |- sample_key_loop 3 ?a = Some _ ∧ _ =>
      split; [vm_compute; reflexivity|]; cbv zeta; split;
      [ refine (proj1 (sample_loop_takes_n_presses 3 a _
                         (take 2 [(4, press_key sample_key 0 0);
                                  (5, press_key sample_key 0 0);
                                  (6, press_key sample_key 0 0)]) _ _ _ _ _ _ _ _))
      | refine (proj2 (sample_loop_takes_n_presses 3 a _
                         [(4, press_key sample_key 0 0); (5, press_key sample_key 0 0);
                          (6, press_key sample_key 0 0)] _ _ _ _ _ _ _ _)) ]
  end.
  - right. vm_compute. reflexivity.
  - vm_compute. repeat split; eexists; reflexivity.
  - vm_compute. reflexivity.
  - vm_compute. discriminate.
  - vm_compute. discriminate.
  - lia.
  - vm_compute. reflexivity.
  - repeat constructor; eexists _, _; reflexivity.
  - right. vm_compute. reflexivity.
  - vm_compute. repeat split; eexists; reflexivity.
  - vm_compute. reflexivity.
  - vm_compute. discriminate.
  - vm_compute. discriminate.
  - lia.
  - vm_compute. reflexivity.
  - repeat constructor; eexists _, _; reflexivity.
Defined.

Lemma DMTO_trial_witness :
  ∃ s1 s l l',
    session_16 false = Some s1 ∧ run to_ready_signal s1 = Some s
    ∧ stages a_DMTO_trial s = Some l ∧ last l = Some AtReinforce
    ∧ stages a_DMTO_trial_timed_out s = Some l' ∧ last l' = Some AtTimeout
    ∧ (∃ c, compress l' = [AtReadySignal; AtSampleLoop; AtDelay; AtChoice; AtFeedback c;
                           if c then AtReinforce else AtTimeout])
    ∧ (∃ c, compress l = [AtReadySignal; AtSampleLoop; AtDelay; AtChoice; AtFeedback c;
                          if c then AtReinforce else AtTimeout])
    ∧ (∀ correct (sa sb : State),
         training_phase sa = 1 → destroyed sa = false → is_Some (trial_start sa) →
         timers sa = [] → feedback_stage correct sa = Some sb →
         substage sb = AtFeedback correct)
    ∧ (∀ evs1 (sa : State) c,
         run evs1 s1 = Some sa → substage sa = AtFeedback c →
         ∃ t, timers sa = [t]
           ∧ callback t = (if c then cb_provide_food true else cb_time_out_func)
           ∧ (∀ now, ∃ sb, step now (timer_fires (tid t)) sa = Some sb
                           ∧ substage sb = if c then AtReinforce else AtTimeout)
           ∧ (∀ now i sb, i ≠ timer_fires (tid t) → step now i sa = Some sb →
                          substage sb = AtFeedback c)).
Proof.
  eexists _, _, _, _. split; [vm_compute; reflexivity|].
  split; [vm_compute; reflexivity|].
  split; [vm_compute; reflexivity|].
  split; [vm_compute; reflexivity|].
  split; [vm_compute; reflexivity|].
  split; [vm_compute; reflexivity|].
  split.
  - refine (proj1 (DMTO_trial_visits_each_substage_once
                     to_ready_signal a_DMTO_trial_timed_out _ _ _ _ _ _ _ _ _ _ _ _)).
    + refine (proj1 (session_16_start false _ _)). vm_compute. reflexivity.
    + refine (proj2 (session_16_start false _ _)). vm_compute. reflexivity.
    + vm_compute. reflexivity.
    + vm_compute. reflexivity.
    + vm_compute. reflexivity.
    + vm_compute. reflexivity.
    + apply (bool_decide_unpack _). vm_compute. exact I.
    + apply (bool_decide_unpack _). vm_compute. exact I.
    + right. vm_compute. reflexivity.
  - eapply (DMTO_trial_visits_each_substage_once to_ready_signal a_DMTO_trial).
    + refine (proj1 (session_16_start false _ _)). vm_compute. reflexivity.
    + refine (proj2 (session_16_start false _ _)). vm_compute. reflexivity.
    + vm_compute. reflexivity.
    + vm_compute. reflexivity.
    + vm_compute. reflexivity.
    + vm_compute. reflexivity.
    + apply (bool_decide_unpack _). vm_compute. exact I.
    + apply (bool_decide_unpack _). vm_compute. exact I.
    + left. vm_compute. reflexivity.
Defined.


Lemma autoshaping_key_witness :
  ∃ s s', session_autoshaping = Some s ∧ ITI s = Some s'
    ∧ illuminated_key s' = "sample_key"
    ∧ let options := as_options (current_trial_counter s) in
      (∃ g, rng s' = mkRng (draws g) (S (pos g))
            ∧ options !! (draws g (pos g) mod length options)%nat
              = Some (illuminated_key s'))
      ∧ length options = (if current_trial_counter s >? 15 then 4 else 3)%nat
      ∧ occurrences "left_comparison_key" options = 1%nat
      ∧ occurrences "right_comparison_key" options = 1%nat
      ∧ occurrences "sample_key" options
        = (if current_trial_counter s >? 15 then 2 else 1)%nat.
Proof.
  eexists _, _. split; [vm_compute; reflexivity|].
  match goal with
  | |- ITI ?a = _ ∧ _ =>
      split; [vm_compute; reflexivity|]; split; [vm_compute; reflexivity|];
      apply (autoshaping_key_is_one_draw_from_as_options a)
  end.
  - vm_compute. reflexivity.
  - vm_compute. reflexivity.
  - vm_compute. reflexivity.
Defined.

(** C6, as stated, fails: on the first autoshaping trial of a session (no
    trial has elapsed) the sample key is among the options and is the one
    illuminated when the draw points at it; and once more than 15 trials
    have elapsed the options are not equally likely: the sample key is
    listed twice, each comparison key once. *)
Lemma sample_key_is_an_option_from_the_first_trial :
  ∃ s s', session_autoshaping = Some s
    ∧ training_phase s = 2
    ∧ current_trial_counter s = 0
    ∧ step 1 (timer_fires 0) s = Some s'
    ∧ illuminated_key s' = "sample_key"
    ∧ occurrences "sample_key" (as_options 16) = 2%nat
    ∧ occurrences "left_comparison_key" (as_options 16) = 1%nat
    ∧ occurrences "right_comparison_key" (as_options 16) = 1%nat.
Proof.
  eexists _, _. split; [vm_compute; reflexivity|].
  split; [vm_compute; reflexivity|].
  split; [vm_compute; reflexivity|].
  split; [vm_compute; reflexivity|].
  split; [vm_compute; reflexivity|].
  split; [vm_compute; reflexivity|].
  split; vm_compute; reflexivity.
Qed.

(** C8, as stated, fails: a session started without the record-data flag
    runs its 96 trials and ends at the next ITI check, but no log is written
    to the data file. *)
Lemma a_session_without_record_data_writes_no_file :
  ∃ s1 s, session_16 false = Some s1
    ∧ run (play 1000 left_comparison_key 1 s1) s1 = Some s
    ∧ record_data s = false
    ∧ completed_trials (session_data_frame s) = 96
    ∧ non_CP_trials s = 97
    ∧ destroyed s = true
    ∧ csv_file s = None.
Proof.
  eexists _, _. split; [vm_compute; reflexivity|].
  split; [vm_compute; reflexivity|].
  split; [vm_compute; reflexivity|].
  split; [vm_compute; reflexivity|].
  split; [vm_compute; reflexivity|].
  split; vm_compute; reflexivity.
Qed.

(** * Further properties *)

(** ** Session set-up *)

Lemma dict_lookup_None {V} (d : list (string * V)) k :
  dict_lookup d k = None ↔ k ∉ d.*1.
Proof.
  unfold dict_lookup. induction d as [|[k' v] d IH]; simpl.
  - split; [intros _; apply not_elem_of_nil|done].
  - rewrite filter_cons. simpl. destruct (decide (k' = k)) as [->|Hne]; simpl.
    + split; [discriminate|]. intros H. exfalso. apply H. left.
    + rewrite IH, not_elem_of_cons. split; [intros H; split; [congruence|done]|].
      by intros [_ H].
Qed.

Lemma dict_lookup_Some {V} (d : list (string * V)) k v :
  dict_lookup d k = Some v → (k, v) ∈ d.
Proof.
  unfold dict_lookup. induction d as [|[k' v'] d IH]; simpl; [discriminate|].
  rewrite filter_cons. simpl. destruct (decide (k' = k)) as [->|Hne]; simpl.
  - intros [= ->]. left.
  - intros H. right. by apply IH.
Qed.

Lemma list_at_None {A} (l : list A) (i : Z) :
  list_at l i = None ↔ ¬ (- Z.of_nat (length l) ≤ i < Z.of_nat (length l)).
Proof.
  unfold list_at. destruct (0 <=? i) eqn:E.
  - apply Z.leb_le in E. rewrite lookup_ge_None. lia.
  - apply Z.leb_gt in E. destruct (0 <=? _) eqn:E'.
    + apply Z.leb_le in E'. rewrite lookup_ge_None. lia.
    + apply Z.leb_gt in E'. split; [lia|done].
Qed.

Lemma phase_name_None (phase : Z) :
  list_at training_phase_name_list phase = None ↔ ¬ (-3 ≤ phase ≤ 2).
Proof. rewrite list_at_None. simpl. lia. Qed.

(** X1. [MainScreen.__init__] raises exactly when the subject is not one of
    the nine names of [dict_of_subject_assignments] (KeyError) or the phase
    is no index of the three phase names (IndexError; Python also takes -3
    to -1 as indices). Otherwise the new screen holds the subject's group, a
    number from 1 to 4, in [exp_condition], with the counters at their start
    values, no row in the log and no timer. *)
Theorem MainScreen_init_raises_for_an_unknown_subject_or_phase
    subject record phase set_num today g :
  (MainScreen_init subject record phase set_num today g = None
   ↔ subject ∉ ["TEST"; "Wario"; "Durrell"; "Peach"; "Jubilee"; "Luigi"; "Wenchang";
                "Waluigi"; "Hawthorne"]
     ∨ ¬ (-3 ≤ phase ≤ 2))
  ∧ ∀ s : State,
      MainScreen_init subject record phase set_num today g = Some s →
      ∃ group, (subject, group) ∈ dict_of_subject_assignments
        ∧ exp_condition s = CondGroup group ∧ 1 ≤ group ≤ 4
        ∧ subject_ID s = subject ∧ training_phase s = phase
        ∧ non_CP_trials s = 1 ∧ current_trial_counter s = 0
        ∧ session_data_frame s = [] ∧ timers s = []
        ∧ start_time s = None ∧ trial_start s = None.
Proof.
  unfold MainScreen_init. split.
  - rewrite <- (dict_lookup_None dict_of_subject_assignments subject).
    rewrite <- phase_name_None.
    destruct (dict_lookup dict_of_subject_assignments subject);
      [|split; [by left|done]].
    destruct (list_at training_phase_name_list phase).
    + split; [done|]. by intros [?|?].
    + split; [by right|done].
  - intros s H.
    destruct (dict_lookup dict_of_subject_assignments subject) as [group|] eqn:E;
      [|discriminate].
    destruct (list_at _ _) as [phase_name|]; [|discriminate].
    injection H as <-. exists group. apply dict_lookup_Some in E.
    split; [done|]. split; [done|]. split; [|done].
    unfold dict_of_subject_assignments in E.
    repeat (apply elem_of_cons in E as [[= _ ->]|E]; [lia|]).
    by apply elem_of_nil in E.
Qed.

(** X2. The durations a session runs with, after [__init__] and
    [first_ITI]: the subject TEST gets a time-out and an ITI of 1 s, a
    hopper time of 2 s and its first ITI after 1 ms; every other subject
    keeps 10 s, 15 s and 5 s (4 s for Luigi) and waits 30 s for the first
    ITI. The session clock starts, and the one pending timer calls [ITI]. *)
Theorem first_ITI_sets_the_durations subject record phase set_num today g table now
    (s0 s1 : State) :
  MainScreen_init subject record phase set_num today g = Some s0 →
  first_ITI table now s0 = Some s1 →
  (TO_duration s1, ITI_duration s1, hopper_duration s1)
  = (if String.eqb subject "TEST" then (1000, 1000, 2000)
     else (10000, 15000, if String.eqb subject "Luigi" then 4000 else 5000))
  ∧ timers s1 = [mkTimer 0 (if String.eqb subject "TEST" then 1 else 30000) cb_ITI]
  ∧ start_time s1 = Some now
  ∧ auto_reinforcer_timer s1 = 10000
  ∧ max_number_of_reinforced_trials s1 = 96.
Proof.
  unfold MainScreen_init. intros H0 H1.
  destruct (dict_lookup dict_of_subject_assignments subject) as [group|];
    [|discriminate].
  destruct (list_at _ _) as [phase_name|]; [|discriminate].
  injection H0 as <-. unfold first_ITI in H1. cbn in H1.
  destruct (load_catalog set_num table) as [cat|]; [|discriminate]. cbn in H1.
  destruct (build_trial_stimulus_order _ _ _) as [q|]; [|discriminate].
  destruct (cat_feedback_stimulus cat); cbn in H1;
    destruct (String.eqb subject "TEST"); injection H1 as <-; done.
Qed.

(** ** The stimulus table *)

Lemma pick_control_loop_rest fuel (pre rest : list Stim) fb :
  Forall (λ i, Key i ≠ "S") rest →
  pick_control_loop fuel (length pre) (pre ++ rest)%list fb = ((pre ++ rest)%list, fb).
Proof.
  revert pre rest. induction fuel as [|fuel IH]; intros pre rest Hrest; simpl; [done|].
  destruct rest as [|i rest].
  - rewrite app_nil_r, lookup_ge_None_2; [done|lia].
  - rewrite lookup_app_r, Nat.sub_diag by lia. simpl.
    apply Forall_cons in Hrest as [Hi Hrest].
    apply String.eqb_neq in Hi. rewrite Hi.
    specialize (IH (pre ++ [i])%list rest Hrest).
    rewrite length_app, <- app_assoc in IH. simpl in IH.
    by rewrite Nat.add_1_r in IH.
Qed.

Lemma remove_first_middle `{EqDecision A} (x : A) (l1 l2 : list A) :
  x ∉ l1 → remove_first x (l1 ++ x :: l2)%list = (l1 ++ l2)%list.
Proof.
  induction l1 as [|y l1 IH]; simpl; intros Hx.
  - by rewrite decide_True.
  - apply not_elem_of_cons in Hx as [Hne Hx]. rewrite decide_False by done.
    by rewrite IH.
Qed.

Lemma pick_control_loop_marker fuel (pre l1 : list Stim) x rest rest' fb :
  Forall (λ i, Key i ≠ "S") pre → Forall (λ i, Key i ≠ "S") l1 →
  Key x = "S" →
  (rest = [] ∧ rest' = [] ∨ ∃ y l2, rest = y :: l2 ∧ rest' = l2) →
  Forall (λ i, Key i ≠ "S") rest' →
  (length l1 < fuel)%nat →
  pick_control_loop fuel (length pre) (pre ++ l1 ++ x :: rest)%list fb
  = ((pre ++ l1 ++ rest)%list, Some (Name x)).
Proof.
  revert pre l1. induction fuel as [|fuel IH]; intros pre l1 Hpre Hl1 Hx Hrest Hrest' Hfuel;
    [lia|].
  simpl. destruct l1 as [|i l1].
  - simpl. rewrite lookup_app_r, Nat.sub_diag by lia. simpl.
    rewrite Hx, String.eqb_refl.
    rewrite (remove_first_middle x pre rest).
    2:{ intros Hin. rewrite Forall_forall in Hpre. by apply (Hpre x Hin). }
    destruct Hrest as [[-> ->]|(y & l2 & -> & ->)].
    + rewrite app_nil_r. destruct fuel; simpl; [done|].
      rewrite lookup_ge_None_2; [done|lia].
    + pose proof (pick_control_loop_rest fuel (pre ++ [y])%list l2 (Some (Name x)) Hrest') as H.
      rewrite length_app, <- app_assoc in H. simpl in H.
      by rewrite Nat.add_1_r in H.
  - simpl. rewrite lookup_app_r, Nat.sub_diag by lia. simpl.
    apply Forall_cons in Hl1 as [Hi Hl1].
    pose proof Hi as Hi'. apply String.eqb_neq in Hi'. rewrite Hi'.
    specialize (IH (pre ++ [i])%list l1).
    rewrite length_app, <- !app_assoc in IH. simpl in IH.
    rewrite Nat.add_1_r in IH. apply IH; try done.
    + apply Forall_app. split; [done|]. by constructor.
    + simpl in Hfuel. lia.
Qed.

(** X3. Sets 1 to 4 with one marker row (key ["S"]) in the table: the row
    is taken out of the table, its name becomes the feedback stimulus, and
    the other rows stay in their order. *)
Theorem load_catalog_takes_out_the_marker_row set_num (l1 l2 : list Stim) x :
  set_num ∈ [1; 2; 3; 4] →
  Key x = "S" →
  Forall (λ i, Key i ≠ "S") l1 → Forall (λ i, Key i ≠ "S") l2 →
  load_catalog set_num (l1 ++ x :: l2)%list
  = Some (mkCatalog (l1 ++ l2)%list (Some (Name x)) None None).
Proof.
  intros Hset Hx H1 H2. unfold load_catalog. rewrite bool_decide_eq_true_2 by done.
  destruct l2 as [|y l2].
  - pose proof (pick_control_loop_marker (length (l1 ++ [x])%list) [] l1 x [] [] None)
      as H.
    simpl in H. rewrite H; try done; [by left|rewrite length_app; simpl; lia].
  - (* the loop index moves on while the list shrinks: [y] is skipped *)
    apply Forall_cons in H2 as [Hy H2].
    pose proof (pick_control_loop_marker (length (l1 ++ x :: y :: l2)%list) [] l1 x
                  (y :: l2) l2 None) as H.
    simpl in H. rewrite H; try done.
    + right. by exists y, l2.
    + rewrite length_app. simpl. lia.
Qed.

(** X4. Sets 1 to 4 with two marker rows next to each other: removing the
    first one while the loop walks the list makes the loop step over the
    second, which stays in the table; the feedback stimulus is the first
    marker. *)
Theorem load_catalog_skips_the_row_after_a_marker set_num (l1 l2 : list Stim) x y :
  set_num ∈ [1; 2; 3; 4] →
  Key x = "S" → Key y = "S" →
  Forall (λ i, Key i ≠ "S") l1 → Forall (λ i, Key i ≠ "S") l2 →
  load_catalog set_num (l1 ++ x :: y :: l2)%list
  = Some (mkCatalog (l1 ++ y :: l2)%list (Some (Name x)) None None).
Proof.
  intros Hset Hx Hy H1 H2. unfold load_catalog. rewrite bool_decide_eq_true_2 by done.
  pose proof (pick_control_loop_marker (length (l1 ++ x :: y :: l2)%list) [] l1 x
                (y :: l2) l2 None) as H.
  simpl in H. rewrite H; try done.
  - right. by exists y, l2.
  - rewrite length_app. simpl. lia.
Qed.

Lemma same_row_refl i : same_row i i.
Proof. done. Qed.

Lemma set_Feedback_same_row i v : same_row i (set_Feedback i v).
Proof. done. Qed.

Lemma assign_last_same_row p l i : same_row i (assign_last p l i).
Proof. unfold assign_last. by destruct (last_name_with p l None). Qed.

Lemma resolve_10_same_row l i i' : resolve_10 l i = Some i' → same_row i i'.
Proof.
  unfold resolve_10. destruct (str_in "E" (Group i)); [by intros [= <-]|].
  destruct (str_in "C" (Group i)); [|by intros [= <-]].
  destruct (str_at (Group i) 1); [|discriminate]. by intros [= <-].
Qed.

Lemma resolve_13_15_same_row set_num l i i' :
  resolve_13_15 set_num l i = Some i' → same_row i i'.
Proof.
  unfold resolve_13_15.
  destruct (str_in "E" (Group i) && negb (set_num =? 15)); [by intros [= <-]|].
  destruct (str_in "E" (Group i) && (set_num =? 15)).
  { destruct (split_dot (Group i) !! 1%nat); [|discriminate].
    intros [= <-]. apply assign_last_same_row. }
  destruct (str_in "C" (Group i)); [|by intros [= <-]].
  destruct (split_dot (Group i) !! 1%nat); [|discriminate].
  intros [= <-]. apply assign_last_same_row.
Qed.

Lemma resolve_16_17_same_row i : same_row i (resolve_16_17 i).
Proof. unfold resolve_16_17. by destruct (str_in "E" (Group i)). Qed.

Lemma resolve_default_same_row set_num l i : same_row i (resolve_default set_num l i).
Proof.
  unfold resolve_default. destruct (str_in "C" (Group i)).
  - destruct (bool_decide _); [done|apply assign_last_same_row].
  - by destruct (str_in "E" (Group i)).
Qed.

Ltac elem_of_false H :=
  repeat (apply elem_of_cons in H as [?|H]; [lia|]); by apply elem_of_nil in H.

Lemma load_catalog_rows set_num l cat :
  set_num ∉ [1; 2; 3; 4] →
  load_catalog set_num l = Some cat →
  Forall2 (λ i i', same_row i i'
                   ∧ (set_num = 10 → resolve_10 l i = Some i')
                   ∧ (set_num ∈ [13; 14; 15] → resolve_13_15 set_num l i = Some i')
                   ∧ (set_num ∈ [16; 17] → i' = resolve_16_17 i)
                   ∧ (set_num ≠ 10 → set_num ∉ [13; 14; 15] → set_num ∉ [16; 17] →
                      i' = resolve_default set_num l i))
    l (cat_list cat)
  ∧ cat_feedback_stimulus cat = None.
Proof.
  intros Hset. unfold load_catalog. rewrite bool_decide_eq_false_2 by done.
  destruct (set_num =? 10) eqn:E10.
  { apply Z.eqb_eq in E10. subst.
    destruct (mapM (resolve_10 l) l) as [l'|] eqn:E; [|discriminate]. intros [= <-].
    split; [|done]. apply mapM_Some in E. simpl.
    eapply Forall2_impl; [exact E|]. intros i i' Hi. cbn beta in Hi |- *.
    split; [by eapply resolve_10_same_row|]. split; [done|].
    split; [intros H; exfalso; elem_of_false H|].
    split; [intros H; exfalso; elem_of_false H|].
    done. }
  apply Z.eqb_neq in E10.
  destruct (bool_decide (set_num ∈ [13; 14; 15])) eqn:E13.
  { apply bool_decide_eq_true_1 in E13.
    destruct (mapM (resolve_13_15 set_num l) l) as [l'|] eqn:E; [|discriminate].
    intros [= <-]. split; [|done]. apply mapM_Some in E. simpl.
    assert (set_num ∉ [16; 17]) as H16.
    { intros H. repeat (apply elem_of_cons in E13 as [->|E13];
        [repeat (apply elem_of_cons in H as [?|H]; [lia|]); by apply elem_of_nil in H|]).
      by apply elem_of_nil in E13. }
    eapply Forall2_impl; [exact E|]. intros i i' Hi. cbn beta in Hi |- *.
    split; [by eapply resolve_13_15_same_row|]. repeat split; done. }
  apply bool_decide_eq_false_1 in E13.
  destruct (bool_decide (set_num ∈ [16; 17])) eqn:E16.
  { apply bool_decide_eq_true_1 in E16. intros [= <-]. split; [|done]. simpl.
    apply Forall2_fmap_r, Forall_Forall2_diag, Forall_forall. intros i _.
    split; [apply resolve_16_17_same_row|]. repeat split; done. }
  apply bool_decide_eq_false_1 in E16.
  intros [= <-]. split; [|done]. simpl.
  apply Forall2_fmap_r, Forall_Forall2_diag, Forall_forall. intros i _.
  split; [apply resolve_default_same_row|]. repeat split; done.
Qed.

(** X5. For the sets that keep their marker rows (every set but 1 to 4),
    the second pass of [first_ITI] keeps every row of the table, in the
    order of the file, with its name, key and group: it writes the feedback
    entries only, and leaves [feedback_stimulus] unset. *)
Theorem load_catalog_writes_only_the_feedback set_num l cat :
  set_num ∉ [1; 2; 3; 4] →
  load_catalog set_num l = Some cat →
  Name <$> cat_list cat = Name <$> l
  ∧ Key <$> cat_list cat = Key <$> l
  ∧ Group <$> cat_list cat = Group <$> l
  ∧ cat_feedback_stimulus cat = None.
Proof.
  intros Hset H. destruct (load_catalog_rows _ _ _ Hset H) as [Hrows Hfb].
  split; [|split; [|split]]; [..|done].
  all: induction Hrows as [|i i' l0 l0' (Hi & _) _ IH]; csimpl; [done|].
  all: destruct Hi as (Hn & Hk & Hg); f_equal; [done|exact IH].
Qed.

(** X6. An experimental row (its group holds an "E" and no "C") is its
    own feedback stimulus in every set that keeps its marker rows, set 15
    apart (there the feedback is looked up by the number of the group). *)
Theorem experimental_rows_are_their_own_feedback set_num l cat i' :
  set_num ∉ [1; 2; 3; 4] → set_num ≠ 15 →
  load_catalog set_num l = Some cat →
  i' ∈ cat_list cat →
  str_in "E" (Group i') = true → str_in "C" (Group i') = false →
  Feedback i' = Some (FbName (Name i')).
Proof.
  intros Hset H15 H Hin HE HC.
  destruct (load_catalog_rows _ _ _ Hset H) as [Hrows _].
  apply list_elem_of_lookup in Hin as [k Hk].
  destruct (Forall2_lookup_r _ _ _ _ _ Hrows Hk) as (i & _ & Hrow & H10 & H13 & H16 & Hdef).
  destruct Hrow as (Hn & _ & Hg). rewrite Hg in HE, HC.
  destruct (decide (set_num = 10)) as [E10|E10].
  { specialize (H10 E10). unfold resolve_10 in H10. rewrite HE in H10.
    injection H10 as <-. simpl. done. }
  destruct (decide (set_num ∈ [13; 14; 15])) as [E13|E13].
  { specialize (H13 E13). unfold resolve_13_15 in H13. rewrite HE in H13.
    assert ((set_num =? 15) = false) as E15 by (by apply Z.eqb_neq).
    rewrite E15 in H13. simpl in H13. injection H13 as <-. done. }
  destruct (decide (set_num ∈ [16; 17])) as [E16|E16].
  { rewrite (H16 E16). unfold resolve_16_17. by rewrite HE. }
  rewrite (Hdef E10 E13 E16). unfold resolve_default. by rewrite HC, HE.
Qed.

(** ** The trial queue *)

Lemma build_order_length fuel l max_trials b : ∀ q q',
  fill_set_of_trials (length l) l [] = Some b →
  build_order fuel l max_trials q = Some q' →
  Z.of_nat (length (order q)) < max_trials + Z.of_nat (length b) →
  max_trials ≤ Z.of_nat (length (order q')) < max_trials + Z.of_nat (length b).
Proof.
  intros q q' Hb. revert q. induction fuel as [|fuel IH]; intros q; simpl.
  - destruct (_ <? _) eqn:E; [discriminate|]. apply Z.ltb_ge in E. intros [= <-]. lia.
  - destruct (_ <? _) eqn:E; [|apply Z.ltb_ge in E; intros [= <-]; lia].
    apply Z.ltb_lt in E. rewrite Hb.
    destruct (shuffle b (queue_rng q)) as [shuffled g] eqn:Hs.
    pose proof (shuffle_Permutation b (queue_rng q)) as Hperm. rewrite Hs in Hperm.
    simpl in Hperm. apply Permutation_length in Hperm.
    intros H _. apply IH in H; [done|]. simpl. rewrite length_app. lia.
Qed.

(** X7. When the table has a row that is no marker and the budget is
    positive, [first_ITI] builds a queue that covers the session. Every
    shuffled pass has the same length, [k] copies of the eligible names,
    where [k] is the least number of copies that is not shorter than the
    table; the queue is the passes one after the other, holds at least as
    many names as the budget has trials and fewer than one pass more, and
    every name in it is the name of a row that is no marker. *)
Theorem the_queue_covers_the_session l max_trials g :
  eligible_names l ≠ [] → 0 < max_trials →
  ∃ q k, build_trial_stimulus_order l max_trials g = Some q
    ∧ (length l ≤ k * length (eligible_names l))%nat
    ∧ (∀ j, (j < k)%nat → (j * length (eligible_names l) < length l)%nat)
    ∧ order q = concat (passes q)
    ∧ (∀ p, p ∈ passes q → length p = (k * length (eligible_names l))%nat)
    ∧ max_trials ≤ Z.of_nat (length (order q))
    ∧ Z.of_nat (length (order q))
      < max_trials + Z.of_nat (k * length (eligible_names l))
    ∧ Forall (λ n, n ∈ eligible_names l) (order q).
Proof.
  intros Hne Hmax.
  destruct (build_trial_stimulus_order_spec l max_trials g Hne Hmax)
    as (q & k & Hq & Hpne & Hc & Hlen & Hmin & Hperm).
  exists q, k. split; [done|]. split; [done|]. split; [done|]. split; [done|].
  assert (∀ p, p ∈ passes q → length p = (k * length (eligible_names l))%nat) as Hpl.
  { intros p Hin. rewrite (Permutation_length (Hperm p Hin)). apply length_repeat_list. }
  split; [exact Hpl|].
  destruct (fill_set_of_trials_is_Some (length l) l 0 Hne) as [b Hb]; [simpl; lia|].
  simpl in Hb.
  assert (length b = (k * length (eligible_names l))%nat) as Hbl.
  { unfold build_trial_stimulus_order in Hq.
    destruct (build_order_inv _ _ _ _ _ Hq eq_refl) as [_ Hp].
    destruct (passes q) as [|p ps'] eqn:Ep; [done|].
    assert (p ∈ p :: ps') as Hin by left.
    destruct (Hp p Hin) as [Hnil|(b' & Hb' & Hpb)]; [by apply elem_of_nil in Hnil|].
    rewrite Hb in Hb'. injection Hb' as <-.
    rewrite <- (Permutation_length Hpb). by apply Hpl. }
  unfold build_trial_stimulus_order in Hq.
  assert (0 < Z.of_nat (k * length (eligible_names l))) as Hpos.
  { destruct l; [done|]. simpl in Hlen. lia. }
  pose proof (build_order_length _ _ _ _ _ _ Hb Hq) as Hbounds. simpl in Hbounds.
  rewrite Hbl in Hbounds.
  split; [lia|]. split; [lia|].
  rewrite Hc. apply Forall_forall. intros n Hn.
  apply list_elem_of_In, in_concat in Hn as (p & Hin & Hn).
  apply list_elem_of_In in Hin, Hn.
  rewrite (Hperm p Hin) in Hn. by eapply elem_of_repeat_list.
Qed.

(** ** What no handler undoes *)

Lemma extends_refl (s : State) : extends s s.
Proof. unfold extends. repeat split; try done; lia. Qed.

Lemma extends_trans (s1 s2 s3 : State) : extends s1 s2 → extends s2 s3 → extends s1 s3.
Proof.
  unfold extends. intros (Hp & Hc & Hs & Ht & Hn) (Hp' & Hc' & Hs' & Ht' & Hn').
  split; [by etrans|]. split; [congruence|]. split; [congruence|]. split; lia.
Qed.

Lemma write_data_extends event outcome (s s' : State) :
  write_data event outcome s = Some s' → extends s s'.
Proof.
  intros H. apply write_data_inv in H as (r & -> & _).
  unfold extends. cbn. split; [by apply prefix_app_r|]. repeat split; try done; lia.
Qed.

Lemma build_keys_extends (s s' : State) : build_keys s = Some s' → extends s s'.
Proof. intros H. apply build_keys_frame in H. rewrite H. exact (extends_refl s). Qed.

Lemma bump_non_CP_extends (s : State) (b : bool) :
  extends s (set_previous_trial_correct b (set_non_CP_trials (non_CP_trials s + 1) s)).
Proof. unfold extends. cbn. repeat split; try done; lia. Qed.

Ltac extends_steps :=
  repeat match goal with
    | H : write_data _ _ _ = Some _ |- _ => apply write_data_extends in H
    | H : build_keys _ = Some _ |- _ => apply build_keys_extends in H
    end.

(** Attribute assignments that [extends] does not look at disappear by
    conversion, so a chain of handler facts closes the goal. *)
Ltac extends_chain :=
  lazymatch goal with
  | |- extends ?c ?d =>
      first
        [ exact (extends_refl c)
        | match goal with
          | H : extends ?a ?b |- _ =>
              refine (extends_trans c a d _ (H : extends a d)); clear H; extends_chain
          end ]
  end.

Lemma provide_food_extends key_pecked (s s' : State) :
  provide_food key_pecked s = Some s' → extends s s'.
Proof.
  unfold provide_food. intros H.
  destruct (write_data None "reinforcer_provided" (clear_canvas s)) as [s1|] eqn:E1;
    [|discriminate].
  apply write_data_extends in E1.
  pose proof (bump_non_CP_extends s1 true) as E2.
  destruct key_pecked.
  - injection H as <-. unfold after. cbn.
    refine (extends_trans s s1 _ E1 E2).
  - destruct (write_data None "auto_reinforcer_provided" _) as [s3|] eqn:E3; [|discriminate].
    apply write_data_extends in E3. injection H as <-. unfold after. cbn.
    refine (extends_trans s s1 _ E1 (extends_trans _ _ _ E2 E3)).
Qed.

Lemma time_out_func_extends (s s' : State) : time_out_func s = Some s' → extends s s'.
Proof.
  unfold time_out_func. intros H.
  destruct (write_data None "time_out" s) as [s1|] eqn:E1; [|discriminate].
  apply write_data_extends in E1. injection H as <-. unfold after. cbn.
  refine (extends_trans s s1 _ E1 _).
  unfold extends. cbn. repeat split; try done; lia.
Qed.

Lemma ready_signal_phase_extends (s s' : State) :
  ready_signal_phase s = Some s' → extends s s'.
Proof. unfold ready_signal_phase. intros H. extends_steps. extends_chain. Qed.

Lemma sample_key_loop_extends n (s s' : State) :
  sample_key_loop n s = Some s' → extends s s'.
Proof. unfold sample_key_loop. intros H. extends_steps. extends_chain. Qed.

Lemma matching_stage_extends (s s' : State) : matching_stage s = Some s' → extends s s'.
Proof. unfold matching_stage. intros H. extends_steps. extends_chain. Qed.

Lemma delay_stage_extends (s s' : State) : delay_stage s = Some s' → extends s s'.
Proof.
  unfold delay_stage, after. intros H. option_steps; subst; extends_steps; extends_chain.
Qed.

Lemma ready_signal_press_extends event (s s' : State) :
  ready_signal_press event s = Some s' → extends s s'.
Proof.
  unfold ready_signal_press. intros H. option_steps.
  apply sample_key_loop_extends in H. extends_steps. extends_chain.
Qed.

Lemma sample_key_press_extends event (s s' : State) :
  sample_key_press event s = Some s' → extends s s'.
Proof.
  unfold sample_key_press. intros H. option_steps; subst;
    repeat match goal with
      | H : delay_stage _ = Some _ |- _ => apply delay_stage_extends in H
      | H : matching_stage _ = Some _ |- _ => apply matching_stage_extends in H
      | H : sample_key_loop _ _ = Some _ |- _ => apply sample_key_loop_extends in H
      end; extends_steps; extends_chain.
Qed.

Lemma feedback_stage_extends correct (s s' : State) :
  feedback_stage correct s = Some s' → extends s s'.
Proof.
  unfold feedback_stage, after. intros H. option_steps; subst; extends_steps; extends_chain.
Qed.

Lemma key_press_extends event keytag (s s' : State) :
  key_press event keytag s = Some s' → extends s s'.
Proof.
  unfold key_press. intros H.
  destruct (String.eqb _ "black"); [by eapply write_data_extends|].
  destruct (training_phase s =? 2) eqn:Ep.
  { option_steps. apply provide_food_extends in H. apply write_data_extends in E.
    destruct (auto_timer s0); extends_chain. }
  destruct (String.eqb _ "white"); [by eapply ready_signal_press_extends|].
  assert (∀ (correct : bool) (reserved : Config → option string) e o,
            (let? s1 := write_data e o s in
             let? s2 := (if bool_decide (stimulus_set_num s1 ∈ [16; 17])
                            && cond_is (exp_condition s1) "C"
                         then let? n := reserved s1 in
                              Some (set_feedback_stimulus (Some (FbName n)) s1)
                         else Some s1) in
             if training_phase s2 =? 1 then feedback_stage correct s2
             else (if correct then provide_food true s2 else time_out_func s2)) = Some s' →
            extends s s') as Hbranch.
  { intros correct reserved e o Hb.
    destruct (write_data e o s) as [s1|] eqn:E1; [|discriminate].
    apply write_data_extends in E1.
    destruct (if _ && _ then _ else _) as [s2|] eqn:E2; [|discriminate].
    assert (extends s1 s2) as E12.
    { match type of E2 with (if ?b then _ else _) = _ => destruct b end;
        [|injection E2 as <-; exact (extends_refl s1)].
      destruct (reserved _); [|discriminate]. injection E2 as <-.
      exact (extends_refl s1). }
    assert (extends s2 s') as E23.
    { destruct (training_phase s2 =? 1); [by eapply feedback_stage_extends|].
      destruct correct; [by eapply provide_food_extends|by eapply time_out_func_extends]. }
    exact (extends_trans _ _ _ E1 (extends_trans _ _ _ E12 E23)). }
  destruct keytag; [| |by eapply sample_key_press_extends].
  all: destruct (trial_stage s =? 3); [|by eapply write_data_extends].
  all: destruct (_ || _);
    [exact (Hbranch true control_correct_feedback _ _ H)
    |exact (Hbranch false control_incorrect_feedback _ _ H)].
Qed.

Lemma ITI_extends (s s' : State) : ITI s = Some s' → extends s s'.
Proof.
  intros H.
  destruct (non_CP_trials s >? max_number_of_reinforced_trials s) eqn:E.
  - unfold ITI in H. cbn in H. rewrite E in H.
    apply exit_program_inv in H as (s1 & H1 & ->).
    apply write_data_extends in H1. exact H1.
  - destruct (ITI_continue_inv _ _ E H) as (s1 & s2 & s3 & H1 & H2 & H3 & ->).
    apply ITI_reset_inv in H1 as (d & g & _ & H1).
    apply ITI_pick_sample_inv in H2 as (sample & _ & _ & H2).
    apply ITI_requirement_inv in H3 as (H3 & _).
    unfold extends. cbn. rewrite H3. cbn. rewrite H2. cbn. rewrite H1. cbn.
    repeat split; try done; lia.
Qed.

Lemma step_extends now i (s s' : State) : step now i s = Some s' → extends s s'.
Proof.
  unfold step. destruct (destroyed s); [discriminate|].
  destruct i as [keytag x y|x y|id].
  - destruct (keys_on_top _); [|discriminate]. intros H.
    apply key_press_extends in H. exact H.
  - intros H. option_steps. apply write_data_extends in H. exact H.
  - intros H.
    change (find_timer id (set_clock now s)) with (find_timer id s) in H.
    destruct (find_timer id s) as [t|]; [|discriminate].
    destruct (callback t); unfold run_callback in H.
    + apply ITI_extends in H. exact H.
    + apply ready_signal_phase_extends in H. exact H.
    + apply matching_stage_extends in H. exact H.
    + apply provide_food_extends in H. exact H.
    + apply time_out_func_extends in H. exact H.
Qed.

Lemma run_extends evs : ∀ (s s' : State), run evs s = Some s' → extends s s'.
Proof.
  induction evs as [|[now i] evs IH]; intros s s'; simpl.
  - intros [= <-]. apply extends_refl.
  - destruct (step now i s) as [s1|] eqn:Es; [|discriminate]. intros H.
    eapply extends_trans; [by eapply step_extends|by apply IH].
Qed.


(** X9. No handler touches the set-up of the session: phase, stimulus
    set, subject, record-data flag, budget, durations, stimulus table and
    reserved feedback stimuli are, after any events, those that [first_ITI]
    left, and so is the start time. *)
Theorem the_session_set_up_is_constant evs (s s' : State) :
  run evs s = Some s' →
  config s' = config s ∧ start_time s' = start_time s.
Proof. intros H. apply run_extends in H as (_ & ? & ? & _). done. Qed.

(** ** Pecks on the background *)

(** X10. In every state a session can reach in which the background is
    bound, a peck on it never raises: it writes one row with the place of the
    peck and the event type of the moment (ITI, trial or time-out) and leaves
    everything else as it is. *)
Theorem background_pecks_are_always_logged now x y (s : State) :
  reachable s → destroyed s = false → is_Some (bkgrd (canvas s)) →
  ∃ s' r e,
    step now (press_bkgrd x y) s = Some s'
    ∧ bkgrd (canvas s) = Some e
    ∧ e ∈ ["ITI_peck"; "background_peck"; "TO_peck"]
    ∧ s' = set_session_data_frame (session_data_frame s ++ [r]) (set_clock now s)
    ∧ Event r = e ∧ Xcord r = Some x ∧ Ycord r = Some y
    ∧ TrialNum r = current_trial_counter s
    ∧ NonCPTrialNum r = non_CP_trials s.
Proof.
  intros Hr Hd [e He]. apply Inv_reachable in Hr as HI.
  pose proof (inv_canvas_times _ HI) as Hts. rewrite He in Hts.
  specialize (Hts (or_intror (mk_is_Some _ _ eq_refl))).
  destruct (inv_start _ HI) as [t0 Ht0]. pose proof Hts as [t1 Ht1].
  destruct (inv_substage _ HI Hts) as [t2 Ht2].
  pose proof (inv_bkgrd _ HI) as Hb. rewrite He in Hb.
  unfold step. rewrite Hd. cbn. rewrite He. unfold write_data. cbn.
  rewrite Ht0, Ht1, Ht2. eexists _, _, e. split; [reflexivity|].
  split; [done|]. split; [|by repeat split].
  unfold bkgrd_event_types in Hb.
  apply elem_of_cons in Hb as [Hb|Hb]; [discriminate|].
  repeat (apply elem_of_cons in Hb as [[= ->]|Hb];
          [rewrite !elem_of_cons; auto|]).
  by apply elem_of_nil in Hb.
Qed.

(** ** Timers of a DMTO session *)


(** ** Durations drawn during a trial *)

Lemma range_3_10 : range 3 10 = [3; 4; 5; 6; 7; 8; 9].
Proof. reflexivity. Qed.

Lemma build_keys_frame_no_timer (s s' : State) :
  training_phase s ≠ 2 → build_keys s = Some s' →
  s' = set_canvas (canvas s')
         (set_rng (rng s')
            (set_current_key_stimulus_dict (current_key_stimulus_dict s') s)).
Proof.
  intros Hp. unfold build_keys. intros H. apply Z.eqb_neq in Hp.
  destruct (_ && _ && _); [by injection H as <-|].
  destruct (calculate_trial_key_stimuli s) as [s1|] eqn:E; [|discriminate].
  apply calculate_frame in E.
  cbn [training_phase set_canvas config] in H.
  assert (training_phase s1 = training_phase s) as Hp1 by (by rewrite E).
  rewrite Hp1, Hp in H. injection H as <-. rewrite E. reflexivity.
Qed.

(** X12. Outside autoshaping, the feedback stage schedules exactly one
    callback, the reinforcement after a correct choice and the time-out after
    an incorrect one, after the feedback duration it records. For a control
    trial of sets 3 and 12 that is 1 ms, with the display left as it is.
    Otherwise it is 2, 3 or 4 s and the background is bound anew: for a
    control trial of set 11 no key is drawn on it; in every other case the
    keys are drawn, the comparison keys black and the sample key showing the
    feedback stimulus (the control colour for an experimental trial of set
    1), which then is a single name. Set 10 is left out: the feedback
    stimulus that [ITI] draws there for an experimental trial is one
    character of the sample's name, for which [build_keys] finds no image. *)
Theorem feedback_lasts_2_3_or_4_seconds correct (s s' : State) :
  training_phase s ≠ 2 → stimulus_set_num s ≠ 10 →
  feedback_stage correct s = Some s' →
  trial_stage s' = 4
  ∧ ∃ t, timers s' = (timers s ++ [t])%list
      ∧ callback t = (if correct then cb_provide_food true else cb_time_out_func)
      ∧ feedback_duration s' = Some (delay_ms t)
      ∧ if bool_decide (stimulus_set_num s ∈ [3; 12]) && cond_is (exp_condition s) "C"
        then delay_ms t = 1 ∧ canvas s' = canvas s
             ∧ current_key_stimulus_dict s' = current_key_stimulus_dict s
        else delay_ms t ∈ [2000; 3000; 4000]
             ∧ if (stimulus_set_num s =? 11) && cond_is (exp_condition s) "C"
               then canvas s' = mkCanvas (Some "background_peck") false
                    ∧ current_key_stimulus_dict s' = current_key_stimulus_dict s
               else canvas s' = mkCanvas (Some "background_peck") true
                    ∧ ∃ shown,
                        current_key_stimulus_dict s' = mkKeyDict "black" "black" shown
                        ∧ if cond_is (exp_condition s) "E" && (stimulus_set_num s =? 1)
                          then shown = control_feedback_color
                          else feedback_stimulus s = Some (FbName shown).
Proof.
  intros Hp _. unfold feedback_stage. cbv zeta.
  cbn [stimulus_set_num exp_condition config set_trial_stage
       set_trial_substage_start_time rng].
  destruct (bool_decide _ && cond_is _ _).
  - cbn. intros [= <-]. cbn. split; [done|]. eexists. by repeat split.
  - destruct (choice (range 2 5) (rng s)) as [[d g]|] eqn:Ec; [|discriminate].
    apply choice_elem_of in Ec. rewrite range_2_5 in Ec.
    assert (d * 1000 ∈ [2000; 3000; 4000]) as Hd.
    { repeat (apply elem_of_cons in Ec as [->|Ec]; [rewrite !elem_of_cons; auto|]).
      by apply elem_of_nil in Ec. }
    apply Z.eqb_neq in Hp.
    unfold build_keys.
    cbn [trial_stage stimulus_set_num exp_condition config set_rng set_feedback_duration
         set_trial_substage_start_time set_trial_stage Z.eqb Pos.eqb andb].
    destruct ((stimulus_set_num s =? 11) && cond_is (exp_condition s) "C").
    + cbn. intros [= <-]. cbn. split; [done|]. eexists. split; [reflexivity|]. cbn.
      by repeat split.
    + unfold calculate_trial_key_stimuli.
      cbn [training_phase trial_stage stimulus_set_num exp_condition config set_rng
           set_feedback_duration set_trial_substage_start_time set_trial_stage
           feedback_stimulus rng Z.eqb Pos.eqb andb orb negb].
      rewrite Hp. cbn [Z.eqb Pos.eqb andb orb negb].
      destruct (cond_is (exp_condition s) "E" && (stimulus_set_num s =? 1)).
      * cbn. rewrite Hp. cbn. intros [= <-]. cbn. split; [done|].
        eexists. split; [reflexivity|]. cbn. split; [done|]. split; [done|].
        split; [done|]. split; [done|]. by eexists.
      * destruct (feedback_stimulus s) as [[n| |]|]; try discriminate.
        cbn. rewrite Hp. cbn. intros [= <-]. cbn. split; [done|].
        eexists. split; [reflexivity|]. cbn. split; [done|]. split; [done|].
        split; [done|]. split; [done|]. by eexists.
Qed.

(** X13. Each ITI that starts a trial sets the fixed ratio of a DMTO trial
    to a draw from 3 to 9; in MTO and autoshaping it leaves the ratio that
    [__init__] set (5 and 1). The trial counter goes up by one and the ready
    signal is scheduled after the ITI duration. *)
Theorem ITI_draws_the_fixed_ratio (s s' : State) :
  non_CP_trials s ≤ max_number_of_reinforced_trials s →
  ITI s = Some s' →
  (training_phase s = 1 → 3 ≤ sample_key_FR s' ≤ 9)
  ∧ (training_phase s ≠ 1 → sample_key_FR s' = sample_key_FR s)
  ∧ current_trial_counter s' = current_trial_counter s + 1
  ∧ timers s'
    = (timers s ++ [mkTimer (next_timer s) (ITI_duration s) cb_ready_signal_phase])%list
  ∧ trial_stage s' = 0
  ∧ canvas s' = mkCanvas (Some "ITI_peck") false.
Proof.
  intros Hc H.
  assert ((non_CP_trials s >? max_number_of_reinforced_trials s) = false) as Hc'
    by (rewrite Z.gtb_ltb; apply Z.ltb_ge; lia).
  destruct (ITI_continue_inv _ _ Hc' H) as (s1 & s2 & s3 & H1 & H2 & H3 & ->).
  apply ITI_reset_inv in H1 as (d & g & _ & H1).
  apply ITI_pick_sample_inv in H2 as (sample & _ & _ & H2).
  assert (training_phase s2 = training_phase s) as Hp2
    by (rewrite H2; cbn; rewrite H1; reflexivity).
  assert (sample_key_FR s2 = sample_key_FR s) as Hfr2
    by (rewrite H2; cbn; rewrite H1; reflexivity).
  assert ((training_phase s = 1 → 3 ≤ sample_key_FR s3 ≤ 9)
          ∧ (training_phase s ≠ 1 → sample_key_FR s3 = sample_key_FR s)) as Hfr.
  { unfold ITI_requirement in H3. rewrite Hp2 in H3.
    destruct (training_phase s =? 1) eqn:Ep.
    - apply Z.eqb_eq in Ep.
      destruct (choice (range 3 10) (rng s2)) as [[FR g']|] eqn:Ech; [|discriminate].
      injection H3 as <-. apply choice_elem_of in Ech. rewrite range_3_10 in Ech.
      split; [|intros; lia]. intros _. cbn.
      repeat (apply elem_of_cons in Ech as [->|Ech]; [lia|]).
      by apply elem_of_nil in Ech.
    - apply Z.eqb_neq in Ep. split; [intros; lia|]. intros _.
      destruct (training_phase s =? 2).
      + destruct (choice _ _) as [[key g']|]; [|discriminate].
        injection H3 as <-. exact Hfr2.
      + injection H3 as <-. exact Hfr2. }
  apply ITI_requirement_inv in H3 as (H3 & _).
  destruct Hfr as [Hfr1 Hfr0]. unfold after. cbn.
  split; [exact Hfr1|]. split; [exact Hfr0|].
  rewrite H3. cbn. rewrite H2. cbn. rewrite H1. cbn. done.
Qed.

(** ** Autoshaping *)

Lemma write_data_row event outcome (s s' : State) :
  write_data event outcome s = Some s' →
  ∃ r, s' = set_session_data_frame (session_data_frame s ++ [r]) s
       ∧ Event r = outcome
       ∧ Xcord r = fst <$> event ∧ Ycord r = snd <$> event
       ∧ TrialSubStage r = trial_stage s
       ∧ TrialNum r = current_trial_counter s
       ∧ NonCPTrialNum r = non_CP_trials s.
Proof.
  unfold write_data. intros H.
  destruct (start_time s), (trial_start s), (trial_substage_start_time s);
    try discriminate.
  injection H as <-. eexists. by repeat split.
Qed.

Lemma provide_food_true_inv (s s' : State) :
  provide_food true s = Some s' →
  ∃ r, s' = snd (after (hopper_duration s) cb_ITI
                   (set_previous_trial_correct true
                      (set_non_CP_trials (non_CP_trials s + 1)
                         (set_session_data_frame (session_data_frame s ++ [r])
                            (clear_canvas s)))))
       ∧ Event r = "reinforcer_provided" ∧ Xcord r = None ∧ Ycord r = None
       ∧ NonCPTrialNum r = non_CP_trials s.
Proof.
  unfold provide_food. intros H.
  destruct (write_data None "reinforcer_provided" (clear_canvas s)) as [s1|] eqn:E;
    [|discriminate].
  apply write_data_row in E as (r & -> & He & Hx & Hy & _ & _ & Hn).
  injection H as <-. exists r. by repeat split.
Qed.

Lemma filter_all {A} (P : A → Prop) `{∀ x, Decision (P x)} (l : list A) :
  (∀ x, P x) → filter P l = l.
Proof.
  intros HP. induction l as [|x l IH]; [done|].
  rewrite filter_cons, decide_True by done. by rewrite IH.
Qed.

(** X14. In the autoshaping phase a peck on a lit key is reinforced at
    once: the peck and the reinforcer are logged, in this order, the
    auto-reinforcer timer of the trial is cancelled (so the food is not given a
    second time), the keys are taken off the canvas, the counter of trials
    goes up by one, and [ITI] is scheduled after the hopper time. *)
Theorem an_autoshaping_peck_is_reinforced_at_once event keytag (s s' : State) :
  training_phase s = 2 →
  dict_get (current_key_stimulus_dict s) keytag ≠ "black" →
  key_press event keytag s = Some s' →
  (∃ r1 r2,
     session_data_frame s' = (session_data_frame s ++ [r1; r2])%list
     ∧ Event r1 = "auto_shaping_active_" +:+ keytag_name keytag +:+ "_peck"
     ∧ Xcord r1 = fst <$> event ∧ Ycord r1 = snd <$> event
     ∧ Event r2 = "reinforcer_provided" ∧ Xcord r2 = None ∧ Ycord r2 = None)
  ∧ timers s'
    = (filter (λ t, Some (tid t) ≠ auto_timer s) (timers s)
       ++ [mkTimer (next_timer s) (hopper_duration s) cb_ITI])%list
  ∧ non_CP_trials s' = non_CP_trials s + 1
  ∧ previous_trial_correct s' = true
  ∧ canvas s' = mkCanvas None false.
Proof.
  intros Hp Hb. unfold key_press. cbv zeta.
  apply String.eqb_neq in Hb. rewrite Hb, Hp. cbn [Z.eqb Pos.eqb].
  destruct (write_data event _ s) as [s1|] eqn:E1; [|discriminate].
  apply write_data_row in E1 as (r1 & -> & He1 & Hx1 & Hy1 & _).
  cbn [auto_timer set_session_data_frame].
  intros H. apply provide_food_true_inv in H as (r2 & -> & He2 & Hx2 & Hy2 & _).
  destruct (auto_timer s) as [id|] eqn:Ea; cbn.
  - rewrite <- app_assoc. split; [exists r1, r2; by repeat split|].
    repeat split. f_equal. apply list_filter_iff. intros t. split; congruence.
  - rewrite <- app_assoc. split; [exists r1, r2; by repeat split|].
    repeat split. f_equal. symmetry. by apply filter_all.
Qed.

(** ** The control panel *)

(** X15. Pressing "Start program" raises only when a subject and a stimulus
    set of the menus are selected and the phase is no index of the three
    phase names, so never for the values 0 to 2 of the radio buttons. A
    screen is built only when the subject is one of the six names of the menu
    and the stimulus set is one of the seventeen titles; the screen then has
    the number in front of the title as its stimulus set (1 to 17), the
    subject, phase and record-data flag of the panel, and a group from 1 to
    4: [__init__] finds every subject of the menu in its table of groups.
    Anything else (the menu's initial "Select") is refused with a message. *)
Theorem the_panel_starts_only_complete_sessions subject title record phase today g :
  (build_chamber_screen subject title record phase today g = None
   ↔ subject ∈ ["TEST"; "Luigi"; "Peach"; "Waluigi"; "Wario"; "Wenchang"]
     ∧ title ∈ stimuli_titles ∧ ¬ (-3 ≤ phase ≤ 2))
  ∧ (0 ≤ phase ≤ 2 →
     is_Some (build_chamber_screen subject title record phase today g))
  ∧ ∀ r, build_chamber_screen subject title record phase today g = Some r →
      match r with
      | ScreenBuilt s =>
          subject ∈ ["TEST"; "Luigi"; "Peach"; "Waluigi"; "Wario"; "Wenchang"]
          ∧ (∃ k, stimuli_titles !! k = Some title
                  ∧ stimulus_set_num s = Z.of_nat k + 1)
          ∧ 1 ≤ stimulus_set_num s ≤ 17
          ∧ subject_ID s = subject ∧ training_phase s = phase
          ∧ record_data s = record
          ∧ ∃ group, exp_condition s = CondGroup group ∧ 1 ≤ group ≤ 4
      | Refused _ =>
          subject ∉ ["TEST"; "Luigi"; "Peach"; "Waluigi"; "Wario"; "Wenchang"]
          ∨ title ∉ stimuli_titles
      end.
Proof.
  assert (build_chamber_screen subject title record phase today g = None
          ↔ subject ∈ ["TEST"; "Luigi"; "Peach"; "Waluigi"; "Wario"; "Wenchang"]
            ∧ title ∈ stimuli_titles ∧ ¬ (-3 ≤ phase ≤ 2)) as Hnone.
  { unfold build_chamber_screen.
    change pigeon_name_list
      with ["TEST"; "Luigi"; "Peach"; "Waluigi"; "Wario"; "Wenchang"].
    case_bool_decide as Es; [|split; [done|by intros [? _]]].
    case_bool_decide as Et; [|split; [done|by intros (_ & ? & _)]].
    apply list_elem_of_lookup in Et as [k Hk].
    assert (∃ n, head (split_colon title) ≫= py_int = Some n) as (n & Hn).
    { do 17 (destruct k as [|k]; [injection Hk as <-; eexists; by vm_compute|]).
      discriminate. }
    destruct (head (split_colon title)) as [number|]; [|discriminate]. simpl in Hn.
    rewrite Hn. rewrite <- phase_name_None. unfold MainScreen_init.
    assert (is_Some (dict_lookup dict_of_subject_assignments subject)) as [group ->].
    { repeat (apply elem_of_cons in Es as [->|Es]; [by eexists|]).
      by apply elem_of_nil in Es. }
    destruct (list_at training_phase_name_list phase).
    - split; [done|]. by intros (_ & _ & ?).
    - split; [|done]. intros _. split; [done|]. split; [|done].
      apply list_elem_of_lookup. by exists k. }
  split; [exact Hnone|]. split.
  { intros Hphase.
    destruct (build_chamber_screen subject title record phase today g) eqn:E;
      [by eexists|].
    destruct Hnone as [Hn _]. destruct (Hn eq_refl) as (_ & _ & ?). lia. }
  intros r. unfold build_chamber_screen.
  change pigeon_name_list
    with ["TEST"; "Luigi"; "Peach"; "Waluigi"; "Wario"; "Wenchang"].
  case_bool_decide as Es; [|intros [= <-]; by left].
  case_bool_decide as Et; [|intros [= <-]; by right].
  apply list_elem_of_lookup in Et as [k Hk].
  assert (∃ n, head (split_colon title) ≫= py_int = Some n
               ∧ n = Z.of_nat k + 1 ∧ 1 ≤ n ≤ 17) as (n & Hn & Hnk & Hrange).
  { do 17 (destruct k as [|k]; [injection Hk as <-; eexists; by vm_compute|]).
    discriminate. }
  destruct (head (split_colon title)) as [number|]; [|discriminate]. simpl in Hn.
  rewrite Hn. unfold MainScreen_init.
  destruct (dict_lookup dict_of_subject_assignments subject) as [group|] eqn:Eg;
    [|discriminate].
  destruct (list_at _ _) as [phase_name|]; [|discriminate].
  intros [= <-]. cbn.
  split; [exact Es|]. split; [exists k; split; [exact Hk|exact Hnk]|].
  split; [exact Hrange|]. split; [done|]. split; [done|]. split; [done|].
  exists group. split; [done|].
  apply dict_lookup_Some in Eg. unfold dict_of_subject_assignments in Eg.
  repeat (apply elem_of_cons in Eg as [[= _ ->]|Eg]; [lia|]).
  by apply elem_of_nil in Eg.
Qed.

(** ** The hopper values file ([hopper_slider.py]) *)

(** X16. A transfer into a table that has the cell [(1, col)] writes the
    value there and nothing else: reading the cell back gives the value, every
    other cell and the shape of the table are as before. Transfers of the up
    and the down value (columns 0 and 1) do not disturb each other. *)
Theorem a_transfer_writes_one_cell col value (t : list (list string)) row :
  t !! 1%nat = Some row → (col < length row)%nat →
  ∃ t', transfer_updown_v col value (Some t) = (Transferred, Some t')
    ∧ cell (Some t') 1 col = Some value
    ∧ (∀ i j, (i, j) ≠ (1%nat, col) → cell (Some t') i j = cell (Some t) i j)
    ∧ length t' = length t
    ∧ (∀ i, length <$> t' !! i = length <$> t !! i)
    ∧ ∀ col2 value2, col2 ≠ col → (col2 < length row)%nat →
        (transfer_updown_v col2 value2 (Some t')).2
        = (transfer_updown_v col value
             (transfer_updown_v col2 value2 (Some t)).2).2.
Proof.
  intros Hrow Hcol. unfold transfer_updown_v at 1. rewrite Hrow.
  rewrite decide_True by done. eexists. split; [reflexivity|].
  assert (1 < length t)%nat as Hlen by (by eapply lookup_lt_Some).
  split; [|split; [|split; [|split]]].
  - unfold cell. rewrite list_lookup_insert_eq by done.
    by rewrite list_lookup_insert_eq.
  - intros i j Hij. unfold cell.
    destruct (decide (i = 1%nat)) as [->|Hi].
    + rewrite list_lookup_insert_eq, Hrow by done.
      rewrite list_lookup_insert_ne; [done|]. intros ->. done.
    + by rewrite list_lookup_insert_ne.
  - by rewrite length_insert.
  - intros i. destruct (decide (i = 1%nat)) as [->|Hi].
    + rewrite list_lookup_insert_eq, Hrow by done. simpl. by rewrite length_insert.
    + by rewrite list_lookup_insert_ne.
  - intros col2 value2 Hne Hcol2.
    assert (transfer_updown_v col2 value2 (Some t)
            = (Transferred, Some (<[1%nat := <[col2 := value2]> row]> t))) as ->.
    { unfold transfer_updown_v. by rewrite Hrow, decide_True. }
    cbn [snd]. unfold transfer_updown_v.
    rewrite !list_lookup_insert_eq by done.
    rewrite !length_insert, !decide_True by done. cbn [snd].
    rewrite !list_insert_insert_eq. f_equal. f_equal.
    by apply list_insert_insert_ne.
Qed.

(** X17. The two ways a transfer fails. Without the file, the error is
    caught: a message is printed and no file is created. With a file that has
    no second row, or whose second row is too short, the assignment raises an
    IndexError that nothing catches, and the file keeps its content. *)
Theorem a_failed_transfer_leaves_the_file col value (file : option (list (list string))) :
  (file = None → transfer_updown_v col value file = (FileNotFound, None))
  ∧ (∀ t, file = Some t →
       ((length t ≤ 1)%nat ∨ ∃ row, t !! 1%nat = Some row ∧ (length row ≤ col)%nat)
       ↔ transfer_updown_v col value file = (IndexError, Some t))
  ∧ ((transfer_updown_v col value file).1 ≠ Transferred →
     (transfer_updown_v col value file).2 = file).
Proof.
  split; [by intros ->|]. split.
  - intros t ->. unfold transfer_updown_v. split.
    + intros [Hlen|(row & Hrow & Hshort)].
      * by rewrite lookup_ge_None_2.
      * rewrite Hrow, decide_False by lia. done.
    + destruct (t !! 1%nat) as [row|] eqn:Hrow.
      * destruct (decide _); [discriminate|]. intros _. right. exists row.
        split; [done|lia].
      * intros _. left. by apply lookup_ge_None_1.
  - unfold transfer_updown_v. destruct file as [t|]; [|done].
    destruct (t !! 1%nat) as [row|]; [|done].
    by destruct (decide _).
Qed.

(** ** The sample of a trial *)

Lemma ITI_assign_other i_dict (s : State) :
  Name i_dict ≠ sample_stimulus s → ITI_assign i_dict s = Some s.
Proof. intros H. unfold ITI_assign. apply String.eqb_neq in H. by rewrite H. Qed.

Lemma for_each_ITI_assign_others l (s : State) :
  (∀ i, i ∈ l → Name i ≠ sample_stimulus s) → for_each ITI_assign l s = Some s.
Proof.
  induction l as [|x l IH]; intros H; [done|].
  rewrite for_each_cons, ITI_assign_other by (apply H; left).
  apply IH. intros i Hi. apply H. by right.
Qed.

Lemma ITI_assign_match i_dict (s s' : State) :
  Name i_dict = sample_stimulus s → ITI_assign i_dict s = Some s' →
  sample_stimulus s' = sample_stimulus s
  ∧ correct_key s' = Key i_dict
  ∧ ∃ c, str_at (Group i_dict) 0 = Some c ∧ exp_condition s' = CondLetter c.
Proof.
  intros Hn. unfold ITI_assign. rewrite Hn, String.eqb_refl.
  destruct (str_at (Group i_dict) 0) as [c|]; [|discriminate]. cbv zeta.
  intros H.
  assert (s' = set_rng (rng s') (set_feedback_stimulus (feedback_stimulus s')
                 (set_correct_key (Key i_dict)
                    (set_exp_condition (CondLetter c) s)))) as ->.
  { option_steps; subst; try reflexivity.
    all: repeat match goal with
           | v : FeedbackVal |- _ => destruct v
           end; option_steps; subst; reflexivity. }
  cbn. split; [done|]. split; [done|]. by exists c.
Qed.

Lemma for_each_ITI_assign_row l : ∀ (s s' : State) i,
  NoDup (Name <$> l) → i ∈ l → Name i = sample_stimulus s →
  for_each ITI_assign l s = Some s' →
  correct_key s' = Key i
  ∧ ∃ c, str_at (Group i) 0 = Some c ∧ exp_condition s' = CondLetter c.
Proof.
  induction l as [|x l IH]; intros s s' i Hnd Hin Hn; [by apply elem_of_nil in Hin|].
  rewrite fmap_cons in Hnd. apply NoDup_cons in Hnd as [Hx Hnd].
  rewrite for_each_cons.
  destruct (ITI_assign x s) as [s1|] eqn:E1; [|discriminate].
  apply elem_of_cons in Hin as [->|Hin].
  - destruct (ITI_assign_match _ _ _ Hn E1) as (Hs & Hk & c & Hc & He).
    rewrite for_each_ITI_assign_others.
    + intros [= <-]. split; [done|]. by exists c.
    + intros j Hj Heq. apply Hx. rewrite Hn, <- Hs, <- Heq.
      apply list_elem_of_fmap. eauto.
  - rewrite ITI_assign_other in E1.
    + injection E1 as <-. by apply IH.
    + intros Heq. apply Hx. rewrite Heq, <- Hn. apply list_elem_of_fmap. eauto.
Qed.

(** X18. An ITI that starts a trial takes the name at the head of the
    queue as the sample and leaves the tail as the queue (first in, first
    out). When the names of the table are distinct, the correct key of the
    trial is the key of the sample's row and the condition is the first
    character of its group; when no row has the name of the sample, the
    correct key stays "NA" and the condition stays that of the trial before. *)
Theorem ITI_takes_the_head_of_the_queue (s s' : State) :
  non_CP_trials s ≤ max_number_of_reinforced_trials s →
  ITI s = Some s' →
  ∃ sample rest,
    trial_stimulus_order s = sample :: rest
    ∧ sample_stimulus s' = sample
    ∧ trial_stimulus_order s' = rest
    ∧ (NoDup (Name <$> stimuli_identity_d_list s) →
       ∀ i, i ∈ stimuli_identity_d_list s → Name i = sample →
         correct_key s' = Key i
         ∧ ∃ c, str_at (Group i) 0 = Some c ∧ exp_condition s' = CondLetter c)
    ∧ ((∀ i, i ∈ stimuli_identity_d_list s → Name i ≠ sample) →
       correct_key s' = "NA" ∧ exp_condition s' = exp_condition s).
Proof.
  intros Hc H.
  assert ((non_CP_trials s >? max_number_of_reinforced_trials s) = false) as Hc'
    by (rewrite Z.gtb_ltb; apply Z.ltb_ge; lia).
  destruct (ITI_continue_inv _ _ Hc' H) as (s1 & s2 & s3 & H1 & H2 & H3 & ->).
  apply ITI_reset_inv in H1 as (d & g & _ & H1).
  apply ITI_pick_sample_inv in H2 as (sample & Hhead & Hfor & H2).
  apply ITI_requirement_inv in H3 as (H3 & _).
  assert (trial_stimulus_order s1 = trial_stimulus_order s) as Hq1 by (by rewrite H1).
  assert (stimuli_identity_d_list s1 = stimuli_identity_d_list s) as Ht1
    by (by rewrite H1).
  rewrite Hq1 in Hhead, H2. rewrite Ht1, Hq1 in Hfor.
  destruct (trial_stimulus_order s) as [|sample' rest] eqn:Eq; [discriminate|].
  injection Hhead as ->. exists sample, rest. split; [done|].
  simpl in H2, Hfor. rewrite decide_True in H2, Hfor by done.
  unfold after. cbn. rewrite H3. cbn.
  split; [by rewrite H2|]. split; [by rewrite H2|]. split.
  - intros Hnd i Hi Hn.
    by apply (for_each_ITI_assign_row _ _ _ i Hnd Hi) in Hfor.
  - intros Hnone. rewrite for_each_ITI_assign_others in Hfor by done.
    injection Hfor as <-. cbn. by rewrite H1.
Qed.

Lemma first_ITI_durations_witness :
  ∃ s0 s1, MainScreen_init "TEST" true 1 16 "24-10-18" draws_0 = Some s0
    ∧ first_ITI table_16 0 s0 = Some s1
    ∧ (TO_duration s1, ITI_duration s1, hopper_duration s1)
      = (if String.eqb "TEST" "TEST" then (1000, 1000, 2000)
         else (10000, 15000, if String.eqb "TEST" "Luigi" then 4000 else 5000))
    ∧ timers s1 = [mkTimer 0 (if String.eqb "TEST" "TEST" then 1 else 30000) cb_ITI]
    ∧ start_time s1 = Some 0
    ∧ auto_reinforcer_timer s1 = 10000
    ∧ max_number_of_reinforced_trials s1 = 96.
Proof.
  eexists _, _. split; [vm_compute; reflexivity|].
  match goal with
  | |- first_ITI _ _ ?a = _ ∧ _ =>
      split; [vm_compute; reflexivity|];
      apply (first_ITI_sets_the_durations "TEST" true 1 16 "24-10-18" draws_0
               table_16 0 a)
  end.
  - vm_compute. reflexivity.
  - vm_compute. reflexivity.
Defined.

Lemma marker_row_witness :
  load_catalog 1
    ([mkStim "Boat.bmp" "R" "C1" None; mkStim "Apple.bmp" "L" "E1" None]
     ++ mkStim "Grey.bmp" "S" "F1" None :: [])%list
  = Some (mkCatalog
            ([mkStim "Boat.bmp" "R" "C1" None; mkStim "Apple.bmp" "L" "E1" None]
             ++ [])%list
            (Some (Name (mkStim "Grey.bmp" "S" "F1" None))) None None).
Proof.
  apply load_catalog_takes_out_the_marker_row.
  - apply (bool_decide_unpack _). vm_compute. exact I.
  - reflexivity.
  - repeat constructor; discriminate.
  - constructor.
Defined.

Lemma skipped_marker_witness :
  load_catalog 2
    ([mkStim "Boat.bmp" "R" "C1" None]
     ++ mkStim "Grey.bmp" "S" "F1" None :: mkStim "Dark.bmp" "S" "F2" None
        :: [mkStim "Apple.bmp" "L" "E1" None])%list
  = Some (mkCatalog
            ([mkStim "Boat.bmp" "R" "C1" None]
             ++ mkStim "Dark.bmp" "S" "F2" None :: [mkStim "Apple.bmp" "L" "E1" None])%list
            (Some (Name (mkStim "Grey.bmp" "S" "F1" None))) None None).
Proof.
  apply load_catalog_skips_the_row_after_a_marker.
  - apply (bool_decide_unpack _). vm_compute. exact I.
  - reflexivity.
  - reflexivity.
  - repeat constructor; discriminate.
  - repeat constructor; discriminate.
Defined.

Lemma only_the_feedback_witness :
  ∃ cat, load_catalog 16 table_16 = Some cat
    ∧ Name <$> cat_list cat = Name <$> table_16
    ∧ Key <$> cat_list cat = Key <$> table_16
    ∧ Group <$> cat_list cat = Group <$> table_16
    ∧ cat_feedback_stimulus cat = None.
Proof.
  eexists. split; [vm_compute; reflexivity|].
  apply (load_catalog_writes_only_the_feedback 16 table_16).
  - apply (bool_decide_unpack _). vm_compute. exact I.
  - vm_compute. reflexivity.
Defined.

Lemma own_feedback_witness :
  ∃ cat i', load_catalog 16 table_16 = Some cat
    ∧ cat_list cat !! 0%nat = Some i'
    ∧ Name i' = "Action.bmp" ∧ Group i' = "E1"
    ∧ Feedback i' = Some (FbName (Name i')).
Proof.
  eexists _, _. split; [vm_compute; reflexivity|].
  split; [vm_compute; reflexivity|].
  split; [reflexivity|]. split; [reflexivity|].
  eapply (experimental_rows_are_their_own_feedback 16 table_16).
  - apply (bool_decide_unpack _). vm_compute. exact I.
  - discriminate.
  - vm_compute. reflexivity.
  - left.
  - vm_compute. reflexivity.
  - vm_compute. reflexivity.
Defined.

Lemma queue_covers_witness :
  ∃ q k, build_trial_stimulus_order table_16 96 draws_0 = Some q
    ∧ (length table_16 ≤ k * length (eligible_names table_16))%nat
    ∧ (∀ j, (j < k)%nat → (j * length (eligible_names table_16) < length table_16)%nat)
    ∧ order q = concat (passes q)
    ∧ (∀ p, p ∈ passes q → length p = (k * length (eligible_names table_16))%nat)
    ∧ 96 ≤ Z.of_nat (length (order q))
    ∧ Z.of_nat (length (order q)) < 96 + Z.of_nat (k * length (eligible_names table_16))
    ∧ Forall (λ n, n ∈ eligible_names table_16) (order q).
Proof.
  apply the_queue_covers_the_session.
  - vm_compute. discriminate.
  - lia.
Defined.


Lemma constant_set_up_witness :
  ∃ s1 s, session_16 false = Some s1 ∧ run to_choice s1 = Some s
    ∧ config s = config s1 ∧ start_time s = start_time s1.
Proof.
  eexists _, _. split; [vm_compute; reflexivity|].
  split; [vm_compute; reflexivity|].
  apply (the_session_set_up_is_constant to_choice). vm_compute. reflexivity.
Defined.

Lemma background_peck_witness :
  ∃ s1 s, session_16 false = Some s1 ∧ run to_ready_signal s1 = Some s
    ∧ ∃ s' r e,
        step 3 (press_bkgrd 100 200) s = Some s'
        ∧ bkgrd (canvas s) = Some e
        ∧ e ∈ ["ITI_peck"; "background_peck"; "TO_peck"]
        ∧ s' = set_session_data_frame (session_data_frame s ++ [r]) (set_clock 3 s)
        ∧ Event r = e ∧ Xcord r = Some 100 ∧ Ycord r = Some 200
        ∧ TrialNum r = current_trial_counter s
        ∧ NonCPTrialNum r = non_CP_trials s.
Proof.
  eexists _, _. split; [vm_compute; reflexivity|].
  split; [vm_compute; reflexivity|].
  apply background_pecks_are_always_logged.
  - eapply (session_16_reachable false to_ready_signal);
      [vm_compute; reflexivity|vm_compute; reflexivity].
  - vm_compute. reflexivity.
  - vm_compute. eexists. reflexivity.
Defined.


Lemma feedback_duration_witness :
  ∃ s1 s0 sw s s', session_16 false = Some s1 ∧ run to_choice s1 = Some s0
    ∧ write_data (Some (0, 0)) "correct_choice" (set_clock 8 s0) = Some sw
    ∧ s = set_feedback_stimulus (FbName <$> control_correct_feedback sw) sw
    ∧ feedback_stimulus s = Some (FbName "Correct.bmp")
    ∧ feedback_stage true s = Some s'
    ∧ step 8 (press_key right_comparison_key 0 0) s0 = Some s'
    ∧ trial_stage s' = 4
    ∧ ∃ t, timers s' = (timers s ++ [t])%list
        ∧ callback t = (if true then cb_provide_food true else cb_time_out_func)
        ∧ feedback_duration s' = Some (delay_ms t)
        ∧ if bool_decide (stimulus_set_num s ∈ [3; 12]) && cond_is (exp_condition s) "C"
          then delay_ms t = 1 ∧ canvas s' = canvas s
               ∧ current_key_stimulus_dict s' = current_key_stimulus_dict s
          else delay_ms t ∈ [2000; 3000; 4000]
               ∧ if (stimulus_set_num s =? 11) && cond_is (exp_condition s) "C"
                 then canvas s' = mkCanvas (Some "background_peck") false
                      ∧ current_key_stimulus_dict s' = current_key_stimulus_dict s
                 else canvas s' = mkCanvas (Some "background_peck") true
                      ∧ ∃ shown,
                          current_key_stimulus_dict s' = mkKeyDict "black" "black" shown
                          ∧ if cond_is (exp_condition s) "E" && (stimulus_set_num s =? 1)
                            then shown = control_feedback_color
                            else feedback_stimulus s = Some (FbName shown).
Proof.
  eexists _, _, _, _, _. split; [vm_compute; reflexivity|].
  split; [vm_compute; reflexivity|].
  split; [vm_compute; reflexivity|].
  split; [vm_compute; reflexivity|].
  split; [vm_compute; reflexivity|].
  match goal with
  | |- feedback_stage true ?a = Some _ ∧ _ =>
      split; [vm_compute; reflexivity|];
      split; [vm_compute; reflexivity|];
      apply (feedback_lasts_2_3_or_4_seconds true a)
  end.
  - vm_compute. discriminate.
  - vm_compute. discriminate.
  - vm_compute. reflexivity.
Defined.

Lemma fixed_ratio_witness :
  ∃ s s', session_16 false = Some s ∧ ITI s = Some s'
    ∧ (training_phase s = 1 → 3 ≤ sample_key_FR s' ≤ 9)
    ∧ (training_phase s ≠ 1 → sample_key_FR s' = sample_key_FR s)
    ∧ current_trial_counter s' = current_trial_counter s + 1
    ∧ timers s'
      = (timers s ++ [mkTimer (next_timer s) (ITI_duration s) cb_ready_signal_phase])%list
    ∧ trial_stage s' = 0
    ∧ canvas s' = mkCanvas (Some "ITI_peck") false.
Proof.
  eexists _, _. split; [vm_compute; reflexivity|].
  match goal with
  | |- ITI ?a = Some _ ∧ _ =>
      split; [vm_compute; reflexivity|]; apply (ITI_draws_the_fixed_ratio a)
  end.
  - vm_compute. discriminate.
  - vm_compute. reflexivity.
Defined.

Lemma autoshaping_peck_witness :
  ∃ s1 s s', session_autoshaping = Some s1 ∧ run to_ready_signal s1 = Some s
    ∧ key_press (Some (5, 6)) sample_key s = Some s'
    ∧ (∃ r1 r2,
         session_data_frame s' = (session_data_frame s ++ [r1; r2])%list
         ∧ Event r1 = "auto_shaping_active_" +:+ keytag_name sample_key +:+ "_peck"
         ∧ Xcord r1 = fst <$> Some (5, 6) ∧ Ycord r1 = snd <$> Some (5, 6)
         ∧ Event r2 = "reinforcer_provided" ∧ Xcord r2 = None ∧ Ycord r2 = None)
    ∧ timers s'
      = (filter (λ t, Some (tid t) ≠ auto_timer s) (timers s)
         ++ [mkTimer (next_timer s) (hopper_duration s) cb_ITI])%list
    ∧ non_CP_trials s' = non_CP_trials s + 1
    ∧ previous_trial_correct s' = true
    ∧ canvas s' = mkCanvas None false.
Proof.
  eexists _, _, _. split; [vm_compute; reflexivity|].
  split; [vm_compute; reflexivity|].
  match goal with
  | |- key_press _ _ ?a = Some _ ∧ _ =>
      split; [vm_compute; reflexivity|];
      apply (an_autoshaping_peck_is_reinforced_at_once (Some (5, 6)) sample_key a)
  end.
  - vm_compute. reflexivity.
  - vm_compute. discriminate.
  - vm_compute. reflexivity.
Defined.

Lemma transfer_witness :
  ∃ t', transfer_updown_v 0 "1600" (Some [["UP"; "DOWN"]; ["1500"; "900"]])
        = (Transferred, Some t')
    ∧ cell (Some t') 1 0 = Some "1600"
    ∧ (∀ i j, (i, j) ≠ (1%nat, 0%nat) →
         cell (Some t') i j = cell (Some [["UP"; "DOWN"]; ["1500"; "900"]]) i j)
    ∧ length t' = length [["UP"; "DOWN"]; ["1500"; "900"]]
    ∧ (∀ i, length <$> t' !! i
            = length <$> [["UP"; "DOWN"]; ["1500"; "900"]] !! i)
    ∧ ∀ col2 value2, col2 ≠ 0%nat → (col2 < length ["1500"; "900"])%nat →
        (transfer_updown_v col2 value2 (Some t')).2
        = (transfer_updown_v 0 "1600"
             (transfer_updown_v col2 value2
                (Some [["UP"; "DOWN"]; ["1500"; "900"]])).2).2.
Proof.
  apply a_transfer_writes_one_cell.
  - reflexivity.
  - simpl. lia.
Defined.

Lemma head_of_the_queue_witness :
  ∃ s s', session_16 false = Some s ∧ ITI s = Some s'
    ∧ ∃ sample rest,
        trial_stimulus_order s = sample :: rest
        ∧ sample_stimulus s' = sample
        ∧ trial_stimulus_order s' = rest
        ∧ (NoDup (Name <$> stimuli_identity_d_list s) →
           ∀ i, i ∈ stimuli_identity_d_list s → Name i = sample →
             correct_key s' = Key i
             ∧ ∃ c, str_at (Group i) 0 = Some c ∧ exp_condition s' = CondLetter c)
        ∧ ((∀ i, i ∈ stimuli_identity_d_list s → Name i ≠ sample) →
           correct_key s' = "NA" ∧ exp_condition s' = exp_condition s).
Proof.
  eexists _, _. split; [vm_compute; reflexivity|].
  match goal with
  | |- ITI ?a = Some _ ∧ _ =>
      split; [vm_compute; reflexivity|]; apply (ITI_takes_the_head_of_the_queue a)
  end.
  - vm_compute. discriminate.
  - vm_compute. reflexivity.
Defined.
